(** * PDF Renamer: a model of [pythonRenamer.py] and its rename logic

    The program is a Tk application: every button runs one method of the
    [PDFRenamer] object to completion.  The model keeps the attributes the
    rename logic reads and writes, the disk, a log of the calls made to the
    outside (message boxes, dialogs, [os.rename], the PDF viewer) and the
    answers the user will give to the modal dialogs.

    Left out: widget layout, window visibility ([withdraw], [deiconify]),
    zoom and page rendering; they neither read nor write the attributes
    modelled here.  Taken from the viewer as given: a document that opened is
    a true value in [if self.doc], and presenting it (page count, first page)
    does not raise.  [close()] releases the document also when it raises,
    which the code logs and ignores.

    Every method is a function from the state to an outcome; the methods
    that loop or call each other take fuel.  The library calls are the fields
    of [Env]; [Posix] is one such environment, used to run the model. *)

From stdpp Require Import base list strings pretty relations.
From Stdlib Require Import ZArith Lia.

Open Scope string_scope.

(** ** Python values used by the code *)

Definition nl : string := String (Ascii.ascii_of_nat 10) EmptyString.

(** [s.endswith(suffix)] *)
Definition endswith (s suffix : string) : bool :=
  (String.length suffix <=? String.length s)%nat &&
  bool_decide
    (String.substring (String.length s - String.length suffix) (String.length suffix) s = suffix).

(** [str(count)] for a non-negative counter, as an f-string renders it. *)
Definition str_of_count (count : nat) : string := pretty count.

(** Truth value of an [Optional[str]]: [None] and the empty string are false. *)
Definition truthy (o : option string) : bool :=
  match o with
  | None => false
  | Some s => negb (bool_decide (s = EmptyString))
  end.

(** Position denoted by a Python list index: negative indices count from the
    end, anything outside [-len, len) is an [IndexError] ([None]). *)
Definition py_index {A} (l : list A) (i : Z) : option nat :=
  let n := Z.of_nat (length l) in
  if (0 <=? i)%Z then (if (i <? n)%Z then Some (Z.to_nat i) else None)
  else if (- n <=? i)%Z then Some (Z.to_nat (n + i)) else None.

(** [l[i]] *)
Definition py_getitem {A} (l : list A) (i : Z) : option A :=
  match py_index l i with
  | Some k => l !! k
  | None => None
  end.

(** [l[i] = v] *)
Definition py_setitem {A} (l : list A) (i : Z) (v : A) : option (list A) :=
  match py_index l i with
  | Some k => Some (<[k:=v]> l)
  | None => None
  end.

(** ** Class constants *)

Definition PDF_EXTENSION : string := ".pdf".
Definition TITLE_ERROR : string := "Error".
Definition TITLE_INFO : string := "Info".
Definition TITLE_FINISHED : string := "Finished".
Definition TITLE_CONFIRM_EXIT : string := "Confirm Exit".

(** ** The outside world *)

(** What [os.listdir] can raise, as [_find_pdf_files] tells the cases apart. *)
Inductive ListdirError :=
| FileNotFoundError
| OtherError (message : string).

(** The library calls the program makes.  [Disk] is the state of the
    filesystem; each call that can raise returns the exception text on the
    right. *)
Record Env (Disk : Type) := {
  str_strip : string → string;
  str_lower : string → string;
  path_join : string → string → string;
  path_abspath : string → string;
  path_normcase : string → string;
  path_basename : string → string;
  path_splitext : string → string * string;
  path_exists : Disk → string → bool;
  os_rename : Disk → string → string → Disk + string;
  os_listdir : Disk → string → list string + ListdirError;
  fitz_open : Disk → string → unit + string;
  doc_close : string → option string
}.

Arguments str_strip {Disk}.
Arguments str_lower {Disk}.
Arguments path_join {Disk}.
Arguments path_abspath {Disk}.
Arguments path_normcase {Disk}.
Arguments path_basename {Disk}.
Arguments path_splitext {Disk}.
Arguments path_exists {Disk}.
Arguments os_rename {Disk}.
Arguments os_listdir {Disk}.
Arguments fitz_open {Disk}.
Arguments doc_close {Disk}.

(** How the user leaves the duplicate dialog. *)
Inductive DialogClick :=
| ClickRenameAgain
| ClickAddNumbering
| ClickSkip
| CloseWindow.

#[global] Instance DialogClick_eq_dec : EqDecision DialogClick.
Proof. solve_decision. Defined.

(** Calls to the outside, in the order they are made (newest first in
    [log]). *)
Inductive Event :=
| EvShowInfo (title message : string)
| EvShowError (title message : string)
| EvAskYesNo (title message : string) (answer : bool)
| EvAskDirectory (initialdir answer : string)
| EvDuplicateDialog (new_name current_file : string) (action : option string) (remember : bool)
| EvRename (src dst : string) (error : option string)
| EvOpen (path : string) (error : option string)
| EvClose (path : string)
| EvPrint (line : string)
| EvDestroy.

(** ** State *)

Record World (Disk : Type) := mkWorld {
  (* attributes of the PDFRenamer object *)
  folder : string;
  pdf_files : list string;
  current_index : Z;
  doc : option string;   (* the open document, named by the path it was opened from *)
  first_load_done : bool;
  duplicate_handling_choice : option string;
  name_entry : string;   (* text of the rename entry *)
  destroyed : bool;      (* window.destroy() has run *)
  (* the outside *)
  disk : Disk;
  log : list Event;
  yesno_answers : list bool;
  directory_answers : list string;
  dialog_answers : list (DialogClick * bool)
}.

Arguments mkWorld {Disk}.
Arguments folder {Disk}.
Arguments pdf_files {Disk}.
Arguments current_index {Disk}.
Arguments doc {Disk}.
Arguments first_load_done {Disk}.
Arguments duplicate_handling_choice {Disk}.
Arguments name_entry {Disk}.
Arguments destroyed {Disk}.
Arguments disk {Disk}.
Arguments log {Disk}.
Arguments yesno_answers {Disk}.
Arguments directory_answers {Disk}.
Arguments dialog_answers {Disk}.

(** Outcome of running a method. *)
Inductive Result (Disk A : Type) :=
| Done (a : A) (w : World Disk)          (* returned [a] *)
| Blocked (w : World Disk)               (* a modal dialog waits for an answer the user has not given *)
| Raised (e : string) (w : World Disk)   (* uncaught exception *)
| OutOfFuel.

Arguments Done {Disk A}.
Arguments Blocked {Disk A}.
Arguments Raised {Disk A}.
Arguments OutOfFuel {Disk A}.

(** The world a run ended or stopped in. *)
Definition last_world {Disk A} (r : Result Disk A) (otherwise : World Disk) : World Disk :=
  match r with
  | Done _ w | Blocked w | Raised _ w => w
  | OutOfFuel => otherwise
  end.

(** What the duplicate dialog returns as [result_action[0]]. *)
Definition action_of_click (c : DialogClick) : option string :=
  match c with
  | ClickRenameAgain => Some "rename_again"
  | ClickAddNumbering => Some "add_numbering"
  | ClickSkip => Some "skip"
  | CloseWindow => None
  end.

(** How the collision handling of [rename_current] leaves (lines 389-417). *)
Inductive Collision :=
| ReturnEarly                   (* [return]: the current file stays *)
| SkipFile                      (* [self.skip_current(); return] *)
| Proceed (new_file_path : string).

Section Renamer.

Context {Disk : Type} (E : Env Disk).

Local Abbreviation World := (World Disk).
Local Abbreviation M A := (World → Result Disk A).

Definition set_folder (v : string) (w : World) : World :=
  mkWorld v (pdf_files w) (current_index w) (doc w) (first_load_done w)
    (duplicate_handling_choice w) (name_entry w) (destroyed w) (disk w) (log w)
    (yesno_answers w) (directory_answers w) (dialog_answers w).

Definition set_pdf_files (v : list string) (w : World) : World :=
  mkWorld (folder w) v (current_index w) (doc w) (first_load_done w)
    (duplicate_handling_choice w) (name_entry w) (destroyed w) (disk w) (log w)
    (yesno_answers w) (directory_answers w) (dialog_answers w).

Definition set_current_index (v : Z) (w : World) : World :=
  mkWorld (folder w) (pdf_files w) v (doc w) (first_load_done w)
    (duplicate_handling_choice w) (name_entry w) (destroyed w) (disk w) (log w)
    (yesno_answers w) (directory_answers w) (dialog_answers w).

Definition set_doc (v : option string) (w : World) : World :=
  mkWorld (folder w) (pdf_files w) (current_index w) v (first_load_done w)
    (duplicate_handling_choice w) (name_entry w) (destroyed w) (disk w) (log w)
    (yesno_answers w) (directory_answers w) (dialog_answers w).

Definition set_first_load_done (v : bool) (w : World) : World :=
  mkWorld (folder w) (pdf_files w) (current_index w) (doc w) v
    (duplicate_handling_choice w) (name_entry w) (destroyed w) (disk w) (log w)
    (yesno_answers w) (directory_answers w) (dialog_answers w).

Definition set_duplicate_handling_choice (v : option string) (w : World) : World :=
  mkWorld (folder w) (pdf_files w) (current_index w) (doc w) (first_load_done w)
    v (name_entry w) (destroyed w) (disk w) (log w)
    (yesno_answers w) (directory_answers w) (dialog_answers w).

Definition set_name_entry (v : string) (w : World) : World :=
  mkWorld (folder w) (pdf_files w) (current_index w) (doc w) (first_load_done w)
    (duplicate_handling_choice w) v (destroyed w) (disk w) (log w)
    (yesno_answers w) (directory_answers w) (dialog_answers w).

Definition set_destroyed (v : bool) (w : World) : World :=
  mkWorld (folder w) (pdf_files w) (current_index w) (doc w) (first_load_done w)
    (duplicate_handling_choice w) (name_entry w) v (disk w) (log w)
    (yesno_answers w) (directory_answers w) (dialog_answers w).

Definition set_disk (v : Disk) (w : World) : World :=
  mkWorld (folder w) (pdf_files w) (current_index w) (doc w) (first_load_done w)
    (duplicate_handling_choice w) (name_entry w) (destroyed w) v (log w)
    (yesno_answers w) (directory_answers w) (dialog_answers w).

Definition set_log (v : list Event) (w : World) : World :=
  mkWorld (folder w) (pdf_files w) (current_index w) (doc w) (first_load_done w)
    (duplicate_handling_choice w) (name_entry w) (destroyed w) (disk w) v
    (yesno_answers w) (directory_answers w) (dialog_answers w).

Definition set_yesno_answers (v : list bool) (w : World) : World :=
  mkWorld (folder w) (pdf_files w) (current_index w) (doc w) (first_load_done w)
    (duplicate_handling_choice w) (name_entry w) (destroyed w) (disk w) (log w)
    v (directory_answers w) (dialog_answers w).

Definition set_directory_answers (v : list string) (w : World) : World :=
  mkWorld (folder w) (pdf_files w) (current_index w) (doc w) (first_load_done w)
    (duplicate_handling_choice w) (name_entry w) (destroyed w) (disk w) (log w)
    (yesno_answers w) v (dialog_answers w).

Definition set_dialog_answers (v : list (DialogClick * bool)) (w : World) : World :=
  mkWorld (folder w) (pdf_files w) (current_index w) (doc w) (first_load_done w)
    (duplicate_handling_choice w) (name_entry w) (destroyed w) (disk w) (log w)
    (yesno_answers w) (directory_answers w) v.

(** *** Sequencing *)

Definition ret {A} (a : A) : M A := fun w => Done a w.

Definition bind {A B} (m : M A) (k : A → M B) : M B :=
  fun w =>
    match m w with
    | Done a w' => k a w'
    | Blocked w' => Blocked w'
    | Raised e w' => Raised e w'
    | OutOfFuel => OutOfFuel
    end.

Notation "'let*' x := m 'in' k" := (bind m (fun x => k))
  (at level 10, x name, m at level 100, k at level 200).
Notation "m >> k" := (bind m (fun _ => k))
  (at level 61, left associativity, k at next level).

(** [try: body  except Exception as e: handler(e)] *)
Definition try_except {A} (body : M A) (handler : string → M A) : M A :=
  fun w =>
    match body w with
    | Raised e w' => handler e w'
    | r => r
    end.

(** *** Calls to the outside *)

Definition emit (e : Event) : M unit :=
  fun w => Done tt (set_log (e :: log w) w).

Definition showinfo (title message : string) : M unit :=
  emit (EvShowInfo title message).

Definition showerror (title message : string) : M unit :=
  emit (EvShowError title message).

Definition askyesno (title message : string) : M bool :=
  fun w =>
    match yesno_answers w with
    | [] => Blocked w
    | b :: rest =>
        Done b (set_log (EvAskYesNo title message b :: log w) (set_yesno_answers rest w))
    end.

(** [duplicate_dialog] (lines 332-362): the button pressed sets
    [result_action[0]]; closing the window leaves it [None]. *)
Definition duplicate_dialog (new_name current_file : string) : M (option string * bool) :=
  fun w =>
    match dialog_answers w with
    | [] => Blocked w
    | (click, remember) :: rest =>
        let result_action := action_of_click click in
        Done (result_action, remember)
          (set_log (EvDuplicateDialog new_name current_file result_action remember :: log w)
             (set_dialog_answers rest w))
    end.

(** [exit_app] (lines 501-502) *)
Definition exit_app : M unit :=
  fun w => Done tt (set_log (EvDestroy :: log w) (set_destroyed true w)).

(** [_close_current_doc] (lines 215-222), for documents with pages: such a
    document is true in [if self.doc].  [Edge._close_current_doc] has the
    document without pages as well. *)
Definition _close_current_doc : M unit :=
  fun w =>
    match doc w with
    | Some d =>
        let w1 := set_log (EvClose d :: log w) w in
        let w2 :=
          match doc_close E d with
          | Some e => set_log (EvPrint ("Error closing document: " +:+ e) :: log w1) w1
          | None => w1
          end in
        Done tt (set_doc None w2)
    | None => Done tt w
    end.

(** [_find_pdf_files] (lines 94-103) *)
Definition _find_pdf_files (folder_path : string) : M (list string) :=
  fun w =>
    match os_listdir E (disk w) folder_path with
    | inl names =>
        Done (filter (λ f, endswith (str_lower E f) PDF_EXTENSION = true) names) w
    | inr FileNotFoundError =>
        (showerror TITLE_ERROR ("Folder not found: " +:+ folder_path) >> ret []) w
    | inr (OtherError e) =>
        (showerror TITLE_ERROR
           ("Error accessing folder " +:+ folder_path +:+ ": " +:+ e) >> ret []) w
    end.

(** [_select_and_load_new_folder_core] (lines 461-490).  Each round of the
    [while True] loop takes the next answer to the directory dialog, so the
    loop is written by recursion on the answers still to come;
    [directory_answers] holds the same list at the start of every round. *)
Fixpoint select_loop (answers : list string) : M bool :=
  fun w =>
    match answers with
    | [] => Blocked w
    | new_folder :: rest =>
        let w :=
          set_log (EvAskDirectory (folder w) new_folder :: log w)
            (set_directory_answers rest w) in
        if bool_decide (new_folder = EmptyString) then
          (let* res := askyesno TITLE_CONFIRM_EXIT
                         "No folder was selected. Do you want to exit the application?" in
           ret (negb res)) w
        else if bool_decide (new_folder = folder w)
                && negb (bool_decide (pdf_files w = [])) then
          (showinfo TITLE_INFO "The selected folder is already the current folder."
           >> ret true) w
        else
          (let* candidate_files := _find_pdf_files new_folder in
           match candidate_files with
           | _ :: _ =>
               _close_current_doc >>
               (fun w =>
                  Done true
                    (set_first_load_done false
                       (set_current_index 0
                          (set_pdf_files candidate_files (set_folder new_folder w)))))
           | [] =>
               showerror TITLE_ERROR
                 ("No PDF files found in '" +:+ new_folder
                  +:+ "'. Please choose another folder.")
               >> select_loop rest
           end) w
    end.

Definition _select_and_load_new_folder_core : M bool :=
  fun w => select_loop (directory_answers w) w.

(** [skip_current] (lines 442-445), over the [load_file] it calls. *)
Definition skip_current_with (load_file : Z → M unit) : M unit :=
  _close_current_doc >>
  (fun w => Done tt (set_current_index (current_index w + 1) w)) >>
  (fun w => load_file (current_index w) w).

(** [change_folder] (lines 492-499), over the [load_file] it calls.
    [withdraw] and [deiconify] change nothing in the state and are left out,
    the window being taken to exist; [Edge.change_folder_with] has them, and
    the error Tk raises once the window is destroyed. *)
Definition change_folder_with (load_file : Z → M unit) : M unit :=
  let* ok := _select_and_load_new_folder_core in
  if ok : bool then (fun w => load_file (current_index w) w)
  else showinfo TITLE_INFO
         "Folder selection cancelled or failed. Continuing with previous state if any.".

(** [load_file] (lines 224-279).  One unit of fuel per call.  A document
    that opens is taken to have a page, so that showing its first page (lines
    253-268) does not raise; [Edge.load_file] has the document without pages
    as well. *)
Fixpoint load_file (fuel : nat) (index : Z) : M unit :=
  match fuel with
  | O => fun _ => OutOfFuel
  | S fuel' =>
      _close_current_doc >>
      (fun w =>
         if (Z.of_nat (length (pdf_files w)) <=? index)%Z then
           if bool_decide (pdf_files w = []) then
             (showinfo TITLE_INFO "No PDF files to process." >>
              let* ok := _select_and_load_new_folder_core in
              if ok : bool then (fun w => load_file fuel' (current_index w) w)
              else exit_app) w
           else
             (let* result := askyesno TITLE_FINISHED
                               "All files processed. Do you want to exit the program?" in
              if result : bool then exit_app
              else change_folder_with (load_file fuel')) w
         else
           match py_getitem (pdf_files w) index with
           | None => Raised "IndexError: list index out of range" w
           | Some current_file =>
               let pdf_path := path_join E (folder w) current_file in
               match fitz_open E (disk w) pdf_path with
               | inr e =>
                   (emit (EvOpen pdf_path (Some e)) >>
                    showerror TITLE_ERROR
                      ("Failed to open PDF: " +:+ current_file +:+ nl +:+ e) >>
                    skip_current_with (load_file fuel')) w
               | inl _ =>
                   let base_name := (path_splitext E current_file).1 in
                   Done tt
                     (set_name_entry base_name
                        (set_first_load_done true
                           (set_doc (Some pdf_path)
                              (set_log (EvOpen pdf_path None :: log w) w))))
               end
           end)
  end.

Definition skip_current (fuel : nat) : M unit := skip_current_with (load_file fuel).

Definition change_folder (fuel : nat) : M unit := change_folder_with (load_file fuel).

(** [prev_file] (lines 447-452) *)
Definition prev_file (fuel : nat) : M unit :=
  fun w =>
    if (0 <? current_index w)%Z then
      let w := set_current_index (current_index w - 1) w in
      load_file fuel (current_index w) w
    else showinfo TITLE_INFO "This is the first file." w.

(** [next_file] (lines 454-459) *)
Definition next_file (fuel : nat) : M unit :=
  fun w =>
    if (current_index w <? Z.of_nat (length (pdf_files w)) - 1)%Z then
      let w := set_current_index (current_index w + 1) w in
      load_file fuel (current_index w) w
    else showinfo TITLE_INFO "This is the last file." w.

(** *** Duplicate handling *)

(** The name tried for a counter value (lines 406-407 and 410-411). *)
Definition numbered_candidate (folder base_for_numbering ext : string) (count : nat) : string :=
  path_join E folder
    (base_for_numbering +:+ "(" +:+ str_of_count count +:+ ")" +:+ ext).

(** The probing loop of lines 404-411, entered with [count]; one unit of fuel
    per existence test. *)
Fixpoint numbering_loop (fuel : nat) (d : Disk) (folder base_for_numbering ext : string)
    (count : nat) : option string :=
  match fuel with
  | O => None
  | S fuel' =>
      let candidate_path := numbered_candidate folder base_for_numbering ext count in
      if path_exists E d candidate_path
      then numbering_loop fuel' d folder base_for_numbering ext (S count)
      else Some candidate_path
  end.

(** [action_to_take] (lines 390-398) *)
Definition choose_action (new_name_base current_file : string) : M (option string) :=
  fun w =>
    if negb (bool_decide (duplicate_handling_choice w = Some "ask")) then
      Done (duplicate_handling_choice w) w
    else
      (let* answer := duplicate_dialog new_name_base current_file in
       let chosen_action := answer.1 in
       let remember_this_choice := answer.2 in
       (if remember_this_choice && truthy chosen_action
        then (fun w => Done tt (set_duplicate_handling_choice chosen_action w))
        else ret tt) >>
       ret chosen_action) w.

(** Lines 388-417: the path to rename to, or the early exit taken. *)
Definition handle_duplicate (fuel : nat) (new_name_base current_file ext new_file_path : string)
    : M Collision :=
  fun w =>
    if path_exists E (disk w) new_file_path then
      (let* action_to_take := choose_action new_name_base current_file in
       if bool_decide (action_to_take = Some "rename_again") then ret ReturnEarly
       else if bool_decide (action_to_take = Some "add_numbering") then
         (fun w =>
            match numbering_loop fuel (disk w) (folder w) new_name_base ext 1 with
            | Some candidate_path => Done (Proceed candidate_path) w
            | None => OutOfFuel
            end)
       else if bool_decide (action_to_take = Some "skip") then ret SkipFile
       else if bool_decide (action_to_take = None) then ret ReturnEarly
       else ret (Proceed new_file_path)) w
    else Done (Proceed new_file_path) w.

(** [os.rename] *)
Definition rename_file (src dst : string) : M unit :=
  fun w =>
    match os_rename E (disk w) src dst with
    | inl d' => Done tt (set_log (EvRename src dst None :: log w) (set_disk d' w))
    | inr e => Raised e (set_log (EvRename src dst (Some e) :: log w) w)
    end.

(** Lines 419-440: the rename attempt. *)
Definition attempt_rename (fuel : nat) (current_file old_file_path new_file_path : string)
    : M unit :=
  _close_current_doc >>
  try_except
    (rename_file old_file_path new_file_path >>
     (fun w =>
        let final_renamed_filename := path_basename E new_file_path in
        match py_setitem (pdf_files w) (current_index w) final_renamed_filename with
        | Some l => Done tt (set_pdf_files l w)
        | None => Raised "IndexError: list assignment index out of range" w
        end) >>
     (fun w => Done tt (set_current_index (current_index w + 1) w)) >>
     (fun w => load_file fuel (current_index w) w))
    (fun e =>
       showerror TITLE_ERROR
         ("Error renaming '" +:+ current_file +:+ "' to '"
          +:+ path_basename E new_file_path +:+ "':" +:+ nl +:+ e) >>
       (fun w => load_file fuel (current_index w) w)).

(** The guard of line 367. *)
Definition no_file_selected (w : World) : bool :=
  bool_decide (pdf_files w = [])
  || negb ((0 <=? current_index w)%Z
           && (current_index w <? Z.of_nat (length (pdf_files w)))%Z).

(** [rename_current] (lines 364-440) *)
Definition rename_current (fuel : nat) : M unit :=
  fun w =>
    let new_name_base := str_strip E (name_entry w) in
    if no_file_selected w then
      showinfo TITLE_INFO "No file selected or list is empty to rename." w
    else
      match py_getitem (pdf_files w) (current_index w) with
      | None => Raised "IndexError: list index out of range" w
      | Some current_file =>
          let ext := (path_splitext E current_file).2 in
          let old_file_path := path_join E (folder w) current_file in
          let prospective_new_full_filename := new_name_base +:+ ext in
          let new_file_path := path_join E (folder w) prospective_new_full_filename in
          if bool_decide (path_normcase E (path_abspath E new_file_path)
                          = path_normcase E (path_abspath E old_file_path)) then
            (_close_current_doc >>
             (fun w => Done tt (set_current_index (current_index w + 1) w)) >>
             (fun w => load_file fuel (current_index w) w)) w
          else
            (let* outcome :=
               handle_duplicate fuel new_name_base current_file ext new_file_path in
             match outcome with
             | ReturnEarly => ret tt
             | SkipFile => skip_current fuel
             | Proceed new_file_path =>
                 attempt_rename fuel current_file old_file_path new_file_path
             end) w
      end.

(** *** Start-up (lines 63-92 and 105-122) *)

Definition _load_initial_folder_or_prompt : M bool :=
  let* files := (fun w => _find_pdf_files (folder w) w) in
  (fun w => Done tt (set_pdf_files files w)) >>
  match files with
  | _ :: _ => ret true
  | [] =>
      showinfo "PDF Renamer Setup"
        ("No PDF files found in the current directory." +:+ nl
         +:+ "Please select a folder containing your PDF files.") >>
      _select_and_load_new_folder_core
  end.

(** The object as [__init__] sets it up before the first scan. *)
Definition fresh (initial_folder : string) (d : Disk) (yesno : list bool)
    (directories : list string) (dialogs : list (DialogClick * bool)) : World :=
  mkWorld initial_folder [] 0 None false (Some "ask") EmptyString false d []
    yesno directories dialogs.

Definition init (fuel : nat) : M unit :=
  let* initial_files_loaded := _load_initial_folder_or_prompt in
  if initial_files_loaded : bool then (fun w => load_file fuel (current_index w) w)
  else exit_app.

(** *** The event loop *)

(** What the user can do in the main window. *)
Inductive Op :=
| OpType (text : string)   (* edit the rename entry *)
| OpRename                 (* Rename button or Return *)
| OpSkip
| OpPrevFile
| OpNextFile
| OpChangeFolder
| OpExit.

Definition step (fuel : nat) (op : Op) : M unit :=
  match op with
  | OpType text => fun w => Done tt (set_name_entry text w)
  | OpRename => rename_current fuel
  | OpSkip => skip_current fuel
  | OpPrevFile => prev_file fuel
  | OpNextFile => next_file fuel
  | OpChangeFolder => change_folder fuel
  | OpExit => exit_app
  end.

(** The main loop handles the user's actions one by one until the window is
    destroyed. *)
Fixpoint run (fuel : nat) (ops : list Op) : M unit :=
  match ops with
  | [] => ret tt
  | op :: rest =>
      fun w => if destroyed w then Done tt w else (step fuel op >> run fuel rest) w
  end.

End Renamer.

Arguments load_file {Disk} E fuel index w.
Arguments rename_current {Disk} E fuel w.
Arguments skip_current {Disk} E fuel w.
Arguments change_folder {Disk} E fuel w.
Arguments prev_file {Disk} E fuel w.
Arguments next_file {Disk} E fuel w.
Arguments run {Disk} E fuel ops w.
Arguments step {Disk} E fuel op w.

(** ** Documents without pages and calls on a destroyed window

    The methods above take a document that opens to have at least one page,
    and the window to exist whenever Tk is called.  This module has the
    methods without these two assumptions.  PyMuPDF gives a document the
    length [page_count], so that a document without pages is false in
    [if self.doc] and [not self.doc], and [load_page(0)] raises on it; Tk
    raises [TclError] when a command is sent to a destroyed application. *)
Module Edge.

Definition ValueError : string := "ValueError: page not in document".

(** The message names the Tk command; it is left out. *)
Definition TclError : string := "TclError: application has been destroyed".

Section Methods.

Context {Disk : Type} (E : Env Disk).

(** [doc.page_count] of the document opened from a path. *)
Variable page_count : string → nat.

Local Abbreviation World := (World Disk).
Local Abbreviation M A := (World → Result Disk A).

Local Notation "'let*' x := m 'in' k" := (bind m (fun x => k))
  (at level 10, x name, m at level 100, k at level 200).
Local Notation "m >> k" := (bind m (fun _ => k))
  (at level 61, left associativity, k at next level).

(** A call to Tk. *)
Definition tk {A} (call : M A) : M A :=
  fun w => if destroyed w then Raised TclError w else call w.

Definition showinfo (title message : string) : M unit := tk (showinfo title message).

Definition showerror (title message : string) : M unit := tk (showerror title message).

Definition askyesno (title message : string) : M bool := tk (askyesno title message).

(** [duplicate_dialog] (lines 332-362) *)
Definition duplicate_dialog (new_name current_file : string) : M (option string * bool) :=
  tk (duplicate_dialog new_name current_file).

(** A method of the window or of a widget that changes nothing in the state
    ([withdraw], [deiconify], [bind], [config]). *)
Definition window_call : M unit := tk (ret tt).

(** [exit_app] (lines 501-502) *)
Definition exit_app : M unit := tk exit_app.

(** [_close_current_doc] (lines 215-222) *)
Definition _close_current_doc : M unit :=
  fun w =>
    match doc w with
    | Some d =>
        if (page_count d =? 0)%nat then Done tt w
        else
          let w1 := set_log (EvClose d :: log w) w in
          let w2 :=
            match doc_close E d with
            | Some e => set_log (EvPrint ("Error closing document: " +:+ e) :: log w1) w1
            | None => w1
            end in
          Done tt (set_doc None w2)
    | None => Done tt w
    end.

(** [_find_pdf_files] (lines 94-103) *)
Definition _find_pdf_files (folder_path : string) : M (list string) :=
  fun w =>
    match os_listdir E (disk w) folder_path with
    | inl names =>
        Done (filter (λ f, endswith (str_lower E f) PDF_EXTENSION = true) names) w
    | inr FileNotFoundError =>
        (showerror TITLE_ERROR ("Folder not found: " +:+ folder_path) >> ret []) w
    | inr (OtherError e) =>
        (showerror TITLE_ERROR
           ("Error accessing folder " +:+ folder_path +:+ ": " +:+ e) >> ret []) w
    end.

(** [_select_and_load_new_folder_core] (lines 461-490) *)
Fixpoint select_loop (answers : list string) : M bool :=
  fun w =>
    if destroyed w then Raised TclError w
    else
      match answers with
      | [] => Blocked w
      | new_folder :: rest =>
          let w :=
            set_log (EvAskDirectory (folder w) new_folder :: log w)
              (set_directory_answers rest w) in
          if bool_decide (new_folder = EmptyString) then
            (let* res := askyesno TITLE_CONFIRM_EXIT
                           "No folder was selected. Do you want to exit the application?" in
             ret (negb res)) w
          else if bool_decide (new_folder = folder w)
                  && negb (bool_decide (pdf_files w = [])) then
            (showinfo TITLE_INFO "The selected folder is already the current folder."
             >> ret true) w
          else
            (let* candidate_files := _find_pdf_files new_folder in
             match candidate_files with
             | _ :: _ =>
                 _close_current_doc >>
                 (fun w =>
                    Done true
                      (set_first_load_done false
                         (set_current_index 0
                            (set_pdf_files candidate_files (set_folder new_folder w)))))
             | [] =>
                 showerror TITLE_ERROR
                   ("No PDF files found in '" +:+ new_folder
                    +:+ "'. Please choose another folder.")
                 >> select_loop rest
             end) w
      end.

Definition _select_and_load_new_folder_core : M bool :=
  fun w => select_loop (directory_answers w) w.

(** [skip_current] (lines 442-445), over the [load_file] it calls. *)
Definition skip_current_with (load_file : Z → M unit) : M unit :=
  _close_current_doc >>
  (fun w => Done tt (set_current_index (current_index w + 1) w)) >>
  (fun w => load_file (current_index w) w).

(** [change_folder] (lines 492-499), over the [load_file] it calls. *)
Definition change_folder_with (load_file : Z → M unit) : M unit :=
  window_call >>
  (let* ok := _select_and_load_new_folder_core in
   if ok : bool then (fun w => load_file (current_index w) w)
   else showinfo TITLE_INFO
          "Folder selection cancelled or failed. Continuing with previous state if any.") >>
  window_call.

(** [load_file] (lines 224-279).  One unit of fuel per call. *)
Fixpoint load_file (fuel : nat) (index : Z) : M unit :=
  match fuel with
  | O => fun _ => OutOfFuel
  | S fuel' =>
      _close_current_doc >>
      (fun w =>
         if (Z.of_nat (length (pdf_files w)) <=? index)%Z then
           if bool_decide (pdf_files w = []) then
             (showinfo TITLE_INFO "No PDF files to process." >>
              let* ok := _select_and_load_new_folder_core in
              if ok : bool then (fun w => load_file fuel' (current_index w) w)
              else exit_app) w
           else
             (let* result := askyesno TITLE_FINISHED
                               "All files processed. Do you want to exit the program?" in
              if result : bool then exit_app
              else change_folder_with (load_file fuel')) w
         else
           match py_getitem (pdf_files w) index with
           | None => Raised "IndexError: list index out of range" w
           | Some current_file =>
               (window_call >>
                (fun w =>
                   let pdf_path := path_join E (folder w) current_file in
                   match fitz_open E (disk w) pdf_path with
                   | inr e =>
                       (emit (EvOpen pdf_path (Some e)) >>
                        showerror TITLE_ERROR
                          ("Failed to open PDF: " +:+ current_file +:+ nl +:+ e) >>
                        skip_current_with (load_file fuel')) w
                   | inl _ =>
                       let w :=
                         set_doc (Some pdf_path)
                           (set_log (EvOpen pdf_path None :: log w) w) in
                       if (page_count pdf_path =? 0)%nat then Raised ValueError w
                       else
                         let base_name := (path_splitext E current_file).1 in
                         Done tt (set_name_entry base_name (set_first_load_done true w))
                   end)) w
           end)
  end.

Definition skip_current (fuel : nat) : M unit := skip_current_with (load_file fuel).

Definition change_folder (fuel : nat) : M unit := change_folder_with (load_file fuel).

(** [prev_file] (lines 447-452) *)
Definition prev_file (fuel : nat) : M unit :=
  fun w =>
    if (0 <? current_index w)%Z then
      let w := set_current_index (current_index w - 1) w in
      load_file fuel (current_index w) w
    else showinfo TITLE_INFO "This is the first file." w.

(** [next_file] (lines 454-459) *)
Definition next_file (fuel : nat) : M unit :=
  fun w =>
    if (current_index w <? Z.of_nat (length (pdf_files w)) - 1)%Z then
      let w := set_current_index (current_index w + 1) w in
      load_file fuel (current_index w) w
    else showinfo TITLE_INFO "This is the last file." w.

(** [action_to_take] (lines 390-398) *)
Definition choose_action (new_name_base current_file : string) : M (option string) :=
  fun w =>
    if negb (bool_decide (duplicate_handling_choice w = Some "ask")) then
      Done (duplicate_handling_choice w) w
    else
      (let* answer := duplicate_dialog new_name_base current_file in
       let chosen_action := answer.1 in
       let remember_this_choice := answer.2 in
       (if remember_this_choice && truthy chosen_action
        then (fun w => Done tt (set_duplicate_handling_choice chosen_action w))
        else ret tt) >>
       ret chosen_action) w.

(** Lines 388-417: the path to rename to, or the early exit taken. *)
Definition handle_duplicate (fuel : nat) (new_name_base current_file ext new_file_path : string)
    : M Collision :=
  fun w =>
    if path_exists E (disk w) new_file_path then
      (let* action_to_take := choose_action new_name_base current_file in
       if bool_decide (action_to_take = Some "rename_again") then ret ReturnEarly
       else if bool_decide (action_to_take = Some "add_numbering") then
         (fun w =>
            match numbering_loop E fuel (disk w) (folder w) new_name_base ext 1 with
            | Some candidate_path => Done (Proceed candidate_path) w
            | None => OutOfFuel
            end)
       else if bool_decide (action_to_take = Some "skip") then ret SkipFile
       else if bool_decide (action_to_take = None) then ret ReturnEarly
       else ret (Proceed new_file_path)) w
    else Done (Proceed new_file_path) w.

(** Lines 419-440: the rename attempt. *)
Definition attempt_rename (fuel : nat) (current_file old_file_path new_file_path : string)
    : M unit :=
  _close_current_doc >>
  try_except
    (rename_file E old_file_path new_file_path >>
     (fun w =>
        let final_renamed_filename := path_basename E new_file_path in
        match py_setitem (pdf_files w) (current_index w) final_renamed_filename with
        | Some l => Done tt (set_pdf_files l w)
        | None => Raised "IndexError: list assignment index out of range" w
        end) >>
     (fun w => Done tt (set_current_index (current_index w + 1) w)) >>
     (fun w => load_file fuel (current_index w) w))
    (fun e =>
       showerror TITLE_ERROR
         ("Error renaming '" +:+ current_file +:+ "' to '"
          +:+ path_basename E new_file_path +:+ "':" +:+ nl +:+ e) >>
       (fun w => load_file fuel (current_index w) w)).

(** [rename_current] (lines 364-440) *)
Definition rename_current (fuel : nat) : M unit :=
  fun w =>
    let new_name_base := str_strip E (name_entry w) in
    if no_file_selected w then
      showinfo TITLE_INFO "No file selected or list is empty to rename." w
    else
      match py_getitem (pdf_files w) (current_index w) with
      | None => Raised "IndexError: list index out of range" w
      | Some current_file =>
          let ext := (path_splitext E current_file).2 in
          let old_file_path := path_join E (folder w) current_file in
          let prospective_new_full_filename := new_name_base +:+ ext in
          let new_file_path := path_join E (folder w) prospective_new_full_filename in
          if bool_decide (path_normcase E (path_abspath E new_file_path)
                          = path_normcase E (path_abspath E old_file_path)) then
            (_close_current_doc >>
             (fun w => Done tt (set_current_index (current_index w + 1) w)) >>
             (fun w => load_file fuel (current_index w) w)) w
          else
            (let* outcome :=
               handle_duplicate fuel new_name_base current_file ext new_file_path in
             match outcome with
             | ReturnEarly => ret tt
             | SkipFile => skip_current fuel
             | Proceed new_file_path =>
                 attempt_rename fuel current_file old_file_path new_file_path
             end) w
      end.

(** *** Start-up (lines 63-92 and 105-122) *)

Definition _load_initial_folder_or_prompt : M bool :=
  let* files := (fun w => _find_pdf_files (folder w) w) in
  (fun w => Done tt (set_pdf_files files w)) >>
  match files with
  | _ :: _ => ret true
  | [] =>
      window_call >>
      showinfo "PDF Renamer Setup"
        ("No PDF files found in the current directory." +:+ nl
         +:+ "Please select a folder containing your PDF files.") >>
      let* ok := _select_and_load_new_folder_core in
      window_call >> ret ok
  end.

Definition init (fuel : nat) : M unit :=
  let* initial_files_loaded := _load_initial_folder_or_prompt in
  if initial_files_loaded : bool then
    window_call >> window_call >> (fun w => load_file fuel (current_index w) w)
  else exit_app.

(** *** The event loop *)

Definition step (fuel : nat) (op : Op) : M unit :=
  match op with
  | OpType text => fun w => Done tt (set_name_entry text w)
  | OpRename => rename_current fuel
  | OpSkip => skip_current fuel
  | OpPrevFile => prev_file fuel
  | OpNextFile => next_file fuel
  | OpChangeFolder => change_folder fuel
  | OpExit => exit_app
  end.

(** The main loop handles the user's actions one by one until the window is
    destroyed.  Tk reports an exception that a callback raises (the traceback
    is printed, here named by the exception) and goes on with the next
    event. *)
Fixpoint run (fuel : nat) (ops : list Op) : M unit :=
  match ops with
  | [] => ret tt
  | op :: rest =>
      fun w =>
        if destroyed w then Done tt w
        else
          match step fuel op w with
          | Done _ w' => run fuel rest w'
          | Raised e w' =>
              run fuel rest
                (set_log (EvPrint ("Exception in Tkinter callback: " +:+ e) :: log w') w')
          | Blocked w' => Blocked w'
          | OutOfFuel => OutOfFuel
          end
  end.

End Methods.

End Edge.
(** ** Page navigation (lines 281-330)

    The page controls work on their own attributes of the object.  Rendering
    a page ([doc.load_page] and the drawing of the pixmap) is one logged
    event; the zoom factor, a float, is left out. *)
Module Pages.

Inductive PageEvent :=
| PgRender (page : Z)                   (* doc.load_page(page), then the drawing *)
| PgShowError (title message : string). (* messagebox.showerror *)

Record Viewer := mkViewer {
  doc_open : bool;            (* the truth value of self.doc *)
  current_page : Z;
  total_pages : Z;
  page_var : string;          (* the text of the page entry *)
  page_info_label : string;
  page_log : list PageEvent   (* newest first *)
}.

Definition set_current_page (x : Z) (v : Viewer) : Viewer :=
  mkViewer (doc_open v) x (total_pages v) (page_var v) (page_info_label v) (page_log v).
Definition set_page_var (x : string) (v : Viewer) : Viewer :=
  mkViewer (doc_open v) (current_page v) (total_pages v) x (page_info_label v) (page_log v).
Definition set_page_info_label (x : string) (v : Viewer) : Viewer :=
  mkViewer (doc_open v) (current_page v) (total_pages v) (page_var v) x (page_log v).
Definition set_page_log (x : list PageEvent) (v : Viewer) : Viewer :=
  mkViewer (doc_open v) (current_page v) (total_pages v) (page_var v) (page_info_label v) x.

(** [str(n)] of an [int] *)
Definition str_of_int (n : Z) : string := pretty n.

(** The text of the page label (lines 256 and 293). *)
Definition page_info (v : Viewer) : string :=
  str_of_int (current_page v + 1) +:+ " of " +:+ str_of_int (total_pages v).

(** [update_preview_image] (lines 281-293) *)
Definition update_preview_image (v : Viewer) : Viewer :=
  if negb (doc_open v) then v
  else
    set_page_info_label (page_info v)
      (set_page_log (PgRender (current_page v) :: page_log v) v).

(** [prev_page] (lines 308-312) *)
Definition prev_page (v : Viewer) : Viewer :=
  if (0 <? current_page v)%Z then
    let v := set_current_page (current_page v - 1) v in
    let v := set_page_var (str_of_int (current_page v + 1)) v in
    update_preview_image v
  else v.

(** [next_page] (lines 314-318) *)
Definition next_page (v : Viewer) : Viewer :=
  if (current_page v <? total_pages v - 1)%Z then
    let v := set_current_page (current_page v + 1) v in
    let v := set_page_var (str_of_int (current_page v + 1)) v in
    update_preview_image v
  else v.

(** [on_page_entry] (lines 320-330).  [int] is Python's [int] on strings:
    [None] stands for [ValueError]. *)
Definition on_page_entry (int : string → option Z) (v : Viewer) : Viewer :=
  match int (page_var v) with
  | None => v
  | Some page_num =>
      if (1 <=? page_num)%Z && (page_num <=? total_pages v)%Z then
        update_preview_image (set_current_page (page_num - 1) v)
      else
        set_page_var (str_of_int (current_page v + 1))
          (set_page_log (PgShowError TITLE_ERROR "Page number out of range." :: page_log v) v)
  end.

(** What the user can do with the page controls; the text typed in the entry
    is in [page_var] when Return calls [on_page_entry] (lines 161-164). *)
Inductive PageOp :=
| PgPrev | PgNext
| PgEntry (text : string).

Definition page_step (int : string → option Z) (op : PageOp) (v : Viewer) : Viewer :=
  match op with
  | PgPrev => prev_page v
  | PgNext => next_page v
  | PgEntry text => on_page_entry int (set_page_var text v)
  end.

Definition page_run (int : string → option Z) (ops : list PageOp) (v : Viewer) : Viewer :=
  foldl (λ v op, page_step int op v) v ops.

(** [int] on the strings made of ASCII decimal digits, to run the model on;
    other strings are taken as not parsable. *)
Definition digit (c : Ascii.ascii) : option Z :=
  let n := Ascii.nat_of_ascii c in
  if (48 <=? n)%nat && (n <=? 57)%nat then Some (Z.of_nat (n - 48)) else None.

Fixpoint decimal_from (acc : Z) (s : string) : option Z :=
  match s with
  | EmptyString => Some acc
  | String c s' =>
      match digit c with
      | Some k => decimal_from (10 * acc + k) s'
      | None => None
      end
  end.

Definition decimal (s : string) : option Z :=
  match s with
  | EmptyString => None
  | _ => decimal_from 0 s
  end.

(** The page shown is a page of the document. *)
Definition page_in_document (v : Viewer) : Prop :=
  (0 ≤ current_page v < total_pages v)%Z.

(** What one use of a page control keeps. *)
Definition page_kept (v v' : Viewer) : Prop :=
  page_in_document v'
  ∧ total_pages v' = total_pages v
  ∧ doc_open v' = doc_open v
  ∧ (doc_open v = true →
     page_info_label v = page_info v →
     page_info_label v' = page_info v')
  ∧ ∃ new, page_log v' = (new ++ page_log v)%list
           ∧ ∀ p, PgRender p ∈ new → (0 ≤ p < total_pages v)%Z.

(** A three-page document open at its first page (lines 253-256). *)
Definition three_pages : Viewer :=
  mkViewer true 0 3 "1" "1 of 3" [PgRender 0].

End Pages.

(** ** A POSIX environment to run the model on

    Files are named by absolute, normal paths; a directory is known through
    the files in it.  On such paths [os.path.abspath] and [os.path.normcase]
    are the identity. *)
Module Posix.

(** A file: its path and whether the viewer can open it. *)
Definition Disk : Type := list (string * bool).

Definition chars (s : string) : list Ascii.ascii := String.list_ascii_of_string s.
Definition text (l : list Ascii.ascii) : string := String.string_of_list_ascii l.

Definition slash : Ascii.ascii := Ascii.ascii_of_nat 47.
Definition dot : Ascii.ascii := Ascii.ascii_of_nat 46.

Definition is_space (c : Ascii.ascii) : bool :=
  let n := Ascii.nat_of_ascii c in
  ((9 <=? n) && (n <=? 13) || (28 <=? n) && (n <=? 32))%nat.

Fixpoint lstrip (l : list Ascii.ascii) : list Ascii.ascii :=
  match l with
  | c :: l' => if is_space c then lstrip l' else l
  | [] => []
  end.

Definition strip (s : string) : string :=
  text (rev (lstrip (rev (lstrip (chars s))))).

Definition lower_char (c : Ascii.ascii) : Ascii.ascii :=
  let n := Ascii.nat_of_ascii c in
  if ((65 <=? n) && (n <=? 90))%nat then Ascii.ascii_of_nat (n + 32) else c.

Definition lower (s : string) : string := text (map lower_char (chars s)).

Definition is_char (c d : Ascii.ascii) : bool := bool_decide (c = d).

(** Characters after the last [sep] and, reversed, the ones up to and
    including it; the whole string and [[]] when there is no [sep]. *)
Fixpoint rsplit (sep : Ascii.ascii) (rev_s : list Ascii.ascii) (tail : list Ascii.ascii)
    : list Ascii.ascii * list Ascii.ascii :=
  match rev_s with
  | [] => ([], tail)
  | c :: rest => if is_char c sep then (rev_s, tail) else rsplit sep rest (c :: tail)
  end.

Definition join (a b : string) : string :=
  match chars b with
  | c :: _ =>
      if is_char c slash then b
      else match rev (chars a) with
           | [] => b
           | d :: _ => if is_char d slash then a +:+ b else a +:+ "/" +:+ b
           end
  | [] =>
      match rev (chars a) with
      | [] => b
      | d :: _ => if is_char d slash then a else a +:+ "/"
      end
  end.

Definition basename (p : string) : string := text (rsplit slash (rev (chars p)) []).2.

Definition dirname_slash (p : string) : string := text (rev (rsplit slash (rev (chars p)) []).1).

(** [os.path.splitext]: the extension starts at the last dot of the last
    component, unless only dots precede it there. *)
Definition splitext (p : string) : string * string :=
  let name := chars (basename p) in
  let parts := rsplit dot (rev name) [] in
  match parts.1 with
  | [] => (p, EmptyString)
  | _ :: before =>
      if forallb (λ c, is_char c dot) before then (p, EmptyString)
      else (dirname_slash p +:+ text (rev before), text (dot :: parts.2))
  end.

Fixpoint lookup_file (d : Disk) (p : string) : option bool :=
  match d with
  | [] => None
  | f :: d' => if bool_decide (f.1 = p) then Some f.2 else lookup_file d' p
  end.

Definition exists_ (d : Disk) (p : string) : bool :=
  bool_decide (is_Some (lookup_file d p)).

(** The directory named [dir_slash] (with its final slash) has a file. *)
Definition is_dir (d : Disk) (dir_slash : string) : bool :=
  existsb (λ f, bool_decide (dirname_slash f.1 = dir_slash)) d.

(** [os.rename]: the source and the directory of the target have to be
    there; a file at the target is replaced. *)
Definition rename (d : Disk) (src dst : string) : Disk + string :=
  match lookup_file d src with
  | Some readable =>
      if is_dir d (dirname_slash dst)
      then inl ((dst, readable) :: filter (λ f, f.1 ≠ src ∧ f.1 ≠ dst) d)
      else inr ("[Errno 2] No such file or directory: '" +:+ src +:+ "' -> '"
                +:+ dst +:+ "'")
  | None =>
      inr ("[Errno 2] No such file or directory: '" +:+ src +:+ "' -> '" +:+ dst +:+ "'")
  end.

Definition listdir (d : Disk) (dir : string) : list string + ListdirError :=
  let inside := filter (λ f, dirname_slash f.1 = join dir EmptyString) d in
  match inside with
  | [] => inr FileNotFoundError
  | _ => inl (map (λ f, basename f.1) inside)
  end.

Definition open (d : Disk) (p : string) : unit + string :=
  match lookup_file d p with
  | Some true => inl tt
  | Some false => inr "Failed to open file"
  | None => inr ("no such file: '" +:+ p +:+ "'")
  end.

Definition env : Env Disk :=
  {| str_strip := strip;
     str_lower := lower;
     path_join := join;
     path_abspath := id;
     path_normcase := id;
     path_basename := basename;
     path_splitext := splitext;
     path_exists := exists_;
     os_rename := rename;
     os_listdir := listdir;
     fitz_open := open;
     doc_close := λ _, None |}.

End Posix.

(** ** Sample states *)
Module Sample.

(** /docs with three PDF files. *)
Definition docs : Posix.Disk :=
  [("/docs/a.pdf", true); ("/docs/c.pdf", true); ("/docs/x.pdf", true)].


(** /docs with a single PDF file. *)
Definition one_file : Posix.Disk := [("/docs/a.pdf", true)].

(** /docs after name.pdf was given numbers twice. *)
Definition numbered : Posix.Disk :=
  [("/docs/name.pdf", true); ("/docs/name(1).pdf", true); ("/docs/name(2).pdf", true);
   ("/docs/a.pdf", true)].

(** [docs] and, next to it, /scans with two PDF files and a text file. *)
Definition two_folders : Posix.Disk :=
  (docs ++ [("/scans/s1.pdf", true); ("/scans/S2.PDF", true);
            ("/scans/notes.txt", true)])%list.

(** The program started in /docs; the answers are those the user will give
    to the yes/no boxes and to the directory dialog. *)
Definition started (d : Posix.Disk) (yesno : list bool) (directories : list string)
    : World Posix.Disk :=
  fresh "/docs" d yesno directories [].

(** [file], at [index] of [files] in /docs, is open in the viewer and [entry]
    is in the rename entry. *)
Definition reviewing (d : Posix.Disk) (files : list string) (index : Z)
    (file entry : string) (directories : list string)
    (dialogs : list (DialogClick * bool)) : World Posix.Disk :=
  mkWorld "/docs" files index (Some ("/docs/" +:+ file)) true (Some "ask") entry false
    d [EvOpen ("/docs/" +:+ file) None] [] directories dialogs.

(** The three files of [docs], a.pdf under review, [entry] typed. *)
Definition at_a (entry : string) (dialogs : list (DialogClick * bool)) : World Posix.Disk :=
  reviewing docs ["a.pdf"; "c.pdf"; "x.pdf"] 0 "a.pdf" entry [] dialogs.

(** The same files in [two_folders], c.pdf under review. *)
Definition at_c (directories : list string) : World Posix.Disk :=
  reviewing two_folders ["a.pdf"; "c.pdf"; "x.pdf"] 1 "c.pdf" "c" directories [].

(** The single file of [one_file] is processed: the cursor is past it. *)
Definition finished : World Posix.Disk :=
  mkWorld "/docs" ["a.pdf"] 1 None true (Some "ask") "a" false one_file [] [] [] [].

(** /docs with a.pdf, which the viewer cannot open, and b.pdf. *)
Definition unreadable_first : Posix.Disk :=
  [("/docs/a.pdf", false); ("/docs/b.pdf", true)].

(** /docs without a PDF file. *)
Definition no_pdfs : Posix.Disk := [("/docs/notes.txt", true)].


(** [at_c] with answers to the yes/no boxes. *)
Definition at_c_asked (yesno : list bool) (directories : list string)
    : World Posix.Disk :=
  set_yesno_answers yesno (at_c directories).

(** /docs with a.pdf and z.pdf; z.pdf opens as a document without pages. *)
Definition with_pageless : Posix.Disk :=
  [("/docs/a.pdf", true); ("/docs/z.pdf", true)].

(** The page counts of the documents: none in /docs/z.pdf, one in any
    other. *)
Definition pages (path : string) : nat :=
  if bool_decide (path = "/docs/z.pdf") then 0%nat else 1%nat.

End Sample.

(** ** Properties *)

Section Properties.

Context {Disk : Type} (E : Env Disk).

Local Abbreviation World := (World Disk).

(** The file under review: the cursor is a valid index and [f] is the name
    stored there. *)
Definition under_review (w : World) (f : string) : Prop :=
  (0 ≤ current_index w)%Z ∧ pdf_files w !! Z.to_nat (current_index w) = Some f.

(** The values [rename_current] computes from the entry and the file name. *)
Definition new_name_base (w : World) : string := str_strip E (name_entry w).

Definition ext_of (f : string) : string := (path_splitext E f).2.

Definition old_file_path (w : World) (f : string) : string := path_join E (folder w) f.

Definition new_file_path (w : World) (f : string) : string :=
  path_join E (folder w) (new_name_base w +:+ ext_of f).

(** The test of line 382. *)
Definition same_file (w : World) (f : string) : Prop :=
  path_normcase E (path_abspath E (new_file_path w f))
  = path_normcase E (path_abspath E (old_file_path w f)).

#[local] Instance same_file_dec (w : World) f : Decision (same_file w f).
Proof. unfold same_file. apply _. Defined.

(** Settles the comparisons of literal strings and options in the goal. *)
Ltac settle_tests :=
  repeat first
    [ rewrite bool_decide_eq_true_2 by done
    | rewrite bool_decide_eq_false_2 by done ].

(** The worlds a run can end or stop in. *)
Definition ends_in {A} (r : Result Disk A) (w : World) : Prop :=
  match r with
  | Done _ w' | Blocked w' | Raised _ w' => w' = w
  | OutOfFuel => False
  end.

(** Message boxes and console output: calls that change nothing. *)
Definition notice (e : Event) : Prop :=
  match e with
  | EvShowInfo _ _ | EvShowError _ _ | EvPrint _ => True
  | _ => False
  end.

(** The single changes of state the methods are made of.  With
    [renaming = false] the changes of [rename_current] proper (renaming on
    disk, the duplicate dialog, storing the choice) are excluded. *)
Inductive atom (renaming : bool) : World → World → Prop :=
| atom_notice e w :
    notice e → atom renaming w (set_log (e :: log w) w)
| atom_yesno title message b rest w :
    yesno_answers w = b :: rest →
    atom renaming w
      (set_log (EvAskYesNo title message b :: log w) (set_yesno_answers rest w))
| atom_directory d rest w :
    directory_answers w = d :: rest →
    atom renaming w
      (set_log (EvAskDirectory (folder w) d :: log w) (set_directory_answers rest w))
| atom_destroy w :
    atom renaming w (set_log (EvDestroy :: log w) (set_destroyed true w))
| atom_close d w :
    doc w = Some d →
    atom renaming w (set_doc None (set_log (EvClose d :: log w) w))
| atom_open p w :
    doc w = None →
    atom renaming w (set_doc (Some p) (set_log (EvOpen p None :: log w) w))
| atom_open_failed p e w :
    doc w = None →
    atom renaming w (set_log (EvOpen p (Some e) :: log w) w)
| atom_folder v w : atom renaming w (set_folder v w)
| atom_pdf_files v w : atom renaming w (set_pdf_files v w)
| atom_current_index v w : atom renaming w (set_current_index v w)
| atom_first_load_done v w : atom renaming w (set_first_load_done v w)
| atom_name_entry v w : atom renaming w (set_name_entry v w)
| atom_rename src dst d' w :
    renaming = true → doc w = None →
    os_rename E (disk w) src dst = inl d' →
    atom renaming w (set_log (EvRename src dst None :: log w) (set_disk d' w))
| atom_rename_failed src dst e w :
    renaming = true → doc w = None →
    os_rename E (disk w) src dst = inr e →
    atom renaming w (set_log (EvRename src dst (Some e) :: log w) w)
| atom_dialog b f click remember rest w :
    renaming = true →
    duplicate_handling_choice w = Some "ask" →
    dialog_answers w = (click, remember) :: rest →
    atom renaming w
      (set_log (EvDuplicateDialog b f (action_of_click click) remember :: log w)
         (set_dialog_answers rest w))
| atom_remember click w :
    renaming = true →
    duplicate_handling_choice w = Some "ask" →
    truthy (action_of_click click) = true →
    atom renaming w (set_duplicate_handling_choice (action_of_click click) w).

Definition moves (renaming : bool) : World → World → Prop := rtc (atom renaming).

(** [res], obtained from [w], is made of atoms, and a returned value
    satisfies [Q]. *)
Definition good {A} (renaming : bool) (w : World) (res : Result Disk A)
    (Q : A → World → Prop) : Prop :=
  match res with
  | Done a w' => moves renaming w w' ∧ Q a w'
  | Blocked w' | Raised _ w' => moves renaming w w'
  | OutOfFuel => True
  end.

(** The document the viewer holds open after the logged calls (oldest last),
    or [None] when the log breaks the ordering: a document opened or a file
    renamed while a document is open, or a close of a document that is not
    the open one. *)
Fixpoint open_document (events : list Event) : option (option string) :=
  match events with
  | [] => Some None
  | e :: earlier =>
      match open_document earlier with
      | None => None
      | Some held =>
          match e with
          | EvOpen p error =>
              match held with
              | None => Some (match error with None => Some p | Some _ => None end)
              | Some _ => None
              end
          | EvRename _ _ _ =>
              match held with
              | None => Some None
              | Some _ => None
              end
          | EvClose p => if bool_decide (held = Some p) then Some None else None
          | _ => Some held
          end
      end
  end.

(** The values [duplicate_handling_choice] is meant to take. *)
Definition valid_choice (c : option string) : Prop :=
  c = Some "ask" ∨ c = Some "rename_again" ∨ c = Some "add_numbering" ∨ c = Some "skip".

(** How often the duplicate dialog was shown. *)
Fixpoint prompts (events : list Event) : nat :=
  match events with
  | [] => 0
  | EvDuplicateDialog _ _ _ _ :: earlier => S (prompts earlier)
  | _ :: earlier => prompts earlier
  end.

(** How often [os.rename] was called. *)
Fixpoint rename_attempts (events : list Event) : nat :=
  match events with
  | [] => 0
  | EvRename _ _ _ :: earlier => S (rename_attempts earlier)
  | _ :: earlier => rename_attempts earlier
  end.

(** The state [_close_current_doc] leaves. *)
Definition close_world (w : World) : World :=
  match _close_current_doc E w with
  | Done _ w' => w'
  | _ => w
  end.

(** The state in which a document that opens is presented (lines 248-279). *)
Definition presented (w : World) (current_file : string) : World :=
  let pdf_path := path_join E (folder w) current_file in
  set_name_entry (path_splitext E current_file).1
    (set_first_load_done true
       (set_doc (Some pdf_path) (set_log (EvOpen pdf_path None :: log w) w))).

(** [res] is not an uncaught exception, and a returned value satisfies [Q]. *)
Definition safe {A} (res : Result Disk A) (Q : A → World → Prop) : Prop :=
  match res with
  | Done a w' => Q a w'
  | Raised _ _ => False
  | Blocked _ | OutOfFuel => True
  end.

(** While the window is there, the file under review is the document the
    viewer has open. *)
Definition viewing (w : World) : Prop :=
  destroyed w = false →
  ∀ f, under_review w f →
       doc w = Some (path_join E (folder w) f)
       ∧ fitz_open E (disk w) (path_join E (folder w) f) = inl tt.

(** The cursor invariant of the data model. *)
Definition in_bounds (w : World) : Prop :=
  (0 ≤ current_index w ≤ Z.of_nat (length (pdf_files w)))%Z.

(** The state in which the next file is loaded after [os.rename] succeeded
    (lines 424-430). *)
Definition renamed (w : World) (old new : string) (d' : Disk) : World :=
  let w1 := close_world w in
  set_current_index (current_index w1 + 1)
    (set_pdf_files (<[Z.to_nat (current_index w1) := path_basename E new]> (pdf_files w1))
       (set_log (EvRename old new None :: log w1) (set_disk d' w1))).

(** What a scan of [dir] returns: the list [_find_pdf_files] computes. *)
Definition scan (d : Disk) (dir : string) : list string :=
  match os_listdir E d dir with
  | inl names => filter (λ f, endswith (str_lower E f) PDF_EXTENSION = true) names
  | inr _ => []
  end.


(** The state in which the next file is loaded when the name was left as it
    is (lines 383-384). *)
Definition advanced (w : World) : World :=
  let w1 := close_world w in
  set_current_index (current_index w1 + 1) w1.

(** The state in which the file is reloaded after [os.rename] raised [e]
    (lines 433-435). *)
Definition rename_failed (w : World) (f old new e : string) : World :=
  let w1 := close_world w in
  set_log
    (EvShowError TITLE_ERROR
       ("Error renaming '" +:+ f +:+ "' to '" +:+ path_basename E new
        +:+ "':" +:+ nl +:+ e)
     :: EvRename old new (Some e) :: log w1) w1.


(** Calls of [load_file] that the answers to the directory dialog can cause:
    each folder picked can bring its files, one call each, and two more. *)
Definition answers_cost (d : Disk) (directories : list string) : nat :=
  foldr (λ dir n, length (scan d dir) + 2 + n)%nat 0%nat directories.

(** Fuel that is enough for [load_file] at the cursor. *)
Definition load_cost (w : World) : nat :=
  (S (Z.to_nat (Z.of_nat (length (pdf_files w)) - current_index w))
   + answers_cost (disk w) (directory_answers w))%nat.


(** From [w] to [w'] no file was renamed and the cursor did not become
    negative. *)
Definition calm (w w' : World) : Prop :=
  disk w' = disk w
  ∧ rename_attempts (log w') = rename_attempts (log w)
  ∧ ((0 ≤ current_index w)%Z → (0 ≤ current_index w')%Z).

(** How a method of [Edge] ends from [w]: calmly; with [Q] when it returns;
    when it raises, with the viewer's error on a document without pages that
    is left in [doc], or with Tk's error on the destroyed window; [out] is
    what a lack of fuel has to show. *)
Definition fares {A} (page_count : string → nat) (out : Prop) (w : World)
    (res : Result Disk A) (Q : A → World → Prop) : Prop :=
  match res with
  | Done a w' => calm w w' ∧ Q a w'
  | Blocked w' => calm w w'
  | Raised e w' =>
      calm w w'
      ∧ ((e = Edge.ValueError ∧ ∃ p, doc w' = Some p ∧ page_count p = 0%nat)
         ∨ (e = Edge.TclError ∧ destroyed w' = true))
  | OutOfFuel => out
  end.

(** The state [Edge._close_current_doc] leaves. *)
Definition edge_close_world (page_count : string → nat) (w : World) : World :=
  match Edge._close_current_doc E page_count w with
  | Done _ w' => w'
  | _ => w
  end.

(** [edge], the outcome of a method of [Edge], against [base], the outcome
    of the method above: they are the same, and what is raised is raised with
    the window there; or the method above returns with the window destroyed
    and that of [Edge] raises Tk's error in the same state. *)
Definition agrees {A} (edge base : Result Disk A) : Prop :=
  (edge = base ∧ ∀ e w', base = Raised e w' → destroyed w' = false)
  ∨ (∃ a w', base = Done a w' ∧ destroyed w' = true
             ∧ edge = Raised Edge.TclError w').


(** How often [os.rename] returned without raising. *)
Fixpoint rename_successes (events : list Event) : nat :=
  match events with
  | [] => 0
  | EvRename _ _ None :: earlier => S (rename_successes earlier)
  | _ :: earlier => rename_successes earlier
  end.

Lemma under_review_selected (w : World) f :
  under_review w f → no_file_selected w = false.
Proof.
  intros [H0 Hf]. apply lookup_lt_Some in Hf. unfold no_file_selected.
  rewrite bool_decide_eq_false_2.
  - simpl orb. apply negb_false_iff, andb_true_iff. split.
    + apply Z.leb_le. lia.
    + apply Z.ltb_lt. lia.
  - intros Heq. rewrite Heq in Hf. simpl in Hf. lia.
Qed.

Lemma under_review_getitem (w : World) f :
  under_review w f → py_getitem (pdf_files w) (current_index w) = Some f.
Proof.
  intros [H0 Hf]. pose proof (lookup_lt_Some _ _ _ Hf) as Hlt.
  unfold py_getitem, py_index. cbv zeta.
  destruct (Z.leb_spec 0 (current_index w)); [|lia].
  destruct (Z.ltb_spec (current_index w) (Z.of_nat (length (pdf_files w)))); [done|lia].
Qed.

Lemma under_review_setitem (w : World) f v :
  under_review w f →
  py_setitem (pdf_files w) (current_index w) v
  = Some (<[Z.to_nat (current_index w) := v]> (pdf_files w)).
Proof.
  intros [H0 Hf]. pose proof (lookup_lt_Some _ _ _ Hf) as Hlt.
  unfold py_setitem, py_index. cbv zeta.
  destruct (Z.leb_spec 0 (current_index w)); [|lia].
  destruct (Z.ltb_spec (current_index w) (Z.of_nat (length (pdf_files w)))); [done|lia].
Qed.

Lemma no_file_selected_true (w : World) :
  pdf_files w = [] ∨ (current_index w < 0)%Z
  ∨ (Z.of_nat (length (pdf_files w)) ≤ current_index w)%Z →
  no_file_selected w = true.
Proof.
  intros H. unfold no_file_selected.
  destruct (decide (pdf_files w = [])) as [->|Hne]; [done|].
  rewrite bool_decide_eq_false_2 by done. simpl orb.
  apply negb_true_iff, andb_false_iff.
  destruct H as [H|[H|H]]; [done| |].
  - left. apply Z.leb_gt. lia.
  - right. apply Z.ltb_ge. lia.
Qed.

(** How [rename_current] goes on once the file under review is known and the
    new path is another file. *)
Lemma rename_current_unfold fuel (w : World) f :
  under_review w f → ¬ same_file w f →
  rename_current E fuel w
  = match handle_duplicate E fuel (new_name_base w) f (ext_of f) (new_file_path w f) w with
    | Done ReturnEarly w1 => Done tt w1
    | Done SkipFile w1 => skip_current E fuel w1
    | Done (Proceed p) w1 => attempt_rename E fuel f (old_file_path w f) p w1
    | Blocked w1 => Blocked w1
    | Raised e w1 => Raised e w1
    | OutOfFuel => OutOfFuel
    end.
Proof.
  intros Hf Hne. unfold rename_current.
  rewrite (under_review_selected _ _ Hf), (under_review_getitem _ _ Hf).
  cbv zeta. fold (new_name_base w) (ext_of f) (new_file_path w f) (old_file_path w f).
  rewrite bool_decide_eq_false_2 by exact Hne.
  unfold bind.
  destruct (handle_duplicate _ _ _ _ _ _ w) as [[]| | |]; reflexivity.
Qed.

(** C10: with an empty list or a cursor that is not a valid index,
    [rename_current] only shows its information message: the file list, the
    cursor, the duplicate choice, the open document and the disk are
    untouched, and no dialog answer is consumed. *)
Theorem rename_current_nothing_selected fuel (w : World) :
  pdf_files w = [] ∨ (current_index w < 0)%Z
  ∨ (Z.of_nat (length (pdf_files w)) ≤ current_index w)%Z →
  ∃ w',
    rename_current E fuel w = Done tt w'
    ∧ w' = set_log
             (EvShowInfo TITLE_INFO "No file selected or list is empty to rename." :: log w) w
    ∧ pdf_files w' = pdf_files w
    ∧ current_index w' = current_index w
    ∧ duplicate_handling_choice w' = duplicate_handling_choice w
    ∧ doc w' = doc w
    ∧ disk w' = disk w.
Proof.
  intros H. eexists. split.
  - unfold rename_current. rewrite (no_file_selected_true _ H). reflexivity.
  - repeat split.
Qed.

(** *** The duplicate choice *)

Lemma choose_action_cases b f (w : World) a w1 :
  choose_action b f w = Done a w1 →
  (duplicate_handling_choice w ≠ Some "ask"
   ∧ a = duplicate_handling_choice w ∧ w1 = w)
  ∨ (duplicate_handling_choice w = Some "ask"
     ∧ ∃ click remember rest,
         dialog_answers w = (click, remember) :: rest
         ∧ a = action_of_click click
         ∧ w1 = (if remember && truthy a
                 then set_duplicate_handling_choice a else id)
                  (set_log (EvDuplicateDialog b f a remember :: log w)
                     (set_dialog_answers rest w))).
Proof.
  unfold choose_action.
  destruct (decide (duplicate_handling_choice w = Some "ask")) as [Hask|Hask].
  - rewrite bool_decide_eq_true_2 by done. simpl negb. cbv iota.
    unfold bind, duplicate_dialog.
    destruct (dialog_answers w) as [|[click remember] rest] eqn:Hq; [done|].
    cbn [fst snd].
    intros H. right. split; [done|]. exists click, remember, rest.
    split; [done|].
    destruct (remember && truthy (action_of_click click)) eqn:Hr;
      unfold ret in H; injection H as <- <-; rewrite Hr; done.
  - rewrite bool_decide_eq_false_2 by done. simpl negb. cbv iota.
    intros H. injection H as <- <-. left. done.
Qed.

(** [choose_action] touches nothing but the dialog answers, the log and the
    stored choice. *)
Lemma choose_action_frame b f (w : World) a w1 :
  choose_action b f w = Done a w1 →
  disk w1 = disk w ∧ pdf_files w1 = pdf_files w
  ∧ current_index w1 = current_index w ∧ doc w1 = doc w ∧ folder w1 = folder w
  ∧ (log w1 = log w
     ∨ ∃ remember, log w1 = EvDuplicateDialog b f a remember :: log w).
Proof.
  intros H. apply choose_action_cases in H as [(_ & _ & ->)|(_ & c & r & q & _ & -> & ->)].
  - repeat split. by left.
  - destruct (r && truthy (action_of_click c)); repeat split; right; by exists r.
Qed.

(** C7: when the new path collides and the action taken is "rename_again"
    or none (the dialog was closed), [rename_current] returns at once: the
    disk, the file list, the cursor and the open document are as before, and
    the only call that can have been logged is the duplicate dialog. *)
Theorem retry_and_cancel_change_nothing fuel (w : World) f a w1 :
  under_review w f → ¬ same_file w f →
  path_exists E (disk w) (new_file_path w f) = true →
  choose_action (new_name_base w) f w = Done a w1 →
  a = Some "rename_again" ∨ a = None →
  rename_current E fuel w = Done tt w1
  ∧ disk w1 = disk w ∧ pdf_files w1 = pdf_files w
  ∧ current_index w1 = current_index w ∧ doc w1 = doc w ∧ folder w1 = folder w
  ∧ (log w1 = log w
     ∨ ∃ remember,
         log w1 = EvDuplicateDialog (new_name_base w) f a remember :: log w).
Proof.
  intros Hf Hne Hex Hch Ha. split; [|by eapply choose_action_frame].
  rewrite (rename_current_unfold _ _ _ Hf Hne).
  unfold handle_duplicate. rewrite Hex. unfold bind. rewrite Hch.
  destruct Ha as [->| ->]; reflexivity.
Qed.

(** *** Add numbering *)

Lemma numbering_loop_least d dir base ext (k : nat) :
  ∀ fuel count : nat,
    (count ≤ k)%nat → (k - count < fuel)%nat →
    path_exists E d (numbered_candidate E dir base ext k) = false →
    (∀ j : nat, (count ≤ j < k)%nat →
          path_exists E d (numbered_candidate E dir base ext j) = true) →
    numbering_loop E fuel d dir base ext count = Some (numbered_candidate E dir base ext k).
Proof.
  induction fuel as [|fuel IH]; intros count Hle Hfuel Hfree Htaken; [lia|].
  simpl. destruct (decide (count = k)) as [->|Hne].
  - by rewrite Hfree.
  - rewrite Htaken by lia. apply IH; [lia|lia|done|].
    intros j Hj. apply Htaken. lia.
Qed.

(** C3: the probing loop started at 1 returns the candidate of the smallest
    counter [k >= 1] whose candidate does not exist, as soon as it is given
    [k] probes; and when "add_numbering" is the action taken for a colliding
    name, that candidate is the path handed to the rename step.  With
    name.pdf, name(1).pdf and name(2).pdf on the disk, proposing "name"
    gives name(3).pdf. *)
Theorem add_numbering_smallest_free d dir base ext (k fuel : nat) :
  (1 ≤ k)%nat → (k ≤ fuel)%nat →
  path_exists E d (numbered_candidate E dir base ext k) = false →
  (∀ j : nat, (1 ≤ j < k)%nat →
        path_exists E d (numbered_candidate E dir base ext j) = true) →
  numbering_loop E fuel d dir base ext 1
  = Some (path_join E dir (base +:+ "(" +:+ str_of_count k +:+ ")" +:+ ext))
  ∧ (∀ (w : World) f p a w1,
        disk w = d → folder w = dir →
        path_exists E d p = true →
        choose_action base f w = Done a w1 → a = Some "add_numbering" →
        handle_duplicate E fuel base f ext p w
        = Done (Proceed (numbered_candidate E dir base ext k)) w1)
  ∧ numbering_loop Posix.env 3
      [("/docs/name.pdf", true); ("/docs/name(1).pdf", true); ("/docs/name(2).pdf", true)]
      "/docs" "name" ".pdf" 1
    = Some "/docs/name(3).pdf".
Proof.
  intros H1 Hfuel Hfree Htaken.
  assert (numbering_loop E fuel d dir base ext 1
          = Some (numbered_candidate E dir base ext k)) as Hloop
    by (apply numbering_loop_least; [lia|lia|done|done]).
  split; [exact Hloop|]. split; [|reflexivity].
  intros w f p a w1 Hd Hdir Hex Hch ->.
  unfold handle_duplicate. rewrite Hd, Hex. unfold bind. rewrite Hch.
  settle_tests.
  apply choose_action_frame in Hch as (-> & _ & _ & _ & -> & _).
  rewrite Hd, Hdir, Hloop. reflexivity.
Qed.

(** The loop stops at the first free counter of those it is given fuel for. *)
Lemma numbering_loop_finds d dir base ext :
  ∀ fuel count : nat,
    (∃ j : nat, (count ≤ j < count + fuel)%nat
         ∧ path_exists E d (numbered_candidate E dir base ext j) = false) →
    ∃ k : nat,
      (count ≤ k < count + fuel)%nat
      ∧ numbering_loop E fuel d dir base ext count
        = Some (numbered_candidate E dir base ext k)
      ∧ path_exists E d (numbered_candidate E dir base ext k) = false
      ∧ (∀ j : nat, (count ≤ j < k)%nat →
              path_exists E d (numbered_candidate E dir base ext j) = true).
Proof.
  induction fuel as [|fuel IH]; intros count (j & Hj & Hfree); [lia|].
  simpl. destruct (path_exists E d (numbered_candidate E dir base ext count)) eqn:Hc.
  - destruct (IH (S count)) as (k & Hk & Hloop & Hk_free & Hbelow).
    { exists j. split; [|done]. destruct (decide (j = count)) as [->|]; [congruence|lia]. }
    exists k. split; [lia|]. split; [done|]. split; [done|].
    intros i Hi. destruct (decide (i = count)) as [->|]; [done|]. apply Hbelow. lia.
  - exists count. split; [lia|]. split; [done|]. split; [done|]. intros i Hi. lia.
Qed.

(** On a disk with finitely many paths, where different counters give
    different candidates, the loop returns: one more probe than there are
    paths is enough. *)
Lemma numbering_loop_terminates d dir base ext (paths : list string) :
  (∀ p, path_exists E d p = true → p ∈ paths) →
  Inj (=) (=) (numbered_candidate E dir base ext) →
  ∃ k : nat,
    (1 ≤ k ≤ S (length paths))%nat
    ∧ numbering_loop E (S (length paths)) d dir base ext 1
      = Some (numbered_candidate E dir base ext k)
    ∧ path_exists E d (numbered_candidate E dir base ext k) = false
    ∧ (∀ j : nat, (1 ≤ j < k)%nat →
            path_exists E d (numbered_candidate E dir base ext j) = true).
Proof.
  intros Hpaths Hinj.
  destruct (numbering_loop_finds d dir base ext (S (length paths)) 1)
    as (k & Hk & Hloop & Hfree & Hbelow).
  - set (counters := seq 1 (S (length paths))).
    destruct (decide (Forall
                (λ j, path_exists E d (numbered_candidate E dir base ext j) = true)
                counters)) as [Hall|Hsome].
    + exfalso.
      assert (numbered_candidate E dir base ext <$> counters ⊆+ paths) as Hsub.
      { apply NoDup_submseteq.
        - apply NoDup_fmap_2; [done|apply NoDup_seq].
        - intros p (j & -> & Hj)%list_elem_of_fmap. apply Hpaths.
          by eapply Forall_forall in Hall. }
      apply submseteq_length in Hsub. rewrite length_fmap in Hsub.
      unfold counters in Hsub. rewrite length_seq in Hsub. lia.
    + apply not_Forall_Exists in Hsome; [|apply _].
      apply Exists_exists in Hsome as (j & Hj & Hfree). simpl in Hfree.
      apply elem_of_seq in Hj. exists j. split; [lia|].
      by destruct (path_exists E d (numbered_candidate E dir base ext j)).
  - exists k. split; [lia|]. done.
Qed.

(** *** Every method is a sequence of atoms *)

Lemma good_done {A} r (w w' : World) (a : A) (Q : A → World → Prop) :
  moves r w w' → Q a w' → good r w (Done a w') Q.
Proof. by split. Qed.

Lemma good_after {A} r (w w1 : World) (res : Result Disk A) Q :
  moves r w w1 → good r w1 res Q → good r w res Q.
Proof.
  intros Hm. destruct res; simpl; [intros [? ?]; split; [|done]|..|done];
    by eapply rtc_trans.
Qed.

Lemma good_atom {A} r (w w1 : World) (res : Result Disk A) Q :
  atom r w w1 → good r w1 res Q → good r w res Q.
Proof. intros Ha. apply good_after. by apply rtc_once. Qed.

Lemma good_weaken {A} r (w : World) (res : Result Disk A) (Q Q' : A → World → Prop) :
  good r w res Q → (∀ a w', Q a w' → Q' a w') → good r w res Q'.
Proof.
  destruct res; simpl; [|done..]. intros [Hm HQ] HQ'. split; [done|by apply HQ'].
Qed.

Lemma good_forget {A} r (w : World) (res : Result Disk A) Q :
  good r w res Q → good r w res (λ _ _, True).
Proof. intros H. by eapply good_weaken. Qed.

Lemma good_bind {A B} r (w : World) (m : World → Result Disk A)
    (k : A → World → Result Disk B) Q R :
  good r w (m w) Q →
  (∀ a w1, Q a w1 → good r w1 (k a w1) R) →
  good r w (bind m k w) R.
Proof.
  unfold bind. intros Hm Hk. destruct (m w) as [a w1|w1|e w1|]; simpl in *; try done.
  destruct Hm as [Hm HQ]. eapply good_after; [exact Hm|]. by apply Hk.
Qed.

Lemma good_try {A} r (w : World) (body : World → Result Disk A) handler Q :
  good r w (body w) Q →
  (∀ e w1, good r w1 (handler e w1) Q) →
  good r w (try_except body handler w) Q.
Proof.
  unfold try_except. intros Hb Hh.
  destruct (body w) as [a w1|w1|e w1|]; simpl in *; try done.
  eapply good_after; [exact Hb|]. apply Hh.
Qed.

Lemma good_mono {A} (w : World) (res : Result Disk A) Q :
  good false w res Q → good true w res Q.
Proof.
  assert (∀ x y : World, moves false x y → moves true x y) as Hmono.
  { intros x y. apply rtc_subrel. clear. intros x y H.
    destruct H; try discriminate; by constructor. }
  destruct res; simpl; [|by auto..]. intros [Hm HQ]. split; [by apply Hmono|done].
Qed.

Lemma good_emit r (w : World) e :
  notice e → good r w (emit e w) (λ _ w', w' = set_log (e :: log w) w).
Proof. intros He. apply good_done; [|done]. apply rtc_once. by constructor. Qed.

Lemma good_askyesno r (w : World) title message :
  good r w (askyesno title message w)
    (λ _ w', doc w' = doc w ∧ pdf_files w' = pdf_files w
             ∧ current_index w' = current_index w).
Proof.
  unfold askyesno. destruct (yesno_answers w) eqn:Hq; [apply rtc_refl|].
  apply good_done; [|done]. apply rtc_once. by constructor.
Qed.

Lemma good_exit_app r (w : World) :
  good r w (exit_app w) (λ _ w', destroyed w' = true).
Proof. apply good_done; [|reflexivity]. apply rtc_once. constructor. Qed.

Lemma good_close r (w : World) :
  good r w (_close_current_doc E w)
    (λ _ w', doc w' = None ∧ pdf_files w' = pdf_files w
             ∧ current_index w' = current_index w ∧ folder w' = folder w
             ∧ disk w' = disk w ∧ destroyed w' = destroyed w).
Proof.
  unfold _close_current_doc. destruct (doc w) as [d|] eqn:Hd.
  - cbv zeta. destruct (doc_close E d) as [e|]; (apply good_done; [|done]).
    + eapply rtc_l; [by apply (atom_close r d)|]. apply rtc_once.
      by apply (atom_notice r (EvPrint ("Error closing document: " +:+ e))).
    + apply rtc_once. by constructor.
  - apply good_done; [apply rtc_refl|done].
Qed.

Lemma good_find r (w : World) dir :
  good r w (_find_pdf_files E dir w)
    (λ _ w', doc w' = doc w ∧ pdf_files w' = pdf_files w
             ∧ current_index w' = current_index w ∧ folder w' = folder w
             ∧ disk w' = disk w ∧ destroyed w' = destroyed w
             ∧ directory_answers w' = directory_answers w).
Proof.
  unfold _find_pdf_files. destruct (os_listdir E (disk w) dir) as [names|[|e]].
  - apply good_done; [apply rtc_refl|done].
  - eapply good_bind; [by apply good_emit|]. intros _ w1 ->. by apply good_done.
  - eapply good_bind; [by apply good_emit|]. intros _ w1 ->. by apply good_done.
Qed.

Lemma good_select r answers :
  ∀ w : World, directory_answers w = answers →
    good r w (select_loop E answers w) (λ _ _, True).
Proof.
  induction answers as [|d rest IH]; intros w Hq; simpl; [apply rtc_refl|].
  eapply good_atom; [by apply atom_directory|].
  set (w0 := set_log _ _).
  case_bool_decide.
  { eapply good_bind; [apply good_askyesno|]. intros b w1 _. by apply good_done. }
  destruct (_ && _).
  { eapply good_bind; [by apply good_emit|]. intros _ w1 _. by apply good_done. }
  eapply good_bind; [apply good_find|].
  intros files w1 (_ & _ & _ & _ & _ & _ & Hq1). destruct files as [|file files].
  - eapply good_bind; [by apply good_emit|]. intros _ w2 ->. by apply IH.
  - eapply good_bind; [apply good_close|]. intros _ w2 _.
    apply good_done; [|done].
    eapply rtc_l; [apply (atom_folder r d)|].
    eapply rtc_l; [apply (atom_pdf_files r (file :: files))|].
    eapply rtc_l; [apply (atom_current_index r 0%Z)|].
    apply rtc_once. apply (atom_first_load_done r false).
Qed.

Lemma good_select_core r (w : World) :
  good r w (_select_and_load_new_folder_core E w) (λ _ _, True).
Proof. by apply good_select. Qed.

Lemma good_load_file r fuel :
  ∀ (w : World) index, good r w (load_file E fuel index w) (λ _ _, True).
Proof.
  induction fuel as [|fuel IH]; intros w index; simpl; [done|].
  eapply good_bind; [apply good_close|]. intros _ w1 (Hdoc & _).
  destruct (_ <=? _)%Z.
  - case_bool_decide.
    + eapply good_bind; [by apply good_emit|]. intros _ w2 _.
      eapply good_bind; [apply good_select_core|]. intros [] w3 _.
      * apply IH.
      * eapply good_weaken; [apply good_exit_app|done].
    + eapply good_bind; [apply good_askyesno|]. intros [] w2 _.
      * eapply good_weaken; [apply good_exit_app|done].
      * eapply good_bind; [apply good_select_core|]. intros [] w3 _.
        -- apply IH.
        -- eapply good_weaken; [by apply good_emit|done].
  - destruct (py_getitem _ _) as [current_file|]; [|apply rtc_refl].
    destruct (fitz_open _ _ _) as [[]|e].
    + apply good_done; [|done].
      eapply rtc_l; [by apply atom_open|].
      eapply rtc_l; [apply (atom_first_load_done r true)|].
      apply rtc_once. apply atom_name_entry.
    + eapply (good_bind _ _ _ _ (λ _ _, True)).
      { eapply (good_bind _ _ _ _ (λ _ _, True)).
        - apply good_done; [|done]. apply rtc_once. by apply atom_open_failed.
        - intros _ w2 _. eapply good_forget. by apply good_emit. }
      intros _ w2 _.
      eapply (good_bind _ _ _ _ (λ _ _, True)).
      { eapply (good_bind _ _ _ _ (λ _ _, True)); [eapply good_forget, good_close|].
        intros _ w3 _. apply good_done; [|done].
        apply rtc_once. apply atom_current_index. }
      intros _ w3 _. apply IH.
Qed.

Lemma good_reload r fuel (w : World) :
  good r w (load_file E fuel (current_index w) w) (λ _ _, True).
Proof. apply good_load_file. Qed.

Lemma good_skip_current r fuel (w : World) :
  good r w (skip_current E fuel w) (λ _ _, True).
Proof.
  unfold skip_current, skip_current_with.
  eapply (good_bind _ _ _ _ (λ _ _, True)); [|intros _ w1 _; apply good_reload].
  eapply (good_bind _ _ _ _ (λ _ _, True)); [eapply good_forget, good_close|].
  intros _ w1 _. apply good_done; [|done]. apply rtc_once. apply atom_current_index.
Qed.

Lemma good_change_folder r fuel (w : World) :
  good r w (change_folder E fuel w) (λ _ _, True).
Proof.
  unfold change_folder, change_folder_with.
  eapply good_bind; [apply good_select_core|]. intros [] w1 _.
  - apply good_reload.
  - eapply good_forget. by apply good_emit.
Qed.

Lemma good_prev_file r fuel (w : World) :
  good r w (prev_file E fuel w) (λ _ _, True).
Proof.
  unfold prev_file. destruct (_ <? _)%Z.
  - eapply good_atom; [apply atom_current_index|]. apply good_load_file.
  - eapply good_forget. by apply good_emit.
Qed.

Lemma good_next_file r fuel (w : World) :
  good r w (next_file E fuel w) (λ _ _, True).
Proof.
  unfold next_file. destruct (_ <? _)%Z.
  - eapply good_atom; [apply atom_current_index|]. apply good_load_file.
  - eapply good_forget. by apply good_emit.
Qed.

Lemma good_choose_action b f (w : World) :
  good true w (choose_action b f w) (λ _ _, True).
Proof.
  destruct (choose_action b f w) as [a w1|w1|e w1|] eqn:Hc; simpl; [|..|done].
  - split; [|done].
    apply choose_action_cases in Hc as [(_ & _ & ->)|(Hask & c & rm & q & Hq & -> & ->)];
      [apply rtc_refl|].
    eapply rtc_l; [by apply (atom_dialog true b f c rm q)|].
    destruct (rm && truthy (action_of_click c)) eqn:Hrm; [|apply rtc_refl].
    apply rtc_once. apply andb_true_iff in Hrm as [_ Htr]. by apply atom_remember.
  - revert Hc. unfold choose_action, bind, duplicate_dialog.
    destruct (negb _); [done|]. destruct (dialog_answers w) as [|[c rm] q]; [|by destruct (_ && _)].
    intros [= <-]. apply rtc_refl.
  - revert Hc. unfold choose_action, bind, duplicate_dialog.
    destruct (negb _); [done|]. destruct (dialog_answers w) as [|[c rm] q]; [done|].
    by destruct (_ && _).
Qed.

Lemma good_handle_duplicate fuel b f ext p (w : World) :
  good true w (handle_duplicate E fuel b f ext p w) (λ _ _, True).
Proof.
  unfold handle_duplicate. destruct (path_exists _ _ _); [|by apply good_done].
  eapply good_bind; [apply good_choose_action|]. intros a w1 _.
  repeat case_bool_decide; try by apply good_done.
  destruct (numbering_loop _ _ _ _ _ _ _); [by apply good_done|done].
Qed.

Lemma good_attempt_rename fuel f old new (w : World) :
  good true w (attempt_rename E fuel f old new w) (λ _ _, True).
Proof.
  unfold attempt_rename.
  eapply good_bind; [apply good_close|]. intros _ w1 (Hdoc & _).
  apply good_try.
  - eapply (good_bind _ _ _ _ (λ _ _, True)); [|intros _ w2 _; apply good_reload].
    eapply (good_bind _ _ _ _ (λ _ _, True)).
    + eapply (good_bind _ _ _ _ (λ _ _, True)).
      * unfold rename_file. destruct (os_rename _ _ _ _) as [d'|e] eqn:Hr.
        -- apply good_done; [|done]. apply rtc_once. by apply atom_rename.
        -- apply rtc_once. by apply atom_rename_failed.
      * intros _ w2 _. destruct (py_setitem _ _ _); [|apply rtc_refl].
        apply good_done; [|done]. apply rtc_once. apply atom_pdf_files.
    + intros _ w2 _. apply good_done; [|done]. apply rtc_once. apply atom_current_index.
  - intros e w2.
    eapply good_bind; [by apply good_emit|]. intros _ w3 _. apply good_reload.
Qed.

Lemma good_rename_current fuel (w : World) :
  good true w (rename_current E fuel w) (λ _ _, True).
Proof.
  unfold rename_current. cbv zeta. destruct (no_file_selected w).
  { eapply good_forget. by apply good_emit. }
  destruct (py_getitem _ _) as [f|]; [|apply rtc_refl].
  case_bool_decide.
  - eapply (good_bind _ _ _ _ (λ _ _, True)); [|intros _ w1 _; apply good_reload].
    eapply (good_bind _ _ _ _ (λ _ _, True)); [eapply good_forget, good_close|].
    intros _ w1 _. apply good_done; [|done]. apply rtc_once. apply atom_current_index.
  - eapply good_bind; [apply good_handle_duplicate|]. intros [| |p] w1 _.
    + by apply good_done.
    + apply good_skip_current.
    + apply good_attempt_rename.
Qed.

Lemma good_step fuel op (w : World) :
  good true w (step E fuel op w) (λ _ _, True).
Proof.
  destruct op; cbn [step].
  - apply good_done; [|done]. apply rtc_once. apply atom_name_entry.
  - apply good_rename_current.
  - apply good_skip_current.
  - apply good_prev_file.
  - apply good_next_file.
  - apply good_change_folder.
  - eapply good_forget, good_exit_app.
Qed.

Lemma good_run fuel ops :
  ∀ w : World, good true w (run E fuel ops w) (λ _ _, True).
Proof.
  induction ops as [|op ops IH]; intros w; cbn [run].
  - by apply good_done.
  - destruct (destroyed w); [by apply good_done|].
    eapply good_bind; [apply good_step|]. intros _ w1 _. apply IH.
Qed.

(** Whatever the user does, the state moves by atoms. *)
Lemma run_moves fuel ops (w w' : World) :
  ends_in (run E fuel ops w) w' → moves true w w'.
Proof.
  pose proof (good_run fuel ops w) as H.
  destruct (run E fuel ops w); simpl in *; intros Hend; [subst; tauto..|done].
Qed.

(** Loading a file is made of atoms other than those of the renaming. *)
Lemma load_file_moves fuel index (w w' : World) :
  ends_in (load_file E fuel index w) w' → moves false w w'.
Proof.
  pose proof (good_load_file false fuel w index) as H.
  destruct (load_file E fuel index w); simpl in *; intros Hend; [subst; tauto..|done].
Qed.

(** *** What the atoms keep *)

Lemma find_pdf_files_scan dir (w : World) :
  ∃ l, _find_pdf_files E dir w = Done (scan (disk w) dir) (set_log l w).
Proof.
  unfold _find_pdf_files, scan.
  destruct (os_listdir E (disk w) dir) as [names|[|e]].
  - exists (log w). by destruct w.
  - by eexists.
  - by eexists.
Qed.

Lemma close_current_doc_done (w : World) :
  _close_current_doc E w = Done tt (close_world w).
Proof.
  unfold close_world, _close_current_doc. by destruct (doc w).
Qed.

Lemma close_world_frame (w : World) :
  doc (close_world w) = None
  ∧ pdf_files (close_world w) = pdf_files w
  ∧ current_index (close_world w) = current_index w
  ∧ folder (close_world w) = folder w
  ∧ disk (close_world w) = disk w
  ∧ duplicate_handling_choice (close_world w) = duplicate_handling_choice w
  ∧ rename_attempts (log (close_world w)) = rename_attempts (log w)
  ∧ destroyed (close_world w) = destroyed w
  ∧ directory_answers (close_world w) = directory_answers w.
Proof.
  unfold close_world, _close_current_doc.
  destruct (doc w) as [d|] eqn:Hd; [|done]. cbv zeta.
  by destruct (doc_close E d).
Qed.

Lemma moves_open_document r (w w' : World) :
  moves r w w' →
  open_document (log w) = Some (doc w) → open_document (log w') = Some (doc w').
Proof.
  induction 1 as [|x y z Hxy _ IH]; [done|]. intros Hx. apply IH. clear IH.
  destruct Hxy; simpl; rewrite ?Hx; try done.
  - by destruct e.
  - rewrite H. by rewrite bool_decide_eq_true_2.
  - by rewrite H.
  - by rewrite H.
  - by rewrite H0.
  - by rewrite H0.
Qed.

Lemma open_document_split later e earlier h :
  open_document (later ++ e :: earlier) = Some h →
  ∃ held, open_document earlier = Some held
          ∧ match e with
            | EvOpen _ _ | EvRename _ _ _ => held = None
            | _ => True
            end.
Proof.
  revert h. induction later as [|e' later IH]; intros h; simpl.
  - destruct (open_document earlier) as [held|]; [|done]. intros H.
    exists held. split; [done|]. by destruct e, held.
  - destruct (open_document (later ++ e :: earlier)) as [h'|]; [|done].
    intros _. by eapply IH.
Qed.

Lemma moves_choice r (w w' : World) :
  moves r w w' →
  valid_choice (duplicate_handling_choice w) →
  valid_choice (duplicate_handling_choice w')
  ∧ (duplicate_handling_choice w ≠ Some "ask" →
     duplicate_handling_choice w' = duplicate_handling_choice w
     ∧ prompts (log w') = prompts (log w)
     ∧ dialog_answers w' = dialog_answers w).
Proof.
  induction 1 as [|x y z Hxy _ IH]; [done|]. intros Hx.
  assert (valid_choice (duplicate_handling_choice y)
          ∧ (duplicate_handling_choice x ≠ Some "ask" →
             duplicate_handling_choice y = duplicate_handling_choice x
             ∧ prompts (log y) = prompts (log x)
             ∧ dialog_answers y = dialog_answers x)) as [Hy Hkeep].
  { destruct Hxy; simpl; try done.
    - split; [done|]. by destruct e.
    - split; [|done]. unfold valid_choice.
      destruct click; simpl in *;
        [by right; left|by right; right; left|by right; right; right|done]. }
  destruct (IH Hy) as [Hz Hz']. split; [done|]. intros Hne.
  destruct (Hkeep Hne) as (E1 & E2 & E3).
  destruct Hz' as (F1 & F2 & F3); [congruence|]. repeat split; congruence.
Qed.

Lemma moves_disk (w w' : World) :
  moves false w w' →
  disk w' = disk w ∧ rename_attempts (log w') = rename_attempts (log w).
Proof.
  induction 1 as [|x y z Hxy _ [IH1 IH2]]; [done|].
  rewrite IH1, IH2. clear IH1 IH2.
  destruct Hxy; simpl; try done. by destruct e.
Qed.

(** A file that opens is presented by the first call of [load_file]. *)
Lemma load_file_presents fuel index (w : World) g :
  (0 ≤ index)%Z → pdf_files w !! Z.to_nat index = Some g →
  fitz_open E (disk w) (path_join E (folder w) g) = inl tt →
  load_file E (S fuel) index w = Done tt (presented (close_world w) g).
Proof.
  intros H0 Hg Hopen. simpl. unfold bind. rewrite close_current_doc_done.
  destruct (close_world_frame w) as (_ & Hfiles & _ & Hfolder & Hdisk & _).
  rewrite Hfiles, Hfolder, Hdisk.
  pose proof (lookup_lt_Some _ _ _ Hg) as Hlt.
  destruct (Z.leb_spec (Z.of_nat (length (pdf_files w))) index); [lia|].
  unfold py_getitem, py_index. cbv zeta.
  destruct (Z.leb_spec 0 index); [|lia].
  destruct (Z.ltb_spec index (Z.of_nat (length (pdf_files w)))); [|lia].
  rewrite Hg, Hopen. unfold presented. by rewrite Hfolder.
Qed.

(** *** The remembered choice *)

(** C5: whatever the user does, the stored choice stays one of "ask",
    "rename_again", "add_numbering" and "skip" (never none); once it is not
    "ask" it stays what it is, the duplicate dialog is not shown again and no
    answer to it is consumed, and every collision takes the stored choice as
    its action.  A dialog closed without a choice stores nothing, also with
    the remember box ticked; a button pressed with the box ticked stores that
    button's action. *)
Theorem remembered_choice_is_applied fuel ops (w w' : World) :
  valid_choice (duplicate_handling_choice w) →
  ends_in (run E fuel ops w) w' →
  valid_choice (duplicate_handling_choice w')
  ∧ (duplicate_handling_choice w ≠ Some "ask" →
     duplicate_handling_choice w' = duplicate_handling_choice w
     ∧ prompts (log w') = prompts (log w)
     ∧ dialog_answers w' = dialog_answers w)
  ∧ (duplicate_handling_choice w' ≠ Some "ask" →
     ∀ b f, choose_action b f w' = Done (duplicate_handling_choice w') w')
  ∧ (∀ b f click remember rest,
       duplicate_handling_choice w' = Some "ask" →
       dialog_answers w' = (click, remember) :: rest →
       ∃ w1, choose_action b f w' = Done (action_of_click click) w1
             ∧ duplicate_handling_choice w1
               = (if remember && negb (bool_decide (click = CloseWindow))
                  then action_of_click click else Some "ask")).
Proof.
  intros Hvalid Hend. apply run_moves in Hend.
  destruct (moves_choice _ _ _ Hend Hvalid) as [Hv Hkeep].
  split; [done|]. split; [done|]. split.
  - intros Hne b f. unfold choose_action. by rewrite bool_decide_eq_false_2.
  - intros b f click remember rest Hask Hq. unfold choose_action.
    rewrite bool_decide_eq_true_2 by done. simpl negb. cbv iota.
    unfold bind, duplicate_dialog. rewrite Hq. cbn [fst snd].
    destruct click, remember; simpl; eexists; (split; [reflexivity|]); simpl; done.
Qed.

(** *** What loading a file establishes *)

Lemma safe_bind {A B} (w : World) (m : World → Result Disk A)
    (k : A → World → Result Disk B) Q R :
  safe (m w) Q → (∀ a w1, Q a w1 → safe (k a w1) R) → safe (bind m k w) R.
Proof.
  unfold bind. intros Hm Hk. destruct (m w) as [a w1|w1|e w1|]; simpl in *; try done.
  by apply Hk.
Qed.

Lemma safe_conj {A} (res : Result Disk A) (Q Q' : A → World → Prop) :
  safe res Q → safe res Q' → safe res (λ a w, Q a w ∧ Q' a w).
Proof. by destruct res. Qed.

Lemma safe_weaken {A} (res : Result Disk A) (Q Q' : A → World → Prop) :
  safe res Q → (∀ a w', Q a w' → Q' a w') → safe res Q'.
Proof. destruct res; simpl; [|done..]. intros HQ HQ'. by apply HQ'. Qed.

Lemma safe_find dir (w : World) :
  safe (_find_pdf_files E dir w)
    (λ _ w', pdf_files w' = pdf_files w ∧ current_index w' = current_index w
             ∧ folder w' = folder w ∧ doc w' = doc w ∧ disk w' = disk w
             ∧ destroyed w' = destroyed w).
Proof.
  unfold _find_pdf_files. by destruct (os_listdir E (disk w) dir) as [names|[|e]].
Qed.

(** [_select_and_load_new_folder_core] either leaves the files, the cursor,
    the folder and the open document as they are, or returns [True] with the
    cursor at 0 and no document open. *)
Lemma safe_select answers :
  ∀ w : World,
    safe (select_loop E answers w)
      (λ b w', disk w' = disk w ∧ destroyed w' = destroyed w
               ∧ ((pdf_files w' = pdf_files w ∧ current_index w' = current_index w
                   ∧ folder w' = folder w ∧ doc w' = doc w)
                  ∨ (b = true ∧ current_index w' = 0%Z ∧ doc w' = None))).
Proof.
  induction answers as [|d rest IH]; intros w; simpl; [done|].
  set (w0 := set_log _ _).
  case_bool_decide.
  { unfold bind, askyesno. simpl. destruct (yesno_answers w); simpl; [done|].
    split; [done|]. split; [done|]. by left. }
  destruct (_ && _).
  { simpl. split; [done|]. split; [done|]. by left. }
  eapply safe_bind; [apply safe_find|].
  intros files w1 (Hf & Hi & Hd & Hdoc & Hdisk & Hdes). destruct files as [|file files].
  - unfold bind, showerror, emit.
    eapply safe_weaken; [apply IH|]. simpl.
    intros b w2 (-> & -> & Hcase). rewrite Hdisk, Hdes. split; [done|]. split; [done|].
    destruct Hcase as [(-> & -> & -> & ->)|?]; [left|by right].
    by rewrite Hf, Hi, Hd, Hdoc.
  - unfold bind. rewrite close_current_doc_done. simpl.
    destruct (close_world_frame w1) as (Hc & _ & _ & _ & -> & _ & _ & -> & _).
    rewrite Hdisk, Hdes. split; [done|]. split; [done|]. by right.
Qed.

Lemma viewing_presented (w : World) g :
  (0 ≤ current_index w)%Z →
  pdf_files w !! Z.to_nat (current_index w) = Some g →
  fitz_open E (disk w) (path_join E (folder w) g) = inl tt →
  viewing (presented w g).
Proof.
  intros H0 Hg Hopen _ f [_ Hf]. simpl in Hf. rewrite Hg in Hf.
  injection Hf as <-. done.
Qed.

Lemma viewing_past_end (w : World) :
  (Z.of_nat (length (pdf_files w)) ≤ current_index w)%Z → viewing w.
Proof.
  intros Hge _ f [H0 Hf]. apply lookup_lt_Some in Hf. lia.
Qed.

(** Loading the file at the cursor never raises, leaves the disk alone,
    keeps the cursor non-negative (and within the list when it was), and
    ends with the file under review open in the viewer. *)
Lemma safe_load_file fuel :
  ∀ w : World,
    (0 ≤ current_index w)%Z →
    safe (load_file E fuel (current_index w) w)
      (λ _ w', (0 ≤ current_index w')%Z
               ∧ disk w' = disk w
               ∧ (in_bounds w → in_bounds w')
               ∧ viewing w').
Proof.
  induction fuel as [|fuel IH]; intros w H0; simpl; [done|].
  unfold bind at 1. rewrite close_current_doc_done.
  destruct (close_world_frame w) as (Hdoc & Hfiles & Hidx & Hfolder & Hdisk & _).
  rewrite Hfiles, Hfolder, Hdisk.
  set (w1 := close_world w) in *.
  assert (in_bounds w → in_bounds w1) as Hb1 by (unfold in_bounds; by rewrite Hfiles, Hidx).
  destruct (Z.leb_spec (Z.of_nat (length (pdf_files w))) (current_index w)) as [Hge|Hlt].
  - assert (∀ w2 : World,
              pdf_files w2 = pdf_files w1 → current_index w2 = current_index w1 →
              (0 ≤ current_index w2)%Z ∧ (in_bounds w → in_bounds w2) ∧ viewing w2) as Hsame.
    { intros w2 E1 E2. split; [lia|]. split.
      - unfold in_bounds in *. rewrite E1, E2. tauto.
      - apply viewing_past_end. rewrite E1, E2, Hfiles, Hidx. done. }
    assert (∀ (b : bool) (w2 w3 : World),
              disk w2 = disk w → pdf_files w2 = pdf_files w1 →
              current_index w2 = current_index w1 →
              disk w3 = disk w2 ∧ destroyed w3 = destroyed w2
              ∧ ((pdf_files w3 = pdf_files w2 ∧ current_index w3 = current_index w2
                  ∧ folder w3 = folder w2 ∧ doc w3 = doc w2)
                 ∨ (b = true ∧ current_index w3 = 0%Z ∧ doc w3 = None)) →
              (0 ≤ current_index w3)%Z ∧ disk w3 = disk w
              ∧ (in_bounds w → in_bounds w3)
              ∧ (b = false → viewing w3)) as Hsel.
    { intros b w2 w3 D2 F2 I2 (D3 & _ & Hcase). split; [|split; [congruence|]].
      - destruct Hcase as [(_ & -> & _)|(_ & -> & _)]; lia.
      - destruct Hcase as [(F3 & I3 & _)|(? & I3 & _)].
        + destruct (Hsame w3) as (_ & ? & ?); [congruence..|]. done.
        + split; [|by intros ->]. intros _. unfold in_bounds. rewrite I3. lia. }
    case_bool_decide as Hempty.
    + unfold bind at 1. unfold showinfo, emit.
      set (w2 := set_log _ w1).
      eapply safe_bind; [apply safe_select|]. intros b w3 Hpost.
      destruct (Hsel b w2 w3) as (H3 & D3 & B3 & Hfalse); [done..|].
      destruct b.
      * eapply safe_weaken; [by apply IH|]. simpl.
        intros _ w4 (? & -> & B4 & ?).
        split; [done|]. split; [done|]. split; [tauto|done].
      * simpl. split; [done|]. split; [done|]. split; [exact B3|by intros ?].
    + unfold bind at 1, askyesno.
      destruct (yesno_answers w1) as [|[] answers]; [done| |].
      * simpl. split; [lia|]. split; [done|]. split; [|by intros ?].
        intros Hb. apply Hb1 in Hb. exact Hb.
      * set (w2 := set_log _ _).
        unfold change_folder_with.
        eapply safe_bind; [apply safe_select|]. intros b w3 Hpost.
        destruct (Hsel b w2 w3) as (H3 & D3 & B3 & Hfalse); [done..|].
        destruct b.
        -- eapply safe_weaken; [by apply IH|]. simpl.
           intros _ w4 (? & -> & B4 & ?).
           split; [done|]. split; [done|]. split; [tauto|done].
        -- simpl. destruct (Hsame (set_log
                    (EvShowInfo TITLE_INFO
                       "Folder selection cancelled or failed. Continuing with previous state if any."
                     :: log w3) w3)) as (? & ? & ?).
           ++ simpl. destruct Hpost as (_ & _ & [(-> & _)|(? & _)]); done.
           ++ simpl. destruct Hpost as (_ & _ & [(_ & -> & _)|(? & _)]); done.
           ++ split; [done|]. split; [done|]. done.
  - assert (is_Some (pdf_files w !! Z.to_nat (current_index w))) as [g Hg]
      by (apply lookup_lt_is_Some; lia).
    unfold py_getitem, py_index. cbv zeta.
    destruct (Z.leb_spec 0 (current_index w)); [|lia].
    destruct (Z.ltb_spec (current_index w) (Z.of_nat (length (pdf_files w)))); [|lia].
    rewrite Hg.
    destruct (fitz_open E (disk w) (path_join E (folder w) g)) as [[]|e] eqn:Hopen.
    + simpl. split; [lia|]. split; [done|]. split.
      * unfold in_bounds. simpl. rewrite Hfiles, Hidx. done.
      * rewrite <- Hfolder.
        apply (viewing_presented w1 g); [lia|by rewrite Hfiles, Hidx|].
        by rewrite Hfolder, Hdisk.
    + unfold bind at 1. unfold bind at 1. unfold emit at 1. unfold showerror, emit.
      set (w2 := set_log _ (set_log _ w1)).
      unfold skip_current_with. unfold bind at 1. unfold bind at 1.
      rewrite close_current_doc_done.
      destruct (close_world_frame w2) as (_ & F3 & I3 & _ & D3 & _).
      set (w3 := set_current_index _ _).
      eapply safe_weaken; [apply (IH w3); simpl; rewrite I3; simpl; lia|].
      simpl. intros _ w4 (? & -> & B4 & ?). rewrite D3. simpl.
      split; [done|]. split; [done|]. split; [|done].
      intros Hb. apply B4. unfold in_bounds in *. simpl. rewrite F3, I3. simpl.
      rewrite Hfiles, Hidx. lia.
Qed.

(** The directory dialog takes an answer whenever
    [_select_and_load_new_folder_core] returns. *)
Lemma safe_select_consumes answers :
  ∀ w : World,
    safe (select_loop E answers w)
      (λ _ w', (length (directory_answers w') < length answers)%nat).
Proof.
  induction answers as [|d rest IH]; intros w; cbn [select_loop]; [done|].
  set (w0 := set_log _ _).
  case_bool_decide.
  { unfold bind, askyesno. simpl. destruct (yesno_answers w); simpl; [done|lia]. }
  destruct (_ && _).
  { simpl. lia. }
  unfold bind at 1. destruct (find_pdf_files_scan d w0) as [l ->].
  destruct (scan (disk w0) d) as [|file files].
  - unfold bind, showerror, emit. eapply safe_weaken; [apply IH|]. simpl. lia.
  - unfold bind. rewrite close_current_doc_done. simpl.
    destruct (close_world_frame (set_log l w0)) as (_ & _ & _ & _ & _ & _ & _ & _ & ->).
    simpl. lia.
Qed.

(** Unless the user is asked for a folder on the way, loading the file at
    the cursor leaves the file list and the folder as they are and does not
    move the cursor back. *)
Lemma safe_load_file_list fuel :
  ∀ w : World,
    (0 ≤ current_index w)%Z →
    safe (load_file E fuel (current_index w) w)
      (λ _ w', (length (directory_answers w') ≤ length (directory_answers w))%nat
               ∧ (length (directory_answers w') = length (directory_answers w) →
                  pdf_files w' = pdf_files w ∧ folder w' = folder w
                  ∧ (current_index w ≤ current_index w')%Z)).
Proof.
  induction fuel as [|fuel IH]; intros w H0; simpl; [done|].
  unfold bind at 1. rewrite close_current_doc_done.
  destruct (close_world_frame w)
    as (_ & Hfiles & Hidx & Hfolder & Hdisk & _ & _ & _ & Hdirs).
  rewrite Hfiles, Hfolder, Hdisk.
  set (w1 := close_world w) in *.
  assert (∀ w2 : World,
            directory_answers w2 = directory_answers w1 →
            current_index w2 = current_index w1 →
            safe (_select_and_load_new_folder_core E w2)
              (λ (b : bool) w3,
                 (length (directory_answers w3) < length (directory_answers w))%nat
                 ∧ (0 ≤ current_index w3)%Z)) as Hsel.
  { intros w2 D2 I2. unfold _select_and_load_new_folder_core.
    eapply safe_weaken;
      [apply safe_conj; [apply safe_select_consumes|apply safe_select]|].
    simpl. intros b w3 (Hlt & _ & _ & Hcase). rewrite D2, Hdirs in Hlt.
    split; [done|]. destruct Hcase as [(_ & -> & _)|(_ & -> & _)]; lia. }
  destruct (Z.leb_spec (Z.of_nat (length (pdf_files w))) (current_index w)) as [Hge|Hlt].
  - case_bool_decide as Hempty.
    + unfold bind at 1. unfold showinfo, emit. set (w2 := set_log _ w1).
      eapply safe_bind; [by apply (Hsel w2)|]. intros b w3 [Hlt3 H3].
      destruct b.
      * eapply safe_weaken; [by apply IH|]. simpl. intros _ w4 [Hle _]. lia.
      * simpl. lia.
    + unfold bind at 1, askyesno.
      destruct (yesno_answers w1) as [|[] answers]; [done| |].
      * simpl. rewrite Hdirs, Hfiles, Hfolder, Hidx. split; [lia|]. intros _.
        split; [done|]. split; [done|]. lia.
      * set (w2 := set_log _ _). unfold change_folder_with.
        eapply safe_bind; [by apply (Hsel w2)|]. intros b w3 [Hlt3 H3].
        destruct b.
        -- eapply safe_weaken; [by apply IH|]. simpl. intros _ w4 [Hle _]. lia.
        -- simpl. lia.
  - assert (is_Some (pdf_files w !! Z.to_nat (current_index w))) as [g Hg]
      by (apply lookup_lt_is_Some; lia).
    unfold py_getitem, py_index. cbv zeta.
    destruct (Z.leb_spec 0 (current_index w)); [|lia].
    destruct (Z.ltb_spec (current_index w) (Z.of_nat (length (pdf_files w)))); [|lia].
    rewrite Hg.
    destruct (fitz_open E (disk w) (path_join E (folder w) g)) as [[]|e] eqn:Hopen.
    + simpl. rewrite Hdirs, Hfiles, Hfolder, Hidx. split; [lia|]. intros _.
      split; [done|]. split; [done|]. lia.
    + unfold bind at 1. unfold bind at 1. unfold emit at 1. unfold showerror, emit.
      set (w2 := set_log _ (set_log _ w1)).
      unfold skip_current_with. unfold bind at 1. unfold bind at 1.
      rewrite close_current_doc_done.
      destruct (close_world_frame w2) as (_ & F3 & I3 & O3 & _ & _ & _ & _ & D3).
      set (w3 := set_current_index _ _).
      eapply safe_weaken; [apply (IH w3); simpl; rewrite I3; simpl; lia|].
      simpl. intros _ w4 [Hle Heq]. rewrite F3, I3, O3, D3 in *. simpl in *.
      rewrite Hdirs, Hfiles, Hfolder, Hidx in *. split; [done|].
      intros Hsame. destruct (Heq Hsame) as (? & ? & ?). split; [done|]. split; [done|]. lia.
Qed.

Lemma load_file_try fuel (w : World) handler :
  (0 ≤ current_index w)%Z →
  try_except (λ w, load_file E fuel (current_index w) w) handler w
  = load_file E fuel (current_index w) w.
Proof.
  intros H0. pose proof (safe_load_file fuel w H0) as Hs. unfold try_except.
  by destruct (load_file E fuel (current_index w) w).
Qed.

Lemma close_world_closed (w : World) : doc w = None → close_world w = w.
Proof. intros H. unfold close_world, _close_current_doc. by rewrite H. Qed.

(** *** The rename step *)

Lemma handle_duplicate_frame fuel b f ext p (w : World) c w1 :
  handle_duplicate E fuel b f ext p w = Done c w1 →
  disk w1 = disk w ∧ pdf_files w1 = pdf_files w
  ∧ current_index w1 = current_index w ∧ doc w1 = doc w ∧ folder w1 = folder w.
Proof.
  unfold handle_duplicate. destruct (path_exists _ _ _); [|by intros [= <- <-]].
  unfold bind. destruct (choose_action b f w) as [a w2| | |] eqn:Hc; try done.
  apply choose_action_frame in Hc as (? & ? & ? & ? & ? & _).
  repeat case_bool_decide; unfold ret; try (intros [= <- <-]; done).
  destruct (numbering_loop _ _ _ _ _ _ _); [|done]. by intros [= <- <-].
Qed.


Lemma attempt_rename_success fuel f old new (w : World) d' :
  under_review w f → os_rename E (disk w) old new = inl d' →
  attempt_rename E fuel f old new w
  = load_file E fuel (current_index w + 1) (renamed w old new d').
Proof.
  intros Hf Hr. unfold attempt_rename, bind at 1. rewrite close_current_doc_done.
  destruct (close_world_frame w) as (_ & Hfiles & Hidx & _ & Hdisk & _).
  assert (under_review (close_world w) f) as Hf'
    by (unfold under_review; by rewrite Hfiles, Hidx).
  assert (0 ≤ current_index (renamed w old new d'))%Z as H0
    by (simpl; destruct Hf; lia).
  pose proof (load_file_try fuel (renamed w old new d')
                (λ e,
                   bind
                     (showerror TITLE_ERROR
                        ("Error renaming '" +:+ f +:+ "' to '"
                         +:+ path_basename E new +:+ "':" +:+ nl +:+ e))
                     (λ _ w, load_file E fuel (current_index w) w)) H0) as Htry.
  replace (current_index w + 1)%Z with (current_index (renamed w old new d'))
    by (simpl; lia).
  rewrite <- Htry. unfold try_except, bind at 1 2 3 4, rename_file.
  rewrite Hdisk, Hr. cbn [pdf_files current_index set_log set_disk].
  rewrite (under_review_setitem _ _ _ Hf'). reflexivity.
Qed.

Lemma attempt_rename_failure fuel f old new (w : World) e :
  os_rename E (disk w) old new = inr e →
  attempt_rename E fuel f old new w
  = load_file E fuel (current_index w) (rename_failed w f old new e).
Proof.
  intros Hr. unfold attempt_rename, bind at 1. rewrite close_current_doc_done.
  destruct (close_world_frame w) as (_ & Hfiles & Hidx & _ & Hdisk & _).
  unfold try_except, bind at 1. unfold bind at 1. unfold bind at 1.
  unfold rename_file. rewrite Hdisk, Hr. unfold bind, showerror, emit.
  cbn [current_index set_log]. by rewrite Hidx.
Qed.

Lemma rename_current_same fuel (w : World) f :
  under_review w f → same_file w f →
  rename_current E fuel w = load_file E fuel (current_index w + 1) (advanced w).
Proof.
  intros Hf Hsame. unfold rename_current.
  rewrite (under_review_selected _ _ Hf), (under_review_getitem _ _ Hf).
  cbv zeta. fold (new_name_base w) (ext_of f) (new_file_path w f) (old_file_path w f).
  rewrite bool_decide_eq_true_2 by exact Hsame.
  unfold bind. rewrite close_current_doc_done. unfold advanced. cbv zeta.
  destruct (close_world_frame w) as (_ & _ & Hidx & _).
  cbn [current_index set_current_index]. by rewrite Hidx.
Qed.




(** *** Changing folder *)



(** *** What every action keeps *)

Lemma selected_under_review (w : World) :
  no_file_selected w = false → ∃ f, under_review w f.
Proof.
  unfold no_file_selected. intros H. apply orb_false_iff in H as [_ H].
  apply negb_false_iff, andb_true_iff in H as [H0 H1].
  apply Z.leb_le in H0. apply Z.ltb_lt in H1.
  destruct (lookup_lt_is_Some_2 (pdf_files w) (Z.to_nat (current_index w))) as [f Hf];
    [lia|]. by exists f.
Qed.


Lemma safe_handle_duplicate fuel b f ext p (w : World) :
  safe (handle_duplicate E fuel b f ext p w)
    (λ _ w1, disk w1 = disk w ∧ pdf_files w1 = pdf_files w
             ∧ current_index w1 = current_index w ∧ doc w1 = doc w
             ∧ folder w1 = folder w ∧ destroyed w1 = destroyed w).
Proof.
  unfold handle_duplicate. destruct (path_exists _ _ _); [|done].
  assert (safe (choose_action b f w)
            (λ _ w1, disk w1 = disk w ∧ pdf_files w1 = pdf_files w
                     ∧ current_index w1 = current_index w ∧ doc w1 = doc w
                     ∧ folder w1 = folder w ∧ destroyed w1 = destroyed w)) as Hc.
  { unfold choose_action. destruct (negb _); [done|].
    unfold bind, duplicate_dialog. destruct (dialog_answers w) as [|[c rm] q]; [done|].
    cbn [fst snd]. by destruct (rm && truthy (action_of_click c)). }
  eapply safe_bind; [exact Hc|]. intros a w1 Hw1.
  repeat case_bool_decide; try done.
  by destruct (numbering_loop _ _ _ _ _ _ _).
Qed.








(** Start-up is made of atoms other than those of the renaming. *)
Lemma init_moves fuel (w w' : World) :
  ends_in (init E fuel w) w' → moves false w w'.
Proof.
  assert (good false w (init E fuel w) (λ _ _, True)) as H.
  { unfold init, _load_initial_folder_or_prompt.
    eapply (good_bind _ _ _ _ (λ _ _, True)).
    - eapply (good_bind _ _ _ _ (λ _ _, True)); [eapply good_forget, good_find|].
      intros files w1 _.
      eapply (good_bind _ _ _ _ (λ _ _, True)).
      + apply good_done; [|done]. apply rtc_once. apply atom_pdf_files.
      + intros _ w2 _. destruct files.
        * eapply (good_bind _ _ _ _ (λ _ _, True)); [eapply good_forget; by apply good_emit|].
          intros _ w3 _. apply good_select_core.
        * by apply good_done.
    - intros [] w1 _; [apply good_reload|eapply good_forget, good_exit_app]. }
  destruct (init E fuel w); simpl in *; intros Hend; [subst; tauto..|done].
Qed.


End Properties.

(** ** Further properties of the methods *)

Lemma string_length_app (s t : string) :
  String.length (s +:+ t) = (String.length s + String.length t)%nat.
Proof. induction s as [|c s IH]; simpl; [done|by rewrite IH]. Qed.

Lemma substring_all (t : string) : String.substring 0 (String.length t) t = t.
Proof. induction t as [|c t IH]; simpl; [done|by rewrite IH]. Qed.

Lemma substring_skip (p t : string) (m : nat) :
  String.substring (String.length p) m (p +:+ t) = String.substring 0 m t.
Proof. induction p as [|c p IH]; simpl; [done|exact IH]. Qed.

Lemma substring_split (s : string) :
  ∀ k : nat, (k ≤ String.length s)%nat →
    s = String.substring 0 k s +:+ String.substring k (String.length s - k) s.
Proof.
  induction s as [|c s IH]; intros k Hk; simpl in Hk.
  - by replace k with 0%nat by lia.
  - destruct k as [|k]; simpl.
    + by rewrite substring_all.
    + change (String c s
              = String c (String.substring 0 k s
                          +:+ String.substring k (String.length s - k) s)).
      f_equal. apply IH. lia.
Qed.

(** [s.endswith(suffix)] holds exactly when [s] is some string followed by
    [suffix]. *)
Lemma endswith_spec (s suffix : string) :
  endswith s suffix = true ↔ ∃ stem, s = stem +:+ suffix.
Proof.
  unfold endswith. rewrite andb_true_iff, Nat.leb_le, bool_decide_eq_true. split.
  - intros [Hle Hsub].
    exists (String.substring 0 (String.length s - String.length suffix) s).
    pose proof (substring_split s (String.length s - String.length suffix)) as Hs.
    replace (String.length s - (String.length s - String.length suffix))%nat
      with (String.length suffix) in Hs by lia.
    rewrite Hsub in Hs. apply Hs. lia.
  - intros [stem ->]. rewrite string_length_app. split; [lia|].
    replace (String.length stem + String.length suffix - String.length suffix)%nat
      with (String.length stem) by lia.
    rewrite substring_skip. apply substring_all.
Qed.

Section Coverage.

Context {Disk : Type} (E : Env Disk).

Local Abbreviation World := (World Disk).

(** Settles the comparisons of literal strings and options in the goal. *)
Ltac settle_tests :=
  repeat first
    [ rewrite bool_decide_eq_true_2 by done
    | rewrite bool_decide_eq_false_2 by done ].

(** *** What is logged and what is renamed *)

Lemma rename_attempts_app (l1 l2 : list Event) :
  rename_attempts (l1 ++ l2) = (rename_attempts l1 + rename_attempts l2)%nat.
Proof.
  induction l1 as [|e l1 IH]; [done|]. destruct e; simpl; by rewrite ?IH.
Qed.

Lemma rename_attempts_none (l : list Event) src dst r :
  rename_attempts l = 0%nat → EvRename src dst r ∉ l.
Proof.
  induction l as [|e l IH]; intros H Hin; [by apply elem_of_nil in Hin|].
  apply elem_of_cons in Hin as [<-|Hin]; [done|].
  destruct e; simpl in H; try done; by apply IH.
Qed.

(** The atoms outside the renaming only add to the log, and never a call of
    [os.rename]; they leave the disk, the stored choice and the answers to
    the duplicate dialog alone. *)
Lemma moves_false_log (w w' : World) :
  moves E false w w' →
  ∃ new, log w' = (new ++ log w)%list ∧ rename_attempts new = 0%nat.
Proof.
  induction 1 as [|x y z Hxy _ (new & Hz & Hn)]; [by exists []|].
  assert (∃ new0, log y = (new0 ++ log x)%list ∧ rename_attempts new0 = 0%nat)
    as (new0 & Hy & Hn0).
  { destruct Hxy; simpl; try (by exists []); try discriminate;
      try (eexists [_]; split; [reflexivity|]; simpl; done).
    exists [e]. split; [done|]. by destruct e. }
  exists (new ++ new0)%list. rewrite Hz, Hy, <- app_assoc. split; [done|].
  rewrite rename_attempts_app. lia.
Qed.

Lemma moves_false_choice (w w' : World) :
  moves E false w w' →
  duplicate_handling_choice w' = duplicate_handling_choice w
  ∧ dialog_answers w' = dialog_answers w.
Proof.
  induction 1 as [|x y z Hxy _ [IH1 IH2]]; [done|]. rewrite IH1, IH2.
  destruct Hxy; simpl; try done; discriminate.
Qed.

Lemma step_moves_false fuel op (w w' : World) :
  op ≠ OpRename → ends_in (step E fuel op w) w' → moves E false w w'.
Proof.
  intros Hop.
  assert (good E false w (step E fuel op w) (λ _ _, True)) as H.
  { destruct op; cbn [step]; [|done|..].
    - apply good_done; [|done]. apply rtc_once. apply atom_name_entry.
    - apply good_skip_current.
    - apply good_prev_file.
    - apply good_next_file.
    - apply good_change_folder.
    - eapply good_forget, good_exit_app. }
  destruct (step E fuel op w); simpl in *; intros Hend; [subst; tauto..|done].
Qed.

(** X1: only the Rename action renames.  Typing, Skip, Previous File, Next
    File, Change Folder and Exit never call [os.rename] and leave the disk,
    the stored duplicate choice and the pending answers to the duplicate
    dialog as they are, however the action ends. *)
Theorem navigation_never_renames fuel op (w w' : World) :
  op ≠ OpRename →
  ends_in (step E fuel op w) w' →
  disk w' = disk w
  ∧ rename_attempts (log w') = rename_attempts (log w)
  ∧ duplicate_handling_choice w' = duplicate_handling_choice w
  ∧ dialog_answers w' = dialog_answers w.
Proof.
  intros Hop Hend. pose proof (step_moves_false _ _ _ _ Hop Hend) as Hm.
  destruct (moves_disk E _ _ Hm) as [Hd Hr].
  destruct (moves_false_choice _ _ Hm) as [Hc Ha]. done.
Qed.

Lemma moves_rename_successes r (w w' : World) :
  moves E r w w' →
  (rename_successes (log w) ≤ rename_successes (log w'))%nat
  ∧ (rename_successes (log w') = rename_successes (log w) → disk w' = disk w).
Proof.
  induction 1 as [|x y z Hxy _ [IH1 IH2]]; [done|].
  assert ((rename_successes (log x) ≤ rename_successes (log y))%nat
          ∧ (rename_successes (log y) = rename_successes (log x) → disk y = disk x))
    as [Hle Heq].
  { destruct Hxy; simpl; try done; try (split; [lia|done]).
    - by destruct e.
    - split; [lia|]. lia. }
  split; [lia|]. intros Hsame. rewrite IH2 by lia. apply Heq. lia.
Qed.

(** X2: the disk changes only through an [os.rename] that succeeds: over any
    sequence of actions, if no further successful rename is logged, the disk
    is the one the sequence started with. *)
Theorem disk_changes_only_by_rename fuel ops (w w' : World) :
  ends_in (run E fuel ops w) w' →
  rename_successes (log w') = rename_successes (log w) →
  disk w' = disk w.
Proof.
  intros Hend. apply run_moves in Hend.
  by apply (moves_rename_successes _ _ _ Hend).
Qed.

Lemma numbering_loop_free d dir base ext :
  ∀ (fuel count : nat) p,
    numbering_loop E fuel d dir base ext count = Some p →
    path_exists E d p = false
    ∧ ∃ k : nat, (count ≤ k)%nat ∧ p = numbered_candidate E dir base ext k.
Proof.
  induction fuel as [|fuel IH]; intros count p; simpl; [done|].
  destruct (path_exists E d (numbered_candidate E dir base ext count)) eqn:Hc.
  - intros H. destruct (IH _ _ H) as (Hfree & k & Hk & ->).
    split; [done|]. exists k. split; [lia|done].
  - intros [= <-]. split; [done|]. by exists count.
Qed.

Lemma handle_duplicate_target_free fuel b f ext p0 (w : World) p w1 :
  valid_choice (duplicate_handling_choice w) →
  handle_duplicate E fuel b f ext p0 w = Done (Proceed p) w1 →
  path_exists E (disk w) p = false.
Proof.
  intros Hvalid. unfold handle_duplicate.
  destruct (path_exists E (disk w) p0) eqn:Hex; [|by intros [= <- <-]].
  unfold bind. destruct (choose_action b f w) as [a w2| | |] eqn:Hc; try done.
  pose proof (choose_action_frame _ _ _ _ _ Hc) as (Hdisk & _ & _ & _ & Hfolder & _).
  assert (a = Some "rename_again" ∨ a = Some "add_numbering" ∨ a = Some "skip" ∨ a = None)
    as Ha.
  { apply choose_action_cases in Hc as [(Hne & -> & _)|(_ & c & r & q & _ & -> & _)].
    - destruct Hvalid as [?|[?|[?|?]]]; [done|tauto..].
    - destruct c; simpl; tauto. }
  destruct Ha as [-> | [-> | [-> | ->]]]; settle_tests; unfold ret; try done.
  destruct (numbering_loop E fuel (disk w2) (folder w2) b ext 1) as [q|] eqn:Hloop;
    [|done].
  intros [= <- <-]. apply numbering_loop_free in Hloop as [Hfree _]. by rewrite <- Hdisk.
Qed.

Lemma handle_duplicate_log fuel b f ext p0 (w : World) c w1 :
  handle_duplicate E fuel b f ext p0 w = Done c w1 →
  ∃ new, log w1 = (new ++ log w)%list ∧ rename_attempts new = 0%nat.
Proof.
  unfold handle_duplicate. destruct (path_exists _ _ _); [|intros [= <- <-]; by exists []].
  unfold bind. destruct (choose_action b f w) as [a w2| | |] eqn:Hc; try done.
  apply choose_action_frame in Hc as (_ & _ & _ & _ & _ & Hlog).
  assert (∃ new, log w2 = (new ++ log w)%list ∧ rename_attempts new = 0%nat) as Hnew.
  { destruct Hlog as [->|[r ->]]; [by exists []|]. by eexists [_]. }
  repeat case_bool_decide; unfold ret; try (intros [= <- <-]; done).
  destruct (numbering_loop _ _ _ _ _ _ _); [|done]. by intros [= <- <-].
Qed.

Lemma handle_duplicate_blocked fuel b f ext p0 (w w1 : World) :
  handle_duplicate E fuel b f ext p0 w = Blocked w1 → w1 = w.
Proof.
  unfold handle_duplicate. destruct (path_exists _ _ _); [|done].
  unfold bind, choose_action. destruct (negb _).
  { repeat case_bool_decide; unfold ret; try done.
    by destruct (numbering_loop _ _ _ _ _ _ _). }
  unfold bind, duplicate_dialog. destruct (dialog_answers w) as [|[c r] q]; [by intros [= <-]|].
  cbn [fst snd]. destruct (r && truthy (action_of_click c)); simpl;
    repeat case_bool_decide; unfold ret; try done;
    by destruct (numbering_loop _ _ _ _ _ _ _).
Qed.

Lemma close_world_moves (w : World) : moves E false w (close_world E w).
Proof.
  pose proof (good_close E false w) as H. rewrite close_current_doc_done in H.
  apply H.
Qed.

Lemma only_rename_in (l1 l2 : list Event) e0 src dst r :
  rename_attempts l1 = 0%nat → rename_attempts l2 = 0%nat →
  EvRename src dst r ∈ (l1 ++ e0 :: l2)%list → e0 = EvRename src dst r.
Proof.
  intros H1 H2 Hin. apply elem_of_app in Hin as [Hin|Hin].
  - by apply rename_attempts_none in Hin.
  - apply elem_of_cons in Hin as [->|Hin]; [done|].
    by apply rename_attempts_none in Hin.
Qed.

(** X3: one press of Rename calls [os.rename] at most once, and never onto
    a file that is there: with a stored choice that is one of the four
    values, the source of the call is the path of the file under review and
    the target is a path that did not exist when the method was entered (and
    is not that file under another spelling). *)
Theorem rename_calls_os_rename_once fuel (w w' : World) :
  valid_choice (duplicate_handling_choice w) →
  ends_in (rename_current E fuel w) w' →
  ∃ new,
    log w' = (new ++ log w)%list
    ∧ (rename_attempts new ≤ 1)%nat
    ∧ ∀ src dst r,
        EvRename src dst r ∈ new →
        ∃ f, under_review w f
             ∧ src = old_file_path E w f
             ∧ ¬ same_file E w f
             ∧ path_exists E (disk w) dst = false.
Proof.
  intros Hvalid Hend.
  assert (∀ x : World, moves E false w x →
            ∃ new, log x = (new ++ log w)%list ∧ (rename_attempts new ≤ 1)%nat
                   ∧ ∀ src dst r, EvRename src dst r ∈ new →
                       ∃ f, under_review w f ∧ src = old_file_path E w f
                            ∧ ¬ same_file E w f
                            ∧ path_exists E (disk w) dst = false) as Hquiet.
  { intros x Hx. apply moves_false_log in Hx as (new & Hlog & Hn).
    exists new. split; [done|]. split; [lia|].
    intros src dst r Hin. by apply rename_attempts_none in Hin. }
  destruct (no_file_selected w) eqn:Hsel.
  { unfold rename_current in Hend. rewrite Hsel in Hend. simpl in Hend. subst w'.
    apply Hquiet. apply rtc_once. by apply (atom_notice E false (EvShowInfo _ _)). }
  destruct (selected_under_review w Hsel) as [f Hf].
  destruct (same_file_dec E w f) as [Hsame|Hne].
  { rewrite (rename_current_same E _ _ _ Hf Hsame) in Hend.
    apply load_file_moves in Hend. apply Hquiet.
    eapply rtc_trans; [|exact Hend].
    eapply rtc_r; [apply close_world_moves|]. apply atom_current_index. }
  rewrite (rename_current_unfold E _ _ _ Hf Hne) in Hend.
  destruct (handle_duplicate E fuel (new_name_base E w) f (ext_of E f)
              (new_file_path E w f) w) as [c w1|w1|e w1|] eqn:Hdup.
  - destruct (handle_duplicate_log _ _ _ _ _ _ _ _ Hdup) as (new1 & Hlog1 & Hn1).
    destruct (handle_duplicate_frame E _ _ _ _ _ _ _ _ Hdup)
      as (Hdisk & Hfiles & Hidx & _ & Hfolder).
    assert (∀ x (head : list Event),
              moves E false x w' → log x = (head ++ log w)%list →
              rename_attempts head = 0%nat →
              ∃ new, log w' = (new ++ log w)%list ∧ (rename_attempts new ≤ 1)%nat
                     ∧ ∀ src dst r, EvRename src dst r ∈ new →
                         ∃ f, under_review w f ∧ src = old_file_path E w f
                              ∧ ¬ same_file E w f
                              ∧ path_exists E (disk w) dst = false) as Hquiet1.
    { intros x head Hx Hlogx Hhead. apply moves_false_log in Hx as (new & Hlog & Hn).
      exists (new ++ head)%list. rewrite Hlog, Hlogx, <- app_assoc. split; [done|].
      rewrite rename_attempts_app. split; [lia|].
      intros src dst r Hin. apply rename_attempts_none in Hin; [done|].
      rewrite rename_attempts_app. lia. }
    destruct c as [| |p].
    + simpl in Hend. subst w'. by apply (Hquiet1 w1 new1); [apply rtc_refl|..].
    + apply (Hquiet1 w1 new1); [|done..].
      pose proof (good_skip_current E false fuel w1) as Hg.
      destruct (skip_current E fuel w1); simpl in *; subst; tauto.
    + assert (under_review w1 f) as Hf1 by (unfold under_review; by rewrite Hfiles, Hidx).
      destruct (moves_false_log _ _ (close_world_moves w1)) as (newc & Hlogc & Hnc).
      pose proof (handle_duplicate_target_free _ _ _ _ _ _ _ _ Hvalid Hdup) as Hfree.
      assert (∀ (x : World) (head : list Event) r0,
                moves E false x w' →
                log x = (head ++ EvRename (old_file_path E w f) p r0
                              :: log (close_world E w1))%list →
                rename_attempts head = 0%nat →
                ∃ new, log w' = (new ++ log w)%list ∧ (rename_attempts new ≤ 1)%nat
                       ∧ ∀ src dst r, EvRename src dst r ∈ new →
                           ∃ f, under_review w f ∧ src = old_file_path E w f
                                ∧ ¬ same_file E w f
                                ∧ path_exists E (disk w) dst = false) as Hone.
      { intros x head r0 Hx Hlogx Hhead.
        apply moves_false_log in Hx as (new & Hlog & Hn).
        exists ((new ++ head) ++ EvRename (old_file_path E w f) p r0 :: (newc ++ new1))%list.
        split.
        { rewrite Hlog, Hlogx, Hlogc, Hlog1. rewrite <- !app_assoc. simpl.
          by rewrite <- !app_assoc. }
        split.
        { rewrite !rename_attempts_app. simpl. rewrite !rename_attempts_app. lia. }
        intros src dst r Hin. apply only_rename_in in Hin.
        - injection Hin as <- <- <-. by exists f.
        - rewrite rename_attempts_app. lia.
        - rewrite rename_attempts_app. lia. }
      destruct (os_rename E (disk w1) (old_file_path E w f) p) as [d'|e] eqn:Hr.
      * rewrite (attempt_rename_success E _ _ _ _ _ _ Hf1 Hr) in Hend.
        apply load_file_moves in Hend. by apply (Hone _ [] None Hend).
      * rewrite (attempt_rename_failure E _ _ _ _ _ _ Hr) in Hend.
        apply load_file_moves in Hend.
        eapply (Hone _ [_] (Some e) Hend); [reflexivity|done].
  - simpl in Hend. subst w'. apply handle_duplicate_blocked in Hdup as ->.
    apply Hquiet. apply rtc_refl.
  - pose proof (safe_handle_duplicate E fuel (new_name_base E w) f (ext_of E f)
                  (new_file_path E w f) w) as Hs.
    by rewrite Hdup in Hs.
  - done.
Qed.

(** *** Skipping *)

Lemma skip_current_unfold fuel (w : World) :
  skip_current E fuel w = load_file E fuel (current_index w + 1) (advanced E w).
Proof.
  unfold skip_current, skip_current_with, bind. rewrite close_current_doc_done.
  unfold advanced. cbv zeta.
  destruct (close_world_frame E w) as (_ & _ & Hidx & _).
  cbn [current_index set_current_index]. by rewrite Hidx.
Qed.

Lemma advanced_frame (w : World) :
  current_index (advanced E w) = (current_index w + 1)%Z
  ∧ pdf_files (advanced E w) = pdf_files w
  ∧ folder (advanced E w) = folder w
  ∧ disk (advanced E w) = disk w
  ∧ doc (advanced E w) = None
  ∧ directory_answers (advanced E w) = directory_answers w.
Proof.
  destruct (close_world_frame E w)
    as (Hdoc & Hfiles & Hidx & Hfolder & Hdisk & _ & _ & _ & Hdirs).
  unfold advanced. simpl. by rewrite Hidx.
Qed.

(** What Skip does, from a cursor that is not negative. *)
Lemma skip_current_spec fuel (w : World) :
  (0 ≤ current_index w)%Z →
  (∀ e w', skip_current E fuel w ≠ Raised e w')
  ∧ (∀ w', ends_in (skip_current E fuel w) w' →
           disk w' = disk w ∧ rename_attempts (log w') = rename_attempts (log w))
  ∧ (∀ w', skip_current E fuel w = Done tt w' →
           directory_answers w' = directory_answers w →
           pdf_files w' = pdf_files w ∧ (current_index w + 1 ≤ current_index w')%Z)
  ∧ (∀ g, fuel ≠ 0 →
          pdf_files w !! Z.to_nat (current_index w + 1) = Some g →
          fitz_open E (disk w) (path_join E (folder w) g) = inl tt →
          ∃ w', skip_current E fuel w = Done tt w'
                ∧ pdf_files w' = pdf_files w
                ∧ current_index w' = (current_index w + 1)%Z
                ∧ doc w' = Some (path_join E (folder w) g)
                ∧ log w'
                  = EvOpen (path_join E (folder w) g) None :: log (close_world E w)).
Proof.
  intros H0. rewrite skip_current_unfold.
  destruct (advanced_frame w) as (Hi & Hfiles & Hfolder & Hdisk & Hdoc & Hdirs).
  rewrite <- Hi.
  split; [|split; [|split]].
  - intros e w' Hr. pose proof (safe_load_file E fuel (advanced E w)) as Hs.
    rewrite Hr in Hs. apply Hs. lia.
  - intros w' Hend. apply load_file_moves, moves_disk in Hend as [-> ->].
    split; [done|]. unfold advanced. simpl.
    by destruct (close_world_frame E w) as (_ & _ & _ & _ & _ & _ & Hren & _).
  - intros w' Hrun Hsame.
    pose proof (safe_load_file_list E fuel (advanced E w)) as Hs. rewrite Hrun in Hs.
    destruct Hs as [_ Hs]; [lia|].
    destruct Hs as (Hp & _ & Hc); [by rewrite Hsame, Hdirs|].
    rewrite Hp, Hfiles. split; [done|lia].
  - rewrite Hi. intros g Hfuel Hg Hopen. destruct fuel as [|fuel]; [done|].
    eexists. split.
    + apply load_file_presents with (g := g); [lia|by rewrite Hfiles|].
      by rewrite Hdisk, Hfolder.
    + rewrite close_world_closed by done. unfold advanced, presented. simpl.
      destruct (close_world_frame E w) as (_ & F & I & O & _).
      by rewrite F, I, O.
Qed.


(** X6: Rename with the name left as it is (the new path is the file's own
    path up to [normcase] and [abspath]) is Skip: the two methods give the
    same outcome. *)
Theorem rename_unchanged_is_skip fuel (w : World) f :
  under_review w f → same_file E w f →
  rename_current E fuel w = skip_current E fuel w.
Proof.
  intros Hf Hsame. by rewrite (rename_current_same E _ _ _ Hf Hsame), skip_current_unfold.
Qed.

(** *** Files that do not open *)





(** *** Start-up and the directory dialog *)



(** X10: cancelling the directory dialog and confirming the exit ends the
    session at start-up and not later.  With no PDF file in the start folder,
    these answers destroy the window with nothing loaded.  The same answers
    to Change Folder return with the window, the folder, the file list, the
    cursor, the open document and the disk as they were. *)
Theorem cancel_ends_session_only_at_start_up fuel dir d yesno directories dialogs
    (w : World) :
  (scan E d dir = [] →
   ∃ w', init E fuel
           (fresh dir d (true :: yesno) (EmptyString :: directories) dialogs)
         = Done tt w'
         ∧ destroyed w' = true ∧ pdf_files w' = [] ∧ doc w' = None ∧ disk w' = d
         ∧ yesno_answers w' = yesno ∧ directory_answers w' = directories)
  ∧ (directory_answers w = EmptyString :: directories →
     yesno_answers w = true :: yesno →
     ∃ w', change_folder E fuel w = Done tt w'
           ∧ destroyed w' = destroyed w ∧ folder w' = folder w
           ∧ pdf_files w' = pdf_files w ∧ current_index w' = current_index w
           ∧ doc w' = doc w ∧ disk w' = disk w ∧ name_entry w' = name_entry w
           ∧ yesno_answers w' = yesno ∧ directory_answers w' = directories
           ∧ log w'
             = EvShowInfo TITLE_INFO
                 "Folder selection cancelled or failed. Continuing with previous state if any."
               :: EvAskYesNo TITLE_CONFIRM_EXIT
                    "No folder was selected. Do you want to exit the application?" true
               :: EvAskDirectory (folder w) EmptyString :: log w).
Proof.
  split.
  - intros Hscan. unfold init, _load_initial_folder_or_prompt, bind.
    destruct (find_pdf_files_scan E
                (folder (fresh dir d (true :: yesno) (EmptyString :: directories)
                           dialogs))
                (fresh dir d (true :: yesno) (EmptyString :: directories) dialogs))
      as [l ->].
    change (scan E (disk (fresh dir d (true :: yesno) (EmptyString :: directories)
                            dialogs))
              (folder (fresh dir d (true :: yesno) (EmptyString :: directories)
                         dialogs)))
      with (scan E d dir).
    rewrite Hscan. eexists. split; [reflexivity|]. simpl. done.
  - intros Hdirs Hyes. unfold change_folder, change_folder_with, bind,
      _select_and_load_new_folder_core. rewrite Hdirs. cbn [select_loop].
    rewrite bool_decide_eq_true_2 by done. unfold bind, askyesno. simpl.
    rewrite Hyes. eexists. split; [reflexivity|]. simpl. done.
Qed.




(** X13: [_find_pdf_files] never fails.  When the folder can be listed
    it returns, in the order of the listing, exactly the names whose
    lower-cased form ends in ".pdf", and shows nothing; when listing fails it
    returns the empty list after one error box.  Nothing but the log
    changes. *)
Theorem find_pdf_files_lists_pdf_names dir (w : World) :
  ∃ files l,
    _find_pdf_files E dir w = Done files (set_log l w)
    ∧ match os_listdir E (disk w) dir with
      | inl names =>
          l = log w ∧ files `sublist_of` names
          ∧ ∀ f, f ∈ files
                 ↔ f ∈ names ∧ ∃ stem, str_lower E f = stem +:+ ".pdf"
      | inr _ => files = [] ∧ ∃ message, l = EvShowError TITLE_ERROR message :: log w
      end.
Proof.
  unfold _find_pdf_files.
  destruct (os_listdir E (disk w) dir) as [names|[|e]].
  - eexists _, (log w). split; [by destruct w|]. split; [done|].
    split; [apply sublist_filter|].
    intros f. rewrite list_elem_of_filter, endswith_spec. unfold PDF_EXTENSION. tauto.
  - eexists [], _. split; [reflexivity|]. split; [done|]. by eexists.
  - eexists [], _. split; [reflexivity|]. split; [done|]. by eexists.
Qed.

Lemma select_loop_false answers :
  ∀ (w w' : World),
    select_loop E answers w = Done false w' →
    folder w' = folder w ∧ pdf_files w' = pdf_files w
    ∧ current_index w' = current_index w ∧ doc w' = doc w
    ∧ disk w' = disk w ∧ destroyed w' = destroyed w
    ∧ name_entry w' = name_entry w
    ∧ ∃ earlier,
        log w'
        = EvAskYesNo TITLE_CONFIRM_EXIT
            "No folder was selected. Do you want to exit the application?" true
          :: EvAskDirectory (folder w) EmptyString :: earlier.
Proof.
  induction answers as [|d rest IH]; intros w w' Hrun; [done|].
  cbn [select_loop] in Hrun. set (w0 := set_log _ _) in Hrun.
  case_bool_decide as Hd.
  - unfold bind, askyesno, ret in Hrun. simpl in Hrun.
    destruct (yesno_answers w) as [|b ys]; [done|].
    destruct b; [|done]. injection Hrun as <-. simpl. subst d.
    repeat split; by eexists.
  - destruct (bool_decide (d = folder w0) && negb (bool_decide (pdf_files w0 = [])));
      [done|].
    unfold bind at 1 in Hrun.
    destruct (find_pdf_files_scan E d w0) as [l Hfind]. rewrite Hfind in Hrun.
    destruct (scan E (disk w0) d) as [|file files].
    + unfold bind, showerror, emit in Hrun. simpl in Hrun.
      apply IH in Hrun. simpl in Hrun. exact Hrun.
    + unfold bind in Hrun. rewrite close_current_doc_done in Hrun. done.
Qed.

(** X14: the directory dialog reports failure only after the user has
    cancelled it and confirmed the exit: these two answers are the last
    entries of the log, and folder, file list, cursor, open document, entry
    and disk are as before the dialog. *)
Theorem select_folder_fails_only_on_confirmed_cancel (w w' : World) :
  _select_and_load_new_folder_core E w = Done false w' →
  folder w' = folder w ∧ pdf_files w' = pdf_files w
  ∧ current_index w' = current_index w ∧ doc w' = doc w
  ∧ disk w' = disk w ∧ destroyed w' = destroyed w
  ∧ name_entry w' = name_entry w
  ∧ ∃ earlier,
      log w'
      = EvAskYesNo TITLE_CONFIRM_EXIT
          "No folder was selected. Do you want to exit the application?" true
        :: EvAskDirectory (folder w) EmptyString :: earlier.
Proof. apply select_loop_false. Qed.

(** *** Previous and next file *)


(** *** Whole sessions *)


(** *** Add numbering and unchanged names *)

(** X17: the probing loop of Add numbering ends.  On a disk with finitely
    many paths, where different counters give different candidate paths, at
    most one more probe than there are paths is made, and the candidate
    returned does not exist. *)
Theorem add_numbering_ends d dir base ext (paths : list string) :
  (∀ p, path_exists E d p = true → p ∈ paths) →
  (∀ i j : nat, numbered_candidate E dir base ext i
                = numbered_candidate E dir base ext j → i = j) →
  ∃ k : nat,
    (1 ≤ k ≤ S (length paths))%nat
    ∧ numbering_loop E (S (length paths)) d dir base ext 1
      = Some (numbered_candidate E dir base ext k)
    ∧ path_exists E d (numbered_candidate E dir base ext k) = false.
Proof.
  intros Hpaths Hinj.
  destruct (numbering_loop_terminates E d dir base ext paths Hpaths)
    as (k & Hk & Hloop & Hfree & _).
  - intros i j. apply Hinj.
  - by exists k.
Qed.

(** X18: pressing Rename on a file just loaded, without editing the
    entry, renames nothing and moves on like Skip, as soon as [splitext]
    splits the name into two parts that give it back and [strip] leaves the
    base name alone. *)
Theorem rename_without_editing_is_skip fuel (w : World) f :
  under_review w f →
  name_entry w = (path_splitext E f).1 →
  str_strip E (path_splitext E f).1 = (path_splitext E f).1 →
  (path_splitext E f).1 +:+ (path_splitext E f).2 = f →
  rename_current E fuel w = skip_current E fuel w
  ∧ ∀ w', ends_in (rename_current E fuel w) w' →
          disk w' = disk w ∧ rename_attempts (log w') = rename_attempts (log w).
Proof.
  intros Hf Hentry Hstrip Hsplit.
  assert (same_file E w f) as Hsame.
  { unfold same_file, new_file_path, old_file_path, new_name_base, ext_of.
    by rewrite Hentry, Hstrip, Hsplit. }
  assert (rename_current E fuel w = skip_current E fuel w) as Heq
    by (by rewrite (rename_current_same E _ _ _ Hf Hsame), skip_current_unfold).
  split; [exact Heq|]. intros w' Hend. rewrite Heq in Hend.
  destruct (skip_current_spec fuel w (proj1 Hf)) as (_ & Hkeep & _).
  by apply Hkeep.
Qed.

(** *** The end of the list *)



End Coverage.

(** ** The page controls *)

Section PageNavigation.

Variable int : string → option Z.

Lemma update_preview_image_frame (v : Pages.Viewer) :
  Pages.current_page (Pages.update_preview_image v) = Pages.current_page v
  ∧ Pages.total_pages (Pages.update_preview_image v) = Pages.total_pages v
  ∧ Pages.page_var (Pages.update_preview_image v) = Pages.page_var v
  ∧ Pages.doc_open (Pages.update_preview_image v) = Pages.doc_open v
  ∧ (Pages.doc_open v = true →
     Pages.page_info_label (Pages.update_preview_image v) = Pages.page_info v
     ∧ Pages.page_log (Pages.update_preview_image v)
       = Pages.PgRender (Pages.current_page v) :: Pages.page_log v)
  ∧ (Pages.doc_open v = false → Pages.update_preview_image v = v).
Proof.
  unfold Pages.update_preview_image. destruct (Pages.doc_open v) eqn:Hdoc; simpl; done.
Qed.

Lemma page_kept_same (v v0 : Pages.Viewer) :
  Pages.page_in_document v →
  Pages.current_page v0 = Pages.current_page v →
  Pages.total_pages v0 = Pages.total_pages v →
  Pages.doc_open v0 = Pages.doc_open v →
  Pages.page_info_label v0 = Pages.page_info_label v →
  (∃ new, Pages.page_log v0 = (new ++ Pages.page_log v)%list
          ∧ ∀ p, Pages.PgRender p ∉ new) →
  Pages.page_kept v v0.
Proof.
  intros Hin Hc Ht Hd Hl (new & Hlog & Hnew).
  unfold Pages.page_kept, Pages.page_in_document, Pages.page_info in *.
  rewrite Hc, Ht, Hd, Hl. split; [exact Hin|]. split; [done|]. split; [done|].
  split; [done|]. exists new. split; [done|]. intros p Hp. by apply Hnew in Hp.
Qed.

Lemma page_kept_shown (v v0 : Pages.Viewer) :
  Pages.page_in_document v0 →
  Pages.total_pages v0 = Pages.total_pages v →
  Pages.doc_open v0 = Pages.doc_open v →
  Pages.page_log v0 = Pages.page_log v →
  Pages.page_kept v (Pages.update_preview_image v0).
Proof.
  intros Hin Htotal Hdoc Hlog.
  destruct (update_preview_image_frame v0) as (Hc & Ht & _ & Hd & Hshown & Hnot).
  unfold Pages.page_kept, Pages.page_in_document in *. rewrite Hc, Ht, Hd.
  split; [exact Hin|]. split; [exact Htotal|]. split; [exact Hdoc|]. split.
  - intros Hopen _. rewrite <- Hdoc in Hopen. destruct (Hshown Hopen) as [-> _].
    unfold Pages.page_info. by rewrite Hc, Ht.
  - destruct (Pages.doc_open v0) eqn:Hopen.
    + destruct (Hshown eq_refl) as [_ ->]. exists [Pages.PgRender (Pages.current_page v0)].
      split; [by rewrite Hlog|]. intros p Hp. apply list_elem_of_singleton in Hp.
      injection Hp as ->. by rewrite <- Htotal.
    + rewrite (Hnot eq_refl). exists []. split; [by rewrite Hlog|].
      intros p Hp. by apply elem_of_nil in Hp.
Qed.

Lemma page_step_kept op (v : Pages.Viewer) :
  Pages.page_in_document v → Pages.page_kept v (Pages.page_step int op v).
Proof.
  intros Hin.
  assert (∀ v0 : Pages.Viewer,
            Pages.current_page v0 = Pages.current_page v →
            Pages.total_pages v0 = Pages.total_pages v →
            Pages.doc_open v0 = Pages.doc_open v →
            Pages.page_info_label v0 = Pages.page_info_label v →
            Pages.page_log v0 = Pages.page_log v → Pages.page_kept v v0) as Hsame.
  { intros v0 ?????. apply page_kept_same; try done. exists []. split; [done|].
    intros p Hp. by apply elem_of_nil in Hp. }
  unfold Pages.page_in_document in Hin. destruct op as [| |text]; simpl.
  - unfold Pages.prev_page. destruct (Z.ltb_spec 0 (Pages.current_page v)).
    + apply page_kept_shown; try done. unfold Pages.page_in_document. simpl. lia.
    + by apply Hsame.
  - unfold Pages.next_page.
    destruct (Z.ltb_spec (Pages.current_page v) (Pages.total_pages v - 1)).
    + apply page_kept_shown; try done. unfold Pages.page_in_document. simpl. lia.
    + by apply Hsame.
  - unfold Pages.on_page_entry. simpl Pages.page_var.
    destruct (int text) as [n|]; [|by apply Hsame].
    simpl Pages.total_pages.
    destruct (Z.leb_spec 1 n); destruct (Z.leb_spec n (Pages.total_pages v)); simpl.
    1: { apply page_kept_shown; try done. unfold Pages.page_in_document. simpl. lia. }
    all: apply page_kept_same; try done;
      exists [Pages.PgShowError TITLE_ERROR "Page number out of range."];
      (split; [done|]); intros p Hp; by apply list_elem_of_singleton in Hp.
Qed.

(** X19: whatever is done with the page controls (Prev, Next, a text
    typed in the page entry and Return), the current page stays a page of the
    document, every page rendered is one of its pages, the page count does
    not change, and with a document open the page label keeps showing the
    current page and the count. *)
Theorem page_controls_stay_in_document ops :
  ∀ v : Pages.Viewer,
    (0 ≤ Pages.current_page v < Pages.total_pages v)%Z →
    let v' := Pages.page_run int ops v in
    (0 ≤ Pages.current_page v' < Pages.total_pages v')%Z
    ∧ Pages.total_pages v' = Pages.total_pages v
    ∧ (Pages.doc_open v = true →
       Pages.page_info_label v = Pages.page_info v →
       Pages.page_info_label v' = Pages.page_info v')
    ∧ ∃ new, Pages.page_log v' = (new ++ Pages.page_log v)%list
             ∧ ∀ p, Pages.PgRender p ∈ new → (0 ≤ p < Pages.total_pages v)%Z.
Proof.
  induction ops as [|op ops IH]; intros v Hin; cbv zeta.
  - simpl. split; [exact Hin|]. split; [done|]. split; [done|].
    exists []. split; [done|]. intros p Hp. by apply elem_of_nil in Hp.
  - change (Pages.page_run int (op :: ops) v)
      with (Pages.page_run int ops (Pages.page_step int op v)).
    destruct (page_step_kept op v Hin) as (Hin1 & Ht1 & Hd1 & Hl1 & new1 & Hlog1 & Hr1).
    destruct (IH _ Hin1) as (Hin2 & Ht2 & Hl2 & new2 & Hlog2 & Hr2).
    split; [exact Hin2|]. split; [by rewrite Ht2|]. split.
    + intros Hopen Hlabel. apply Hl2; [by rewrite Hd1|by apply Hl1].
    + exists (new2 ++ new1)%list. split; [by rewrite Hlog2, Hlog1, app_assoc|].
      intros p Hp. apply elem_of_app in Hp as [Hp|Hp].
      * rewrite <- Ht1. by apply Hr2.
      * by apply Hr1.
Qed.

(** X20: Next followed by Prev comes back to the page, and so does Prev
    followed by Next; the entry then shows the number of that page.  At the
    last page Next does nothing, at the first page Prev does nothing. *)
Theorem next_page_then_prev_page (v : Pages.Viewer) :
  (0 ≤ Pages.current_page v < Pages.total_pages v)%Z →
  ((Pages.current_page v < Pages.total_pages v - 1)%Z →
   Pages.current_page (Pages.next_page v) = (Pages.current_page v + 1)%Z
   ∧ Pages.current_page (Pages.prev_page (Pages.next_page v)) = Pages.current_page v
   ∧ Pages.page_var (Pages.prev_page (Pages.next_page v))
     = Pages.str_of_int (Pages.current_page v + 1)
   ∧ (Pages.doc_open v = true →
      Pages.page_log (Pages.prev_page (Pages.next_page v))
      = Pages.PgRender (Pages.current_page v)
        :: Pages.PgRender (Pages.current_page v + 1) :: Pages.page_log v))
  ∧ ((0 < Pages.current_page v)%Z →
     Pages.current_page (Pages.prev_page v) = (Pages.current_page v - 1)%Z
     ∧ Pages.current_page (Pages.next_page (Pages.prev_page v)) = Pages.current_page v
     ∧ Pages.page_var (Pages.next_page (Pages.prev_page v))
       = Pages.str_of_int (Pages.current_page v + 1))
  ∧ (Pages.current_page v = (Pages.total_pages v - 1)%Z → Pages.next_page v = v)
  ∧ (Pages.current_page v = 0%Z → Pages.prev_page v = v).
Proof.
  intros Hin. destruct v as [open page total var label l]. simpl in *.
  split; [|split; [|split]].
  - intros Hlt. unfold Pages.next_page, Pages.prev_page, Pages.update_preview_image.
    simpl. destruct (Z.ltb_spec page (total - 1)); [|lia].
    destruct open; simpl; (destruct (Z.ltb_spec 0 (page + 1)); [|lia]); simpl;
      replace (page + 1 - 1)%Z with page by lia; done.
  - intros Hlt. unfold Pages.next_page, Pages.prev_page, Pages.update_preview_image.
    simpl. destruct (Z.ltb_spec 0 page); [|lia].
    destruct open; simpl; (destruct (Z.ltb_spec (page - 1) (total - 1)); [|lia]); simpl;
      replace (page - 1 + 1)%Z with page by lia; done.
  - intros ->. unfold Pages.next_page. simpl. by rewrite Z.ltb_irrefl.
  - intros ->. unfold Pages.prev_page. simpl. done.
Qed.

(** X21: a page number out of range typed in the entry is rejected with
    one error box: the page stays, and the entry is set back to the number of
    the current page, so that Return pressed again shows that page without
    another error, as soon as [int] reads back what [str] wrote.  A text that
    [int] does not parse is left in the entry, with no message and no change
    of page. *)
Theorem rejected_page_entry_is_reset (v : Pages.Viewer) text :
  (0 ≤ Pages.current_page v < Pages.total_pages v)%Z →
  int (Pages.str_of_int (Pages.current_page v + 1)) = Some (Pages.current_page v + 1)%Z →
  (∀ n, int text = Some n → ¬ (1 ≤ n ≤ Pages.total_pages v)%Z →
        let v1 := Pages.page_step int (Pages.PgEntry text) v in
        Pages.current_page v1 = Pages.current_page v
        ∧ Pages.page_var v1 = Pages.str_of_int (Pages.current_page v + 1)
        ∧ Pages.page_log v1
          = Pages.PgShowError TITLE_ERROR "Page number out of range." :: Pages.page_log v
        ∧ Pages.current_page (Pages.on_page_entry int v1) = Pages.current_page v
        ∧ Pages.page_var (Pages.on_page_entry int v1) = Pages.page_var v1
        ∧ Pages.page_log (Pages.on_page_entry int v1)
          = ((if Pages.doc_open v then [Pages.PgRender (Pages.current_page v)] else [])
             ++ Pages.page_log v1)%list)
  ∧ (int text = None →
     Pages.page_step int (Pages.PgEntry text) v = Pages.set_page_var text v).
Proof.
  intros Hin Hint. destruct v as [open page total var label l].
  simpl in Hin, Hint. split.
  - intros n Hn Hout. cbv zeta. simpl in Hout.
    set (v := Pages.mkViewer open page total var label l).
    assert (Pages.page_step int (Pages.PgEntry text) v
            = Pages.mkViewer open page total (Pages.str_of_int (page + 1)) label
                (Pages.PgShowError TITLE_ERROR "Page number out of range." :: l)) as ->.
    { unfold Pages.page_step, Pages.on_page_entry. simpl. rewrite Hn.
      assert ((1 <=? n)%Z && (n <=? total)%Z = false) as ->; [|done].
      apply andb_false_iff.
      destruct (Z.leb_spec 1 n); destruct (Z.leb_spec n total); auto; lia. }
    split; [done|]. split; [done|]. split; [done|].
    unfold Pages.on_page_entry. simpl. rewrite Hint.
    destruct (Z.leb_spec 1 (page + 1)); [|lia].
    destruct (Z.leb_spec (page + 1) total); [|lia]. simpl.
    unfold Pages.update_preview_image. simpl.
    replace (page + 1 - 1)%Z with page by lia. by destruct open.
  - intros Hnone. unfold Pages.page_step, Pages.on_page_entry. simpl.
    by rewrite Hnone.
Qed.

End PageNavigation.

(** ** Documents without pages and the destroyed window *)

Section EdgeProperties.

Context {Disk : Type} (E : Env Disk).

Variable page_count : string → nat.

Local Abbreviation World := (World Disk).

Lemma calm_refl (w : World) : calm w w.
Proof. by repeat split. Qed.

Lemma calm_trans (w1 w2 w3 : World) : calm w1 w2 → calm w2 w3 → calm w1 w3.
Proof.
  intros (D1 & R1 & N1) (D2 & R2 & N2). split; [congruence|]. split; [congruence|].
  intros H. apply N2, N1, H.
Qed.

Lemma fares_bind {A B} out (w : World) (m : World → Result Disk A)
    (k : A → World → Result Disk B) Q R :
  fares page_count out w (m w) Q →
  (∀ a w1, calm w w1 → Q a w1 → fares page_count out w1 (k a w1) R) →
  fares page_count out w (bind m k w) R.
Proof.
  unfold bind. intros Hm Hk. destruct (m w) as [a w1|w1|e w1|]; simpl in *; try done.
  destruct Hm as [Hc HQ]. specialize (Hk a w1 Hc HQ).
  destruct (k a w1) as [b w2|w2|e w2|]; simpl in *; try done.
  - destruct Hk as [Hc2 HR]. split; [by eapply calm_trans|done].
  - by eapply calm_trans.
  - destruct Hk as [Hc2 HR]. split; [by eapply calm_trans|done].
Qed.

Lemma fares_weaken {A} out out' (w : World) (res : Result Disk A)
    (Q Q' : A → World → Prop) :
  fares page_count out w res Q → (out → out') → (∀ a w', calm w w' → Q a w' → Q' a w') →
  fares page_count out' w res Q'.
Proof.
  destruct res; simpl; try done.
  - intros [Hc HQ] _ HQ'. split; [done|]. by apply HQ'.
  - intros Ho Hout _. by apply Hout.
Qed.

Lemma fares_tk {A} out (w : World) (call : World → Result Disk A) Q :
  (destroyed w = false → fares page_count out w (call w) Q) →
  fares page_count out w (Edge.tk call w) Q.
Proof.
  unfold Edge.tk. destruct (destroyed w) eqn:Hd; [|by intros H; apply H].
  intros _. simpl. split; [apply calm_refl|]. by right.
Qed.

Lemma edge_close_done (w : World) :
  Edge._close_current_doc E page_count w = Done tt (edge_close_world E page_count w).
Proof.
  unfold edge_close_world, Edge._close_current_doc.
  destruct (doc w) as [d|]; [|done]. by destruct (page_count d =? 0)%nat.
Qed.

Lemma edge_close_frame (w : World) :
  let w1 := edge_close_world E page_count w in
  pdf_files w1 = pdf_files w
  ∧ current_index w1 = current_index w
  ∧ folder w1 = folder w
  ∧ disk w1 = disk w
  ∧ rename_attempts (log w1) = rename_attempts (log w)
  ∧ destroyed w1 = destroyed w
  ∧ directory_answers w1 = directory_answers w
  ∧ yesno_answers w1 = yesno_answers w
  ∧ name_entry w1 = name_entry w
  ∧ (doc w1 = None
     ∨ w1 = w ∧ ∃ p, doc w = Some p ∧ page_count p = 0%nat).
Proof.
  unfold edge_close_world, Edge._close_current_doc.
  destruct (doc w) as [d|] eqn:Hd; [|simpl; repeat split; by left].
  destruct (Nat.eqb_spec (page_count d) 0) as [Hzero|Hpages].
  - simpl. repeat split. right. split; [done|]. by exists d.
  - cbv zeta. destruct (doc_close E d); simpl; repeat split; by left.
Qed.

Lemma edge_close_calm (w : World) : calm w (edge_close_world E page_count w).
Proof.
  destruct (edge_close_frame w) as (_ & I & _ & D & R & _). split; [done|].
  split; [done|]. cbv zeta in I. by rewrite I.
Qed.

(** [Edge._find_pdf_files] returns the scan with at most the log changed, or
    stops at the error box it cannot show. *)
Lemma edge_find_pdf_files dir (w : World) :
  (∃ l, Edge._find_pdf_files E dir w = Done (scan E (disk w) dir) (set_log l w)
        ∧ rename_attempts l = rename_attempts (log w))
  ∨ (Edge._find_pdf_files E dir w = Raised Edge.TclError w ∧ destroyed w = true).
Proof.
  unfold Edge._find_pdf_files, scan.
  destruct (os_listdir E (disk w) dir) as [names|[|e]].
  - left. exists (log w). split; [by destruct w|done].
  - unfold bind, Edge.showerror, Edge.tk. destruct (destroyed w) eqn:Hd; [by right|].
    left. by eexists.
  - unfold bind, Edge.showerror, Edge.tk. destruct (destroyed w) eqn:Hd; [by right|].
    left. by eexists.
Qed.

Lemma rename_attempts_notice (e : Event) (l : list Event) :
  (∀ src dst r, e ≠ EvRename src dst r) →
  rename_attempts (e :: l) = rename_attempts l.
Proof. intros He. destruct e; try done. by destruct (He src dst error). Qed.

(** The directory dialog loop of [Edge] ends, takes an answer, and what it
    leaves needs less fuel to load than its answers allowed for. *)
Lemma edge_select_fares answers :
  ∀ w : World,
    fares page_count False w (Edge.select_loop E page_count answers w)
      (λ _ w', (length (directory_answers w') < length answers)%nat
               ∧ (load_cost E w'
                  < S (Z.to_nat (Z.of_nat (length (pdf_files w)) - current_index w))
                    + answers_cost E (disk w) answers)%nat).
Proof.
  induction answers as [|d rest IH]; intros w; cbn [Edge.select_loop].
  { destruct (destroyed w) eqn:Hd; simpl; [|apply calm_refl].
    split; [apply calm_refl|by right]. }
  destruct (destroyed w) eqn:Hd.
  { simpl. split; [apply calm_refl|by right]. }
  set (w0 := set_log _ _). cbn [answers_cost foldr].
  assert (calm w w0) as Hc0 by (by repeat split).
  case_bool_decide.
  { unfold bind, Edge.askyesno, Edge.tk, askyesno. simpl. rewrite Hd.
    destruct (yesno_answers w); simpl; [done|].
    split; [by repeat split|]. split; [lia|]. unfold load_cost. simpl.
    fold (answers_cost E (disk w) rest). lia. }
  destruct (_ && _).
  { unfold bind, Edge.showinfo, Edge.tk. simpl. rewrite Hd. simpl.
    split; [by repeat split|]. split; [lia|]. unfold load_cost. simpl.
    fold (answers_cost E (disk w) rest). lia. }
  unfold bind at 1.
  destruct (edge_find_pdf_files d w0) as [(l & -> & Hl)|[-> Hdestroyed]];
    [|change (destroyed w0) with (destroyed w) in Hdestroyed; congruence].
  change (disk w0) with (disk w).
  destruct (scan E (disk w) d) as [|file files] eqn:Hscan.
  - unfold bind at 1. unfold Edge.showerror, Edge.tk. simpl. rewrite Hd.
    unfold showerror, emit. set (w1 := set_log _ _).
    assert (calm w w1) as Hc1 by (by repeat split).
    eapply fares_weaken; [|done|].
    + assert (fares page_count False w1 (Edge.select_loop E page_count rest w1)
                (λ _ w', (length (directory_answers w') < length rest)%nat
                         ∧ (load_cost E w'
                            < S (Z.to_nat (Z.of_nat (length (pdf_files w1))
                                           - current_index w1))
                              + answers_cost E (disk w1) rest)%nat)) as H1
        by apply IH.
      destruct (Edge.select_loop E page_count rest w1) as [b w2|w2|e w2|];
        simpl in *; try done.
      * destruct H1 as [Hc2 HQ]. split; [by eapply calm_trans|exact HQ].
      * by eapply calm_trans.
      * destruct H1 as [Hc2 HQ]. split; [by eapply calm_trans|exact HQ].
    + simpl. intros _ w' _ [Hlen Hcost]. split; [lia|].
      fold (answers_cost E (disk w) rest). simpl in Hcost. lia.
  - unfold bind. rewrite edge_close_done. simpl.
    destruct (edge_close_frame (set_log l w0))
      as (_ & _ & _ & Hdisk & Hren & _ & Hdirs & _). cbv zeta in *.
    split.
    + split; [exact Hdisk|]. split; [|simpl; lia]. simpl. rewrite Hren. simpl.
      by rewrite Hl.
    + simpl. rewrite Hdirs. simpl. split; [lia|].
      unfold load_cost. simpl. rewrite Hdisk, Hdirs. simpl.
      fold (answers_cost E (disk w) rest). lia.
Qed.

Lemma fares_emit out (w : World) e :
  (∀ src dst r, e ≠ EvRename src dst r) →
  fares page_count out w (emit e w) (λ _ w', w' = set_log (e :: log w) w).
Proof.
  intros He. simpl. split; [|done]. split; [done|]. split; [|done].
  simpl. by apply rename_attempts_notice.
Qed.

Lemma fares_showinfo out (w : World) title message :
  fares page_count out w (Edge.showinfo title message w)
    (λ _ w', w' = set_log (EvShowInfo title message :: log w) w ∧ destroyed w = false).
Proof.
  apply fares_tk. intros Hd. eapply fares_weaken; [by apply fares_emit|done|].
  by intros _ w' _ ->.
Qed.

Lemma fares_showerror out (w : World) title message :
  fares page_count out w (Edge.showerror title message w)
    (λ _ w', w' = set_log (EvShowError title message :: log w) w ∧ destroyed w = false).
Proof.
  apply fares_tk. intros Hd. eapply fares_weaken; [by apply fares_emit|done|].
  by intros _ w' _ ->.
Qed.

Lemma fares_window_call out (w : World) :
  fares page_count out w (Edge.window_call w) (λ _ w', w' = w ∧ destroyed w = false).
Proof. apply fares_tk. intros Hd. simpl. split; [apply calm_refl|done]. Qed.

Lemma fares_exit_app out (w : World) :
  fares page_count out w (Edge.exit_app w)
    (λ _ w', w' = set_log (EvDestroy :: log w) (set_destroyed true w)).
Proof. apply fares_tk. intros Hd. simpl. split; [by repeat split|done]. Qed.

Lemma fares_askyesno out (w : World) title message :
  fares page_count out w (Edge.askyesno title message w)
    (λ b w', ∃ rest,
       yesno_answers w = b :: rest
       ∧ w' = set_log (EvAskYesNo title message b :: log w) (set_yesno_answers rest w)
       ∧ destroyed w = false).
Proof.
  apply fares_tk. intros Hd. unfold askyesno.
  destruct (yesno_answers w) as [|b rest]; simpl; [apply calm_refl|].
  split; [by repeat split|]. by exists rest.
Qed.

Lemma fares_close out (w : World) :
  fares page_count out w (Edge._close_current_doc E page_count w)
    (λ _ w', w' = edge_close_world E page_count w).
Proof. rewrite edge_close_done. simpl. split; [apply edge_close_calm|done]. Qed.

Lemma fares_select out (w : World) :
  fares page_count out w (Edge._select_and_load_new_folder_core E page_count w)
    (λ _ w', (length (directory_answers w') < length (directory_answers w))%nat
             ∧ (load_cost E w' < load_cost E w)%nat).
Proof.
  unfold Edge._select_and_load_new_folder_core.
  eapply fares_weaken; [apply edge_select_fares|done|]. simpl.
  intros _ w' _ [Hlen Hcost]. split; [done|]. unfold load_cost at 2. lia.
Qed.

Lemma fares_advance out (w : World) :
  fares page_count out w
    (bind (Edge._close_current_doc E page_count)
       (λ _ w, Done tt (set_current_index (current_index w + 1) w)) w)
    (λ _ w', w' = set_current_index (current_index w + 1) (edge_close_world E page_count w)).
Proof.
  unfold bind. rewrite edge_close_done.
  destruct (edge_close_frame w) as (_ & Hidx & _ & Hdisk & Hren & _). cbv zeta in *.
  simpl. rewrite Hidx. split; [|done]. split; [done|]. split; [done|]. simpl. lia.
Qed.

(** Loading the file at the cursor in [Edge]: it ends within the fuel of
    [load_cost], renames nothing, and unless the user is asked for a folder
    on the way it keeps the file list and the folder and does not move the
    cursor back. *)
Lemma edge_load_file_fares fuel :
  ∀ w : World,
    (0 ≤ current_index w)%Z →
    fares page_count (¬ (load_cost E w ≤ fuel)%nat) w
      (Edge.load_file E page_count fuel (current_index w) w)
      (λ _ w', (length (directory_answers w') ≤ length (directory_answers w))%nat
               ∧ (length (directory_answers w') = length (directory_answers w) →
                  pdf_files w' = pdf_files w ∧ folder w' = folder w
                  ∧ (current_index w ≤ current_index w')%Z)).
Proof.
  induction fuel as [|fuel IH]; intros w H0.
  { simpl. unfold load_cost. lia. }
  cbn [Edge.load_file].
  eapply fares_bind; [apply fares_close|]. intros _ w1 Hc1 ->.
  destruct (edge_close_frame w) as (Hfiles & Hidx & Hfolder & Hdisk & _ & _ & Hdirs & _).
  cbv zeta in *. set (w1 := edge_close_world E page_count w) in *.
  assert (load_cost E w1 = load_cost E w) as Hcost1
    by (unfold load_cost; by rewrite Hfiles, Hidx, Hdisk, Hdirs).
  assert (∀ (w2 : World) (b : bool) (w3 : World),
            current_index w2 = current_index w →
            directory_answers w2 = directory_answers w →
            load_cost E w2 = load_cost E w →
            calm w2 w3 →
            (length (directory_answers w3) < length (directory_answers w2))%nat →
            (load_cost E w3 < load_cost E w2)%nat →
            fares page_count (¬ (load_cost E w ≤ S fuel)%nat) w3
              ((if b then λ w, Edge.load_file E page_count fuel (current_index w) w
                else Edge.exit_app) w3)
              (λ _ w', (length (directory_answers w') < length (directory_answers w))%nat))
    as Hnext.
  { intros w2 b w3 I2 D2 C2 (_ & _ & N3) Hlen Hcost. rewrite D2 in Hlen.
    destruct b.
    - assert (0 ≤ current_index w3)%Z as H3 by (apply N3; by rewrite I2).
      eapply fares_weaken; [exact (IH w3 H3)|lia|].
      simpl. intros _ w4 _ [Hle _]. lia.
    - eapply fares_weaken; [apply fares_exit_app|done|].
      simpl. intros _ w4 _ ->. simpl. lia. }
  rewrite Hfiles.
  destruct (Z.leb_spec (Z.of_nat (length (pdf_files w))) (current_index w)) as [Hge|Hlt].
  - case_bool_decide as Hempty.
    + eapply fares_bind; [apply fares_showinfo|]. intros _ w2 Hc2 [-> Hd2].
      eapply fares_bind; [apply fares_select|]. intros b w3 Hc3 [Hlen Hcost].
      eapply fares_weaken; [eapply (Hnext _ b w3); [| | |exact Hc3|exact Hlen|exact Hcost]|done|].
      * simpl. exact Hidx.
      * simpl. exact Hdirs.
      * unfold load_cost. simpl. fold (load_cost E w1). exact Hcost1.
      * simpl. intros _ w4 _ Hlt4. lia.
    + eapply fares_bind; [apply fares_askyesno|].
      intros b w2 Hc2 (rest & Hyes & -> & Hd2). destruct b.
      * eapply fares_weaken; [apply fares_exit_app|done|].
        simpl. intros _ w4 _ ->. simpl. rewrite Hdirs, Hfiles, Hfolder, Hidx.
        split; [lia|]. intros _. split; [done|]. split; [done|]. lia.
      * unfold Edge.change_folder_with.
        eapply fares_bind
          with (Q := λ _ w', (length (directory_answers w')
                              < length (directory_answers w))%nat).
        -- eapply fares_bind; [apply fares_window_call|]. intros _ w3 Hc3 [-> Hd3].
           eapply fares_bind; [apply fares_select|]. intros b w3 Hc3' [Hlen Hcost].
           destruct b.
           ++ eapply fares_weaken;
                [eapply (Hnext _ true w3); [| | |exact Hc3'|exact Hlen|exact Hcost]|done|].
              ** simpl. exact Hidx.
              ** simpl. exact Hdirs.
              ** unfold load_cost. simpl. fold (load_cost E w1). exact Hcost1.
              ** simpl. intros _ w4 _ Hlt4. exact Hlt4.
           ++ eapply fares_weaken; [apply fares_showinfo|done|].
              simpl. intros _ w4 _ [-> _]. simpl. simpl in Hlen. rewrite Hdirs in Hlen.
              exact Hlen.
        -- intros _ w3 Hc3 Hlen3.
           eapply fares_weaken; [apply fares_window_call|done|].
           simpl. intros _ w4 _ [-> _]. lia.
  - assert (is_Some (pdf_files w !! Z.to_nat (current_index w))) as [g Hg]
      by (apply lookup_lt_is_Some; lia).
    unfold py_getitem, py_index. cbv zeta.
    destruct (Z.leb_spec 0 (current_index w)); [|lia].
    destruct (Z.ltb_spec (current_index w) (Z.of_nat (length (pdf_files w)))); [|lia].
    rewrite Hg.
    eapply fares_bind; [apply fares_window_call|]. intros _ w2 Hc2 [-> Hd2].
    cbv zeta. rewrite Hfolder, Hdisk.
    destruct (fitz_open E (disk w) (path_join E (folder w) g)) as [[]|e] eqn:Hopen.
    + destruct (Nat.eqb_spec (page_count (path_join E (folder w) g)) 0) as [Hzero|Hpages].
      * simpl. split; [by repeat split|]. left. split; [done|]. by eexists.
      * simpl. split; [by repeat split|]. rewrite Hdirs, Hfiles, Hfolder, Hidx.
        split; [lia|]. intros _. split; [done|]. split; [done|]. lia.
    + eapply fares_bind.
      { eapply fares_bind; [by apply fares_emit|]. intros _ w2 _ ->.
        apply fares_showerror. }
      intros _ w2 _ [-> _]. unfold Edge.skip_current_with.
      set (w3 := set_log _ (set_log _ w1)).
      eapply fares_bind; [apply fares_advance|]. intros _ w4 _ ->.
      destruct (edge_close_frame w3) as (F3 & I3 & O3 & D3 & _ & _ & A3 & _).
      cbv zeta in *. set (w4 := set_current_index _ _).
      assert (current_index w4 = (current_index w + 1)%Z) as I4.
      { change (current_index w4) with (current_index w1 + 1)%Z. by rewrite Hidx. }
      assert (pdf_files w4 = pdf_files w) as F4.
      { change (pdf_files w4) with (pdf_files (edge_close_world E page_count w3)).
        rewrite F3. exact Hfiles. }
      assert (folder w4 = folder w) as O4.
      { change (folder w4) with (folder (edge_close_world E page_count w3)).
        rewrite O3. exact Hfolder. }
      assert (disk w4 = disk w) as D4.
      { change (disk w4) with (disk (edge_close_world E page_count w3)).
        rewrite D3. exact Hdisk. }
      assert (directory_answers w4 = directory_answers w) as A4.
      { change (directory_answers w4)
          with (directory_answers (edge_close_world E page_count w3)).
        rewrite A3. exact Hdirs. }
      clearbody w4.
      assert (0 ≤ current_index w4)%Z as H4 by lia.
      eapply fares_weaken; [exact (IH w4 H4)| |].
      * unfold load_cost. rewrite F4, I4, D4, A4. lia.
      * simpl. intros _ w5 _ [Hle Hsame]. rewrite A4 in Hle, Hsame.
        split; [exact Hle|]. intros Heq. destruct (Hsame Heq) as (-> & -> & Hidx5).
        rewrite F4, O4. split; [done|]. split; [done|]. lia.
Qed.

Lemma edge_close_idem (w : World) :
  edge_close_world E page_count (edge_close_world E page_count w)
  = edge_close_world E page_count w.
Proof.
  destruct (edge_close_frame w) as (_ & _ & _ & _ & _ & _ & _ & _ & _ & Hdoc).
  cbv zeta in Hdoc. destruct Hdoc as [Hnone|[Hsame (p & Hp & Hzero)]].
  - unfold edge_close_world at 1. unfold Edge._close_current_doc. by rewrite Hnone.
  - rewrite Hsame. unfold edge_close_world, Edge._close_current_doc.
    rewrite Hp. by rewrite Hzero.
Qed.

Lemma edge_close_set_index v (w : World) :
  edge_close_world E page_count (set_current_index v w)
  = set_current_index v (edge_close_world E page_count w).
Proof.
  unfold edge_close_world, Edge._close_current_doc. simpl.
  destruct (doc w) as [d|]; [|done].
  destruct (page_count d =? 0)%nat; [done|]. by destruct (doc_close E d).
Qed.

Lemma edge_skip_current_fares fuel (w : World) :
  (0 ≤ current_index w)%Z →
  fares page_count True w (Edge.skip_current E page_count fuel w)
    (λ _ w', length (directory_answers w') = length (directory_answers w) →
             pdf_files w' = pdf_files w ∧ (current_index w + 1 ≤ current_index w')%Z).
Proof.
  intros H0. unfold Edge.skip_current, Edge.skip_current_with.
  eapply fares_bind; [apply fares_advance|]. intros _ w1 _ ->.
  destruct (edge_close_frame w) as (F & I & _ & _ & _ & _ & A & _). cbv zeta in *.
  set (w1 := set_current_index _ _).
  assert (current_index w1 = (current_index w + 1)%Z) as I1 by done.
  assert (pdf_files w1 = pdf_files w) as F1 by exact F.
  assert (directory_answers w1 = directory_answers w) as A1 by exact A.
  clearbody w1. assert (0 ≤ current_index w1)%Z as H1 by lia.
  eapply fares_weaken; [exact (edge_load_file_fares fuel w1 H1)|done|].
  simpl. intros _ w' _ [_ Hsame] Heq. rewrite A1, F1, I1 in Hsame.
  destruct (Hsame Heq) as (? & _ & ?). done.
Qed.

(** X4: the Skip button, from a cursor that is not negative.  However it
    ends, the disk is as before and [os.rename] was not called.  When it
    raises, it is the viewer's error on a document without pages, which is
    then left in [doc], or Tk's error on the destroyed window.  When it
    returns and the user was not asked for a folder on the way, the file list
    is as before and the cursor at least one further.  When the next file is
    there and opens, the cursor is exactly one further and that file is in
    [doc]: with pages it is presented, its base name in the entry; without
    pages the method raises and the entry keeps its text. *)
Theorem skip_button_advances fuel (w : World) :
  (0 ≤ current_index w)%Z →
  (∀ w', ends_in (Edge.skip_current E page_count fuel w) w' →
         disk w' = disk w ∧ rename_attempts (log w') = rename_attempts (log w))
  ∧ (∀ e w', Edge.skip_current E page_count fuel w = Raised e w' →
             (e = Edge.ValueError ∧ ∃ p, doc w' = Some p ∧ page_count p = 0%nat)
             ∨ (e = Edge.TclError ∧ destroyed w' = true))
  ∧ (∀ w', Edge.skip_current E page_count fuel w = Done tt w' →
           length (directory_answers w') = length (directory_answers w) →
           pdf_files w' = pdf_files w ∧ (current_index w + 1 ≤ current_index w')%Z)
  ∧ (∀ g, fuel ≠ 0%nat → destroyed w = false →
          pdf_files w !! Z.to_nat (current_index w + 1) = Some g →
          fitz_open E (disk w) (path_join E (folder w) g) = inl tt →
          let pdf_path := path_join E (folder w) g in
          let w1 := edge_close_world E page_count w in
          let opened :=
            set_doc (Some pdf_path)
              (set_log (EvOpen pdf_path None :: log w1)
                 (set_current_index (current_index w + 1) w1)) in
          Edge.skip_current E page_count fuel w
          = if (page_count pdf_path =? 0)%nat then Raised Edge.ValueError opened
            else Done tt
                   (set_name_entry (path_splitext E g).1
                      (set_first_load_done true opened))).
Proof.
  intros H0. pose proof (edge_skip_current_fares fuel w H0) as Hfares.
  split; [|split; [|split]].
  - intros w' Hend.
    destruct (Edge.skip_current E page_count fuel w) as [[] w2|w2|e w2|];
      simpl in *; [| |destruct Hfares as [Hfares _]|done]; subst w2.
    + by destruct Hfares as [(? & ? & _) _].
    + by destruct Hfares as (? & ? & _).
    + by destruct Hfares as (? & ? & _).
  - intros e w' Hrun. rewrite Hrun in Hfares. apply Hfares.
  - intros w' Hrun. rewrite Hrun in Hfares. apply Hfares.
  - intros g Hfuel Halive Hg Hopen. cbv zeta. destruct fuel as [|fuel]; [done|].
    unfold Edge.skip_current, Edge.skip_current_with. unfold bind at 1 2.
    rewrite edge_close_done.
    destruct (edge_close_frame w) as (F & I & O & D & _ & Hd & _). cbv zeta in *.
    cbn [Edge.load_file]. unfold bind at 1.
    cbn [current_index set_current_index]. rewrite I.
    set (w2 := set_current_index _ _). rewrite edge_close_done.
    assert (edge_close_world E page_count w2 = w2) as ->
      by (unfold w2; by rewrite edge_close_set_index, edge_close_idem).
    pose proof (lookup_lt_Some _ _ _ Hg) as Hlt.
    change (pdf_files w2) with (pdf_files (edge_close_world E page_count w)).
    rewrite F.
    destruct (Z.leb_spec (Z.of_nat (length (pdf_files w))) (current_index w + 1));
      [lia|].
    unfold py_getitem, py_index. cbv zeta.
    destruct (Z.leb_spec 0 (current_index w + 1)); [|lia].
    destruct (Z.ltb_spec (current_index w + 1) (Z.of_nat (length (pdf_files w))));
      [|lia].
    rewrite Hg. unfold bind, Edge.window_call, Edge.tk, ret.
    change (destroyed w2) with (destroyed (edge_close_world E page_count w)).
    rewrite Hd, Halive.
    change (disk w2) with (disk (edge_close_world E page_count w)).
    change (folder w2) with (folder (edge_close_world E page_count w)).
    rewrite D, O, Hopen. reflexivity.
Qed.

(** X8: loading the file at the cursor does not go on for ever.  From a
    cursor that is not negative, fuel for one call per file left in the list,
    and per folder the user will pick one call per PDF file in it and two
    more, is enough for the method to end: it returns, or waits for an answer
    to a dialog, or raises the viewer's error on a document without pages
    (left in [doc]), or raises Tk's error on the destroyed window. *)
Theorem load_file_ends fuel (w : World) :
  (0 ≤ current_index w)%Z →
  (load_cost E w ≤ fuel)%nat →
  (∃ w', Edge.load_file E page_count fuel (current_index w) w = Done tt w')
  ∨ (∃ w', Edge.load_file E page_count fuel (current_index w) w = Blocked w')
  ∨ (∃ w' p, Edge.load_file E page_count fuel (current_index w) w
             = Raised Edge.ValueError w'
             ∧ doc w' = Some p ∧ page_count p = 0%nat)
  ∨ (∃ w', Edge.load_file E page_count fuel (current_index w) w
           = Raised Edge.TclError w'
           ∧ destroyed w' = true).
Proof.
  intros H0 Hcost. pose proof (edge_load_file_fares fuel w H0) as H.
  destruct (Edge.load_file E page_count fuel (current_index w) w)
    as [[] w'|w'|e w'|]; simpl in H.
  - left. by eexists.
  - right; left. by eexists.
  - destruct H as [_ [[-> (p & Hp & Hzero)]|[-> Hd]]].
    + right; right; left. by exists w', p.
    + right; right; right. by exists w'.
  - done.
Qed.

End EdgeProperties.

(** ** The methods on documents with pages *)

Section EdgeAgreement.

Context {Disk : Type} (E : Env Disk).

Variable page_count : string → nat.

Hypothesis with_pages : ∀ p, page_count p ≠ 0%nat.

Local Abbreviation World := (World Disk).

Lemma agree_close (w : World) :
  Edge._close_current_doc E page_count w = _close_current_doc E w.
Proof.
  unfold Edge._close_current_doc, _close_current_doc.
  destruct (doc w) as [d|]; [|done].
  by destruct (Nat.eqb_spec (page_count d) 0) as [Hzero|_]; [destruct (with_pages d)|].
Qed.

Lemma agree_tk {A} (call : World → Result Disk A) (w : World) :
  destroyed w = false → Edge.tk call w = call w.
Proof. unfold Edge.tk. by intros ->. Qed.

Lemma agree_find dir (w : World) :
  destroyed w = false → Edge._find_pdf_files E dir w = _find_pdf_files E dir w.
Proof.
  intros Hd. unfold Edge._find_pdf_files, _find_pdf_files, bind, Edge.showerror.
  destruct (os_listdir E (disk w) dir) as [names|[|e]]; [done|..];
    by rewrite agree_tk.
Qed.

Lemma agrees_same {A} (res : Result Disk A) :
  (∀ e w', res = Raised e w' → destroyed w' = false) → agrees res res.
Proof. intros H. by left. Qed.

(** The directory dialog loop is the same in both, and does not destroy the
    window. *)
Lemma agree_select answers :
  ∀ w : World,
    destroyed w = false →
    Edge.select_loop E page_count answers w = select_loop E answers w
    ∧ ∀ w', ends_in (select_loop E answers w) w' → destroyed w' = false.
Proof.
  induction answers as [|d rest IH]; intros w Hd;
    cbn [Edge.select_loop select_loop]; rewrite Hd.
  { split; [done|]. by intros w' <-. }
  set (w0 := set_log _ _). assert (destroyed w0 = false) as Hd0 by exact Hd.
  case_bool_decide.
  { unfold bind, Edge.askyesno. rewrite agree_tk by done. split; [done|].
    unfold askyesno. destruct (yesno_answers w0); simpl; by intros w' <-. }
  destruct (_ && _).
  { unfold bind, Edge.showinfo. rewrite agree_tk by done. split; [done|].
    simpl. by intros w' <-. }
  unfold bind. rewrite agree_find by done.
  destruct (find_pdf_files_scan E d w0) as [l ->].
  destruct (scan E (disk w0) d) as [|file files].
  - unfold Edge.showerror. rewrite agree_tk by done.
    unfold showerror, emit. apply IH. exact Hd.
  - rewrite agree_close, close_current_doc_done. split; [done|].
    simpl. intros w' <-. simpl.
    destruct (close_world_frame E (set_log l w0)) as (_ & _ & _ & _ & _ & _ & _ & -> & _).
    exact Hd.
Qed.

Lemma bind_done {A B} (m : World → Result Disk A) (k : A → World → Result Disk B)
    (w : World) a w1 :
  m w = Done a w1 → bind m k w = k a w1.
Proof. unfold bind. by intros ->. Qed.

Lemma agree_change_folder (edge_load base_load : Z → World → Result Disk unit) :
  (∀ index w, destroyed w = false → agrees (edge_load index w) (base_load index w)) →
  ∀ w : World,
    destroyed w = false →
    agrees (Edge.change_folder_with E page_count edge_load w)
      (change_folder_with E base_load w).
Proof.
  intros Hload w Hd.
  unfold Edge.change_folder_with, change_folder_with, bind, Edge.window_call,
    Edge._select_and_load_new_folder_core, _select_and_load_new_folder_core.
  rewrite agree_tk by done. unfold ret.
  destruct (agree_select (directory_answers w) w Hd) as [-> Halive].
  destruct (select_loop E (directory_answers w) w) as [ok w1|w1|e w1|].
  - assert (destroyed w1 = false) as Hd1 by (by apply Halive).
    destruct ok.
    + destruct (Hload (current_index w1) w1 Hd1)
        as [[-> Hraised]|(a & w' & -> & Hdestroyed & ->)].
      * destruct (base_load (current_index w1) w1) as [[] w2|w2|e w2|].
        -- unfold Edge.tk. destruct (destroyed w2) eqn:Hd2.
           ++ right. by exists tt, w2.
           ++ by left.
        -- by left.
        -- left. split; [done|]. intros e' w' [= <- <-]. by apply (Hraised e).
        -- by left.
      * right. by exists a, w'.
    + unfold Edge.showinfo. rewrite agree_tk by done. unfold showinfo, emit.
      rewrite agree_tk by exact Hd1. by left.
  - by left.
  - left. split; [done|]. intros e' w' [= <- <-]. by apply Halive.
  - by left.
Qed.

(** Loading is the same in both until the window is destroyed. *)
Lemma agree_load_file fuel :
  ∀ index (w : World),
    destroyed w = false →
    agrees (Edge.load_file E page_count fuel index w) (load_file E fuel index w).
Proof.
  induction fuel as [|fuel IH]; intros index w Hd; [by left|].
  cbn [Edge.load_file load_file].
  destruct (close_world_frame E w) as (_ & _ & _ & _ & _ & _ & _ & Hd1 & _).
  rewrite Hd in Hd1. set (w1 := close_world E w) in *.
  assert (Edge._close_current_doc E page_count w = Done tt w1) as Hedge
    by (by rewrite agree_close, close_current_doc_done).
  rewrite (bind_done _ _ w tt w1 Hedge).
  rewrite (bind_done _ _ w tt w1 (close_current_doc_done E w)).
  destruct (Z.of_nat (length (pdf_files w1)) <=? index)%Z.
  - case_bool_decide.
    + unfold bind, Edge.showinfo. rewrite agree_tk by done. unfold showinfo, emit.
      set (w2 := set_log _ w1).
      unfold Edge._select_and_load_new_folder_core, _select_and_load_new_folder_core.
      destruct (agree_select (directory_answers w2) w2 Hd1) as [-> Halive].
      destruct (select_loop E (directory_answers w2) w2) as [ok w3|w3|e w3|].
      * assert (destroyed w3 = false) as Hd3 by (by apply Halive).
        destruct ok; [by apply IH|].
        unfold Edge.exit_app. rewrite agree_tk by done. by left.
      * by left.
      * left. split; [done|]. intros e' w' [= <- <-]. by apply Halive.
      * by left.
    + unfold bind, Edge.askyesno. rewrite agree_tk by done. unfold askyesno.
      destruct (yesno_answers w1) as [|[] rest]; [by left| |].
      * unfold Edge.exit_app. rewrite agree_tk by done. by left.
      * apply agree_change_folder; [exact IH|exact Hd1].
  - destruct (py_getitem (pdf_files w1) index) as [g|].
    + unfold bind at 1, Edge.window_call. rewrite agree_tk by done. unfold ret.
      cbv zeta.
      destruct (fitz_open E (disk w1) (path_join E (folder w1) g)) as [[]|e].
      * destruct (Nat.eqb_spec (page_count (path_join E (folder w1) g)) 0)
          as [Hzero|_]; [by destruct (with_pages _ Hzero)|]. by left.
      * unfold bind, emit, Edge.showerror. rewrite agree_tk by done.
        unfold showerror, emit. unfold Edge.skip_current_with, skip_current_with, bind.
        rewrite agree_close, close_current_doc_done.
        set (w2 := set_log _ (set_log _ w1)).
        destruct (close_world_frame E w2) as (_ & _ & _ & _ & _ & _ & _ & Hd2 & _).
        apply IH. simpl. rewrite Hd2. exact Hd1.
    + left. split; [done|]. by intros e' w' [= <- <-].
Qed.

Lemma agree_advance fuel (w : World) :
  destroyed w = false →
  agrees
    (bind (bind (Edge._close_current_doc E page_count)
             (λ _ w, Done tt (set_current_index (current_index w + 1) w)))
       (λ _ w, Edge.load_file E page_count fuel (current_index w) w) w)
    (bind (bind (_close_current_doc E)
             (λ _ w, Done tt (set_current_index (current_index w + 1) w)))
       (λ _ w, load_file E fuel (current_index w) w) w).
Proof.
  intros Hd. unfold bind. rewrite agree_close, close_current_doc_done.
  destruct (close_world_frame E w) as (_ & _ & _ & _ & _ & _ & _ & Hd1 & _).
  apply agree_load_file. simpl. by rewrite Hd1.
Qed.

Lemma agree_choose b f (w : World) :
  destroyed w = false →
  Edge.choose_action b f w = choose_action b f w
  ∧ ∀ w', ends_in (choose_action b f w) w' → destroyed w' = false.
Proof.
  intros Hd. unfold Edge.choose_action, choose_action.
  destruct (negb _); [split; [done|by intros w' <-]|].
  unfold bind, Edge.duplicate_dialog. rewrite agree_tk by done. split; [done|].
  unfold duplicate_dialog. destruct (dialog_answers w) as [|[click remember] rest];
    [by intros w' <-|].
  simpl. destruct (remember && truthy (action_of_click click)); simpl; by intros w' <-.
Qed.

Lemma agree_handle fuel b f ext p (w : World) :
  destroyed w = false →
  Edge.handle_duplicate E fuel b f ext p w = handle_duplicate E fuel b f ext p w
  ∧ ∀ w', ends_in (handle_duplicate E fuel b f ext p w) w' → destroyed w' = false.
Proof.
  intros Hd. unfold Edge.handle_duplicate, handle_duplicate.
  destruct (path_exists E (disk w) p); [|split; [done|by intros w' <-]].
  unfold bind. destruct (agree_choose b f w Hd) as [-> Halive].
  split; [done|].
  destruct (choose_action b f w) as [action w1|w1|e w1|]; try (intros w' <-; by apply Halive);
    [|done].
  assert (destroyed w1 = false) as Hd1 by (by apply Halive).
  repeat (case_bool_decide; [simpl; try (by intros w' <-)|]).
  - destruct (numbering_loop E fuel (disk w1) (folder w1) b ext 1); [|done].
    by intros w' <-.
  - simpl. by intros w' <-.
Qed.

Lemma agree_try {A} (edge_body base_body : World → Result Disk A)
    (edge_handler base_handler : string → World → Result Disk A) (w : World) :
  agrees (edge_body w) (base_body w) →
  (∀ e w2, destroyed w2 = false → agrees (edge_handler e w2) (base_handler e w2)) →
  (∀ w', destroyed w' = true → edge_handler Edge.TclError w' = Raised Edge.TclError w') →
  agrees (try_except edge_body edge_handler w) (try_except base_body base_handler w).
Proof.
  intros Hbody Hhandler Hgone. unfold try_except.
  destruct Hbody as [[-> Hraised]|(a & w' & -> & Hdestroyed & ->)].
  - destruct (base_body w) as [a w2|w2|e w2|]; [by left|by left| |by left].
    apply Hhandler. by apply (Hraised e).
  - right. exists a, w'. split; [done|]. split; [done|]. by apply Hgone.
Qed.

Lemma agree_attempt fuel f old new (w : World) :
  destroyed w = false →
  agrees (Edge.attempt_rename E page_count fuel f old new w)
    (attempt_rename E fuel f old new w).
Proof.
  intros Hd. unfold Edge.attempt_rename, attempt_rename.
  destruct (close_world_frame E w) as (_ & _ & _ & _ & _ & _ & _ & Hd1 & _).
  rewrite Hd in Hd1. set (w1 := close_world E w) in *.
  assert (Edge._close_current_doc E page_count w = Done tt w1) as Hedge
    by (by rewrite agree_close, close_current_doc_done).
  rewrite (bind_done _ _ w tt w1 Hedge).
  rewrite (bind_done _ _ w tt w1 (close_current_doc_done E w)).
  assert (∀ e (w2 : World),
            destroyed w2 = false →
            agrees
              (bind (Edge.showerror TITLE_ERROR
                       ("Error renaming '" +:+ f +:+ "' to '"
                        +:+ path_basename E new +:+ "':" +:+ nl +:+ e))
                 (λ _ w, Edge.load_file E page_count fuel (current_index w) w) w2)
              (bind (showerror TITLE_ERROR
                       ("Error renaming '" +:+ f +:+ "' to '"
                        +:+ path_basename E new +:+ "':" +:+ nl +:+ e))
                 (λ _ w, load_file E fuel (current_index w) w) w2)) as Hhandler.
  { intros e w2 Hd2. unfold bind, Edge.showerror. rewrite agree_tk by done.
    unfold showerror, emit. by apply agree_load_file. }
  apply agree_try.
  - unfold bind, rename_file.
    destruct (os_rename E (disk w1) old new) as [d'|e];
      [|left; split; [done|]; by intros e' w' [= <- <-]].
    set (w2 := set_log _ (set_disk d' w1)).
    destruct (py_setitem (pdf_files w2) (current_index w2) (path_basename E new))
      as [l|]; [|left; split; [done|]; by intros e' w' [= <- <-]].
    by apply agree_load_file.
  - exact Hhandler.
  - intros w' Hdestroyed. unfold bind, Edge.showerror, Edge.tk. by rewrite Hdestroyed.
Qed.

Lemma agree_bind {A B} (edge_m base_m : World → Result Disk A)
    (edge_k base_k : A → World → Result Disk B) (w : World) :
  edge_m w = base_m w →
  (∀ w', ends_in (base_m w) w' → destroyed w' = false) →
  (∀ a w1, destroyed w1 = false → agrees (edge_k a w1) (base_k a w1)) →
  agrees (bind edge_m edge_k w) (bind base_m base_k w).
Proof.
  intros Hsame Halive Hk. unfold bind. rewrite Hsame.
  destruct (base_m w) as [a w1|w1|e w1|].
  - apply Hk. by apply Halive.
  - by left.
  - left. split; [done|]. intros e' w' [= <- <-]. by apply Halive.
  - by left.
Qed.

Lemma agree_rename_current fuel (w : World) :
  destroyed w = false →
  agrees (Edge.rename_current E page_count fuel w) (rename_current E fuel w).
Proof.
  intros Hd. unfold Edge.rename_current, rename_current. cbv zeta.
  destruct (no_file_selected w).
  { unfold Edge.showinfo. rewrite agree_tk by done. by left. }
  destruct (py_getitem (pdf_files w) (current_index w)) as [f|];
    [|left; split; [done|]; by intros e' w' [= <- <-]].
  case_bool_decide; [by apply agree_advance|].
  destruct (agree_handle fuel (str_strip E (name_entry w)) f (path_splitext E f).2
              (path_join E (folder w) (str_strip E (name_entry w) +:+ (path_splitext E f).2))
              w Hd) as [Hsame Halive].
  apply agree_bind; [exact Hsame|exact Halive|].
  intros outcome w1 Hd1. destruct outcome as [| |target].
  - by left.
  - unfold Edge.skip_current, skip_current, Edge.skip_current_with, skip_current_with.
    by apply agree_advance.
  - by apply agree_attempt.
Qed.

Lemma agree_init fuel (w : World) :
  destroyed w = false →
  agrees (Edge.init E page_count fuel w) (init E fuel w).
Proof.
  intros Hd. unfold Edge.init, init, Edge._load_initial_folder_or_prompt,
    _load_initial_folder_or_prompt, bind.
  rewrite agree_find by done.
  destruct (find_pdf_files_scan E (folder w) w) as [l ->].
  destruct (scan E (disk w) (folder w)) as [|file files].
  - unfold Edge.window_call, Edge.showinfo. rewrite agree_tk by done. unfold ret.
    rewrite agree_tk by done. unfold showinfo, emit. set (w1 := set_log _ _).
    unfold Edge._select_and_load_new_folder_core, _select_and_load_new_folder_core.
    destruct (agree_select (directory_answers w1) w1 Hd) as [-> Halive].
    destruct (select_loop E (directory_answers w1) w1) as [ok w2|w2|e w2|].
    + assert (destroyed w2 = false) as Hd2 by (by apply Halive).
      rewrite agree_tk by done. destruct ok.
      * unfold Edge.tk. repeat (rewrite Hd2; cbv beta iota).
        by apply agree_load_file.
      * unfold Edge.exit_app. rewrite agree_tk by done. by left.
    + by left.
    + left. split; [done|]. intros e' w' [= <- <-]. by apply Halive.
    + by left.
  - unfold Edge.window_call, Edge.tk, ret. repeat (simpl; rewrite Hd).
    apply agree_load_file. exact Hd.
Qed.

(** X23: on documents that all have pages, and with the window there, every
    method of [Edge] ends as the method above does from the same state, with
    one exception: where the method above returns with the window destroyed,
    that of [Edge] may raise Tk's error instead, in the same state.  So the
    methods above are the program on documents with pages, up to that error;
    and what they raise, they raise with the window there. *)
Theorem methods_agree_on_documents_with_pages fuel op (w : World) :
  destroyed w = false →
  agrees (Edge.step E page_count fuel op w) (step E fuel op w)
  ∧ agrees (Edge.init E page_count fuel w) (init E fuel w).
Proof.
  intros Hd. split; [|by apply agree_init].
  destruct op; cbn [Edge.step step].
  - by left.
  - by apply agree_rename_current.
  - unfold Edge.skip_current, skip_current, Edge.skip_current_with, skip_current_with.
    by apply agree_advance.
  - unfold Edge.prev_file, prev_file. destruct (0 <? current_index w)%Z.
    + by apply agree_load_file.
    + unfold Edge.showinfo. rewrite agree_tk by done. by left.
  - unfold Edge.next_file, next_file.
    destruct (current_index w <? Z.of_nat (length (pdf_files w)) - 1)%Z.
    + by apply agree_load_file.
    + unfold Edge.showinfo. rewrite agree_tk by done. by left.
  - unfold Edge.change_folder, change_folder.
    apply agree_change_folder; [|exact Hd]. intros index w1 Hd1.
    by apply agree_load_file.
  - unfold Edge.exit_app. rewrite agree_tk by done. by left.
Qed.

End EdgeAgreement.

(** ** The properties on the sample states *)

Import Sample.

(** *** Numbering always ends on a POSIX disk *)

Lemma string_app_inv_tail (t : string) :
  ∀ s1 s2 : string, s1 +:+ t = s2 +:+ t → s1 = s2.
Proof.
  induction s1 as [|c s1 IH]; intros [|c' s2] H; [done| | |].
  - apply (f_equal String.length) in H. rewrite !string_length_app in H. simpl in H. lia.
  - apply (f_equal String.length) in H. rewrite !string_length_app in H. simpl in H. lia.
  - simpl in H. injection H as -> H. f_equal. by apply IH.
Qed.

Lemma posix_join_inj a c (t t' : string) :
  Posix.join a (String c t) = Posix.join a (String c t') → t = t'.
Proof.
  unfold Posix.join. simpl. destruct (Posix.is_char c Posix.slash); [by intros [=]|].
  destruct (rev (Posix.chars a)) as [|e ?]; [by intros [=]|].
  destruct (Posix.is_char e Posix.slash).
  - intros H. apply (inj (String.app a)) in H. by injection H.
  - intros H. apply (inj (String.app a)) in H. simpl in H. by injection H.
Qed.

Lemma posix_candidate_inj dir base ext :
  Inj (=) (=) (numbered_candidate Posix.env dir base ext).
Proof.
  intros k k' H. unfold numbered_candidate, str_of_count in H. simpl in H.
  apply (inj pretty).
  apply (string_app_inv_tail (")" +:+ ext)).
  destruct base as [|c base]; simpl in H.
  - by apply posix_join_inj in H.
  - apply posix_join_inj in H. apply (inj (String.app base)) in H. simpl in H.
    by injection H.
Qed.

Lemma posix_exists_listed (d : Posix.Disk) p :
  Posix.exists_ d p = true → p ∈ d.*1.
Proof.
  unfold Posix.exists_. intros H. apply bool_decide_eq_true_1 in H as [r Hr].
  induction d as [|[q b] d IH]; simpl in *; [done|].
  case_bool_decide; simplify_eq; [left|right; by apply IH].
Qed.

(** On a POSIX disk the probing loop returns for every folder, base name and
    extension, within one more probe than the disk has files, and what it
    returns is the candidate of the smallest free counter. *)
Lemma posix_numbering_terminates (d : Posix.Disk) dir base ext :
  ∃ k : nat,
    (1 ≤ k ≤ S (length d))%nat
    ∧ numbering_loop Posix.env (S (length d)) d dir base ext 1
      = Some (numbered_candidate Posix.env dir base ext k)
    ∧ Posix.exists_ d (numbered_candidate Posix.env dir base ext k) = false
    ∧ (∀ j : nat, (1 ≤ j < k)%nat →
            Posix.exists_ d (numbered_candidate Posix.env dir base ext j) = true).
Proof.
  destruct (numbering_loop_terminates Posix.env d dir base ext d.*1)
    as (k & Hk & H).
  - apply posix_exists_listed.
  - apply posix_candidate_inj.
  - rewrite length_fmap in Hk, H. by exists k.
Qed.

(** *** The sample states are states of the program *)

Lemma at_a_is_reached :
  init Posix.env 1 (started docs [] []) = Done tt (at_a "a" []).
Proof. reflexivity. Qed.

Lemma finished_is_reached :
  ∃ w0 w1,
    init Posix.env 1 (started one_file [false; true] [EmptyString]) = Done tt w0
    ∧ run Posix.env 2 [OpSkip] w0 = Done tt w1
    ∧ pdf_files w1 = pdf_files finished
    ∧ current_index w1 = current_index finished
    ∧ doc w1 = doc finished
    ∧ destroyed w1 = false.
Proof.
  eexists. eexists. split; [vm_compute; reflexivity|].
  split; [vm_compute; reflexivity|]. repeat split.
Qed.

Lemma at_a_under_review entry dialogs : under_review (at_a entry dialogs) "a.pdf".
Proof. split; [simpl; lia|reflexivity]. Defined.


(** *** Witnesses and counterexamples *)

Lemma rename_current_nothing_selected_witness :
  ∃ w', rename_current Posix.env 1 finished = Done tt w'
        ∧ current_index w' = 1%Z ∧ pdf_files w' = ["a.pdf"].
Proof.
  destruct (rename_current_nothing_selected Posix.env 1 finished)
    as (w' & Hrun & _ & Hfiles & Hidx & _).
  { right; right. simpl. lia. }
  exists w'. split; [exact Hrun|]. split; [exact Hidx|exact Hfiles].
Defined.

Lemma retry_and_cancel_change_nothing_witness :
  rename_current Posix.env 1 (at_a "x" [(CloseWindow, true)])
  = Done tt
      (set_log
         [EvDuplicateDialog "x" "a.pdf" None true; EvOpen "/docs/a.pdf" None]
         (at_a "x" [])).
Proof.
  refine (proj1 (retry_and_cancel_change_nothing Posix.env 1
                   (at_a "x" [(CloseWindow, true)]) "a.pdf" None _
                   (at_a_under_review _ _) _ _ _ _)).
  - intros H. vm_compute in H. discriminate.
  - reflexivity.
  - reflexivity.
  - right. reflexivity.
Defined.

Lemma add_numbering_smallest_free_witness :
  numbering_loop Posix.env 5 numbered "/docs" "name" ".pdf" 1 = Some "/docs/name(3).pdf".
Proof.
  refine (proj1 (add_numbering_smallest_free Posix.env numbered "/docs" "name" ".pdf"
                   3 5 _ _ _ _)).
  - lia.
  - lia.
  - reflexivity.
  - intros j Hj. destruct j as [|[|[|j]]]; [lia|reflexivity|reflexivity|lia].
Defined.






Lemma remembered_choice_is_applied_witness :
  ∃ w',
    ends_in
      (run Posix.env 3 [OpType "x"; OpRename]
         (set_duplicate_handling_choice (Some "add_numbering") (at_a "a" [(ClickSkip, true)])))
      w'
    ∧ duplicate_handling_choice w' = Some "add_numbering"
    ∧ dialog_answers w' = [(ClickSkip, true)]
    ∧ pdf_files w' = ["x(1).pdf"; "c.pdf"; "x.pdf"].
Proof.
  set (w := set_duplicate_handling_choice (Some "add_numbering")
              (at_a "a" [(ClickSkip, true)])).
  set (w' := last_world (run Posix.env 3 [OpType "x"; OpRename] w) w).
  assert (ends_in (run Posix.env 3 [OpType "x"; OpRename] w) w') as Hend
    by (vm_compute; reflexivity).
  destruct (remembered_choice_is_applied Posix.env 3 [OpType "x"; OpRename] w w')
    as (_ & Hkeep & _).
  - right; right; left. reflexivity.
  - exact Hend.
  - destruct Hkeep as (Hchoice & _ & Hanswers); [discriminate|].
    exists w'. split; [exact Hend|]. split; [exact Hchoice|]. split; [exact Hanswers|].
    reflexivity.
Defined.

(** C6 fails for Skip.  The program starts in a folder with the single file
    a.pdf; the user skips it, answers no to exiting, cancels the folder
    dialog and confirms.  The window is there, the list has its one file and
    the cursor is 1, within bounds.  Skip, with the same answers, moves the
    cursor to 2, past the length 1. *)
Theorem skip_at_end_of_list_leaves_bounds :
  ∃ w0 w1 w2,
    init Posix.env 1
      (started one_file [false; true; false; true] [EmptyString; EmptyString])
    = Done tt w0
    ∧ run Posix.env 2 [OpSkip] w0 = Done tt w1
    ∧ destroyed w1 = false ∧ in_bounds w1
    ∧ pdf_files w1 = ["a.pdf"] ∧ current_index w1 = 1%Z
    ∧ skip_current Posix.env 2 w1 = Done tt w2
    ∧ destroyed w2 = false
    ∧ pdf_files w2 = ["a.pdf"] ∧ current_index w2 = 2%Z
    ∧ ¬ in_bounds w2.
Proof.
  eexists. eexists. eexists. split; [vm_compute; reflexivity|].
  split; [vm_compute; reflexivity|].
  split; [reflexivity|]. split; [unfold in_bounds; simpl; lia|].
  split; [reflexivity|]. split; [reflexivity|].
  split; [vm_compute; reflexivity|].
  split; [reflexivity|]. split; [reflexivity|]. split; [reflexivity|].
  unfold in_bounds. simpl. lia.
Qed.



(** *** Witnesses of the further properties *)

Lemma navigation_never_renames_witness :
  ∃ w', ends_in (step Posix.env 2 OpSkip (at_a "y" [])) w'
        ∧ disk w' = docs ∧ rename_attempts (log w') = 0%nat.
Proof.
  set (w' := last_world (step Posix.env 2 OpSkip (at_a "y" [])) (at_a "y" [])).
  assert (ends_in (step Posix.env 2 OpSkip (at_a "y" [])) w') as Hend
    by (vm_compute; reflexivity).
  destruct (navigation_never_renames Posix.env 2 OpSkip (at_a "y" []) w')
    as (Hdisk & Hren & _).
  - discriminate.
  - exact Hend.
  - exists w'. split; [exact Hend|]. split; [exact Hdisk|exact Hren].
Defined.

Lemma disk_changes_only_by_rename_witness :
  ∃ w', ends_in (run Posix.env 2 [OpType "y"; OpNextFile; OpSkip] (at_a "a" [])) w'
        ∧ disk w' = docs.
Proof.
  set (w' := last_world (run Posix.env 2 [OpType "y"; OpNextFile; OpSkip] (at_a "a" []))
               (at_a "a" [])).
  assert (ends_in (run Posix.env 2 [OpType "y"; OpNextFile; OpSkip] (at_a "a" [])) w')
    as Hend by (vm_compute; reflexivity).
  exists w'. split; [exact Hend|].
  apply (disk_changes_only_by_rename Posix.env 2 [OpType "y"; OpNextFile; OpSkip]
           (at_a "a" []) w' Hend).
  reflexivity.
Defined.

Lemma rename_calls_os_rename_once_witness :
  ∃ w' new,
    ends_in (rename_current Posix.env 2 (at_a "y" [])) w'
    ∧ log w' = (new ++ log (at_a "y" []))%list
    ∧ (rename_attempts new ≤ 1)%nat.
Proof.
  set (w' := last_world (rename_current Posix.env 2 (at_a "y" [])) (at_a "y" [])).
  assert (ends_in (rename_current Posix.env 2 (at_a "y" [])) w') as Hend
    by (vm_compute; reflexivity).
  destruct (rename_calls_os_rename_once Posix.env 2 (at_a "y" []) w')
    as (new & Hlog & Hone & _).
  - left. reflexivity.
  - exact Hend.
  - exists w', new. split; [exact Hend|]. split; [exact Hlog|exact Hone].
Defined.


Lemma rename_unchanged_is_skip_witness :
  rename_current Posix.env 2 (at_a "a" []) = skip_current Posix.env 2 (at_a "a" []).
Proof.
  apply (rename_unchanged_is_skip Posix.env 2 (at_a "a" []) "a.pdf").
  - apply at_a_under_review.
  - reflexivity.
Defined.



Lemma cancel_ends_session_only_at_start_up_witness :
  (∃ w', init Posix.env 1 (fresh "/docs" no_pdfs [true] [EmptyString] []) = Done tt w'
         ∧ destroyed w' = true)
  ∧ (∃ w', change_folder Posix.env 1 (at_c_asked [true] [EmptyString]) = Done tt w'
           ∧ destroyed w' = false ∧ current_index w' = 1%Z
           ∧ doc w' = Some "/docs/c.pdf").
Proof.
  destruct (cancel_ends_session_only_at_start_up Posix.env 1 "/docs" no_pdfs [] [] []
              (at_c_asked [true] [EmptyString])) as [Hstart Hlater].
  split.
  - destruct Hstart as (w' & Hrun & Hdestroyed & _); [reflexivity|].
    exists w'. split; [exact Hrun|exact Hdestroyed].
  - destruct Hlater as (w' & Hrun & Hdestroyed & _ & _ & Hidx & Hdoc & _);
      [reflexivity|reflexivity|].
    exists w'. split; [exact Hrun|]. split; [exact Hdestroyed|].
    split; [exact Hidx|exact Hdoc].
Defined.



Lemma select_folder_fails_only_on_confirmed_cancel_witness :
  ∃ w', _select_and_load_new_folder_core Posix.env (at_c_asked [true] [EmptyString])
        = Done false w'
        ∧ pdf_files w' = ["a.pdf"; "c.pdf"; "x.pdf"]
        ∧ current_index w' = 1%Z
        ∧ doc w' = Some "/docs/c.pdf".
Proof.
  set (w := at_c_asked [true] [EmptyString]).
  set (w' := last_world (_select_and_load_new_folder_core Posix.env w) w).
  assert (_select_and_load_new_folder_core Posix.env w = Done false w') as Hrun
    by (vm_compute; reflexivity).
  destruct (select_folder_fails_only_on_confirmed_cancel Posix.env w w' Hrun)
    as (_ & Hfiles & Hidx & Hdoc & _).
  exists w'. split; [exact Hrun|]. split; [exact Hfiles|]. split; [exact Hidx|exact Hdoc].
Defined.



Lemma add_numbering_ends_witness :
  ∃ k : nat,
    (1 ≤ k ≤ 5)%nat
    ∧ numbering_loop Posix.env 5 numbered "/docs" "name" ".pdf" 1
      = Some (numbered_candidate Posix.env "/docs" "name" ".pdf" k).
Proof.
  destruct (add_numbering_ends Posix.env numbered "/docs" "name" ".pdf" numbered.*1)
    as (k & Hk & Hloop & _).
  - apply posix_exists_listed.
  - intros i j. apply posix_candidate_inj.
  - exists k. split; [exact Hk|exact Hloop].
Defined.

Lemma rename_without_editing_is_skip_witness :
  rename_current Posix.env 2 (at_a "a" []) = skip_current Posix.env 2 (at_a "a" []).
Proof.
  apply (rename_without_editing_is_skip Posix.env 2 (at_a "a" []) "a.pdf").
  - apply at_a_under_review.
  - reflexivity.
  - reflexivity.
  - reflexivity.
Defined.


Lemma page_controls_stay_in_document_witness :
  (0 ≤ Pages.current_page
         (Pages.page_run Pages.decimal
            [Pages.PgNext; Pages.PgEntry "7"; Pages.PgEntry "3"; Pages.PgNext]
            Pages.three_pages)
   < 3)%Z.
Proof.
  destruct (page_controls_stay_in_document Pages.decimal
              [Pages.PgNext; Pages.PgEntry "7"; Pages.PgEntry "3"; Pages.PgNext]
              Pages.three_pages) as [Hin _].
  - simpl. lia.
  - exact Hin.
Defined.

Lemma next_page_then_prev_page_witness :
  Pages.current_page (Pages.prev_page (Pages.next_page Pages.three_pages)) = 0%Z
  ∧ Pages.page_var (Pages.prev_page (Pages.next_page Pages.three_pages)) = "1".
Proof.
  destruct (next_page_then_prev_page Pages.three_pages) as [Hback _].
  - simpl. lia.
  - destruct Hback as (_ & Hpage & Hvar & _); [simpl; lia|].
    split; [exact Hpage|exact Hvar].
Defined.

Lemma rejected_page_entry_is_reset_witness :
  Pages.page_var (Pages.page_step Pages.decimal (Pages.PgEntry "7") Pages.three_pages)
  = "1"
  ∧ Pages.current_page
      (Pages.page_step Pages.decimal (Pages.PgEntry "7") Pages.three_pages)
    = 0%Z.
Proof.
  destruct (rejected_page_entry_is_reset Pages.decimal Pages.three_pages "7")
    as [Hreject _].
  - simpl. lia.
  - reflexivity.
  - destruct (Hreject 7%Z) as (Hpage & Hvar & _).
    + reflexivity.
    + simpl. lia.
    + split; [exact Hvar|exact Hpage].
Defined.

Lemma skip_button_advances_witness :
  Edge.skip_current Posix.env pages 1 (at_a "a" [])
  = Done tt
      (mkWorld "/docs" ["a.pdf"; "c.pdf"; "x.pdf"] 1 (Some "/docs/c.pdf") true
         (Some "ask") "c" false docs
         [EvOpen "/docs/c.pdf" None; EvClose "/docs/a.pdf"; EvOpen "/docs/a.pdf" None]
         [] [] [])
  ∧ Edge.skip_current Posix.env pages 1
      (reviewing with_pageless ["a.pdf"; "z.pdf"] 0 "a.pdf" "a" [] [])
    = Raised Edge.ValueError
        (mkWorld "/docs" ["a.pdf"; "z.pdf"] 1 (Some "/docs/z.pdf") true
           (Some "ask") "a" false with_pageless
           [EvOpen "/docs/z.pdf" None; EvClose "/docs/a.pdf"; EvOpen "/docs/a.pdf" None]
           [] [] []).
Proof.
  split.
  - destruct (skip_button_advances Posix.env pages 1 (at_a "a" [])) as (_ & _ & _ & Hnext).
    + simpl. lia.
    + rewrite (Hnext "c.pdf"); [reflexivity|discriminate|reflexivity..].
  - destruct (skip_button_advances Posix.env pages 1
                (reviewing with_pageless ["a.pdf"; "z.pdf"] 0 "a.pdf" "a" [] []))
      as (_ & _ & _ & Hnext).
    + simpl. lia.
    + rewrite (Hnext "z.pdf"); [reflexivity|discriminate|reflexivity..].
Defined.

Lemma load_file_ends_witness :
  (∃ w', Edge.load_file Posix.env pages 3 0
           (set_pdf_files ["a.pdf"; "b.pdf"] (started unreadable_first [] []))
         = Done tt w')
  ∨ (∃ w', Edge.load_file Posix.env pages 3 0
             (set_pdf_files ["a.pdf"; "b.pdf"] (started unreadable_first [] []))
           = Blocked w')
  ∨ (∃ w' p, Edge.load_file Posix.env pages 3 0
               (set_pdf_files ["a.pdf"; "b.pdf"] (started unreadable_first [] []))
             = Raised Edge.ValueError w'
             ∧ doc w' = Some p ∧ pages p = 0%nat)
  ∨ (∃ w', Edge.load_file Posix.env pages 3 0
             (set_pdf_files ["a.pdf"; "b.pdf"] (started unreadable_first [] []))
           = Raised Edge.TclError w'
           ∧ destroyed w' = true).
Proof.
  apply (load_file_ends Posix.env pages 3
           (set_pdf_files ["a.pdf"; "b.pdf"] (started unreadable_first [] []))).
  - simpl. lia.
  - vm_compute. lia.
Defined.

(** C9 fails on a document without pages.  The program starts in a folder
    with a.pdf and z.pdf, where z.pdf opens as a document without pages.  The
    user skips a.pdf: z.pdf is opened and [load_file] raises, which Tk
    reports.  The user types y and renames: z.pdf is false in [if self.doc],
    so [_close_current_doc] does not close it, and [os.rename] is called on
    /docs/z.pdf while the document opened from it is open; it stays in
    [doc] to the end. *)
Theorem rename_with_pageless_document_open :
  ∃ w0 w' later earlier,
    Edge.init Posix.env pages 1 (started with_pageless [true] []) = Done tt w0
    ∧ Edge.run Posix.env pages 3 [OpSkip; OpType "y"; OpRename] w0 = Done tt w'
    ∧ log w' = (later ++ EvRename "/docs/z.pdf" "/docs/y.pdf" None :: earlier)%list
    ∧ earlier
      = [EvPrint "Exception in Tkinter callback: ValueError: page not in document";
         EvOpen "/docs/z.pdf" None; EvClose "/docs/a.pdf"; EvOpen "/docs/a.pdf" None]
    ∧ open_document earlier = Some (Some "/docs/z.pdf")
    ∧ (EvClose "/docs/z.pdf" ∉ log w')
    ∧ doc w' = Some "/docs/z.pdf"
    ∧ disk w' = [("/docs/y.pdf", true); ("/docs/a.pdf", true)].
Proof.
  eexists. eexists.
  exists [EvDestroy;
          EvAskYesNo "Finished" "All files processed. Do you want to exit the program?"
            true].
  eexists. split; [vm_compute; reflexivity|]. split; [vm_compute; reflexivity|].
  split; [reflexivity|]. split; [reflexivity|]. split; [reflexivity|].
  split; [|split; reflexivity].
  intros Hin. repeat (apply elem_of_cons in Hin as [Hin|Hin]; [discriminate|]).
  by apply elem_of_nil in Hin.
Qed.

Lemma methods_agree_on_documents_with_pages_witness :
  agrees (Edge.step Posix.env (λ _, 1%nat) 2 OpRename (at_a "y" []))
    (step Posix.env 2 OpRename (at_a "y" []))
  ∧ agrees (Edge.init Posix.env (λ _, 1%nat) 2 (started docs [] []))
      (init Posix.env 2 (started docs [] [])).
Proof.
  split.
  - apply (methods_agree_on_documents_with_pages Posix.env (λ _, 1%nat));
      [intros p; discriminate|reflexivity].
  - apply (methods_agree_on_documents_with_pages Posix.env (λ _, 1%nat)
             ltac:(intros p; discriminate) 2 OpExit (started docs [] []) eq_refl).
Defined.
